(** * Exchange monitor: normalisation, risk metrics and fetch scheduling

    A shallow embedding of
      - [src/exchanges/binance.client.ts]  (modules [Binance], [Binance64],
        [BinanceWallet], [BinanceWallet64]),
      - [src/exchanges/bybit.client.ts]    (modules [Bybit], [Bybit64],
        [BybitWallet], [BybitWallet64]),
      - [src/services/dataFetcherService.ts] (modules [Fetcher], [Startup]),
      - [routes/exchange.routes.ts]        (module [Routes]),
    over a model of the JavaScript values the code manipulates.

    Conventions of the embedding.
      - A JavaScript number is modelled at two levels.  [F64.number] is
        the number of the language: an IEEE 754 binary64 value with the
        operations of the standard library's [SpecFloat] (rounding to
        nearest with ties to even, signed zeros, overflow to the
        infinities, [NaN]), and with [parseFloat] and
        [Number(x.toFixed(2))] rounding as ECMAScript prescribes.  The
        modules whose name ends in [64] embed the numeric code over it,
        and the statements that depend on rounding or overflow (the risk
        metrics, sizes and wallet totals) are made there.  [JS.number] is an idealisation: [NaN], the two
        infinities, or a finite value carried as an exact rational, with
        exact arithmetic.  It carries the control flow (failure handling,
        scheduling, selection) and the statements on given inputs, on
        signs and orderings, and on the propagation of [NaN].
      - A field of a JSON response is a [JS.value]: absent ([VUndefined]),
        a string, or a number, so that [a || b] and [parseFloat] can be
        written as in the source.
      - An awaited call that may reject is an [option]: [None] is the
        rejected promise, and [try]/[catch] is a match on it.
      - Mutable module state and the clients' [lastValidData] are passed
        explicitly.  The tables of the service are finite maps; a key that
        names a member inherited from [Object.prototype] is outside them
        ([Ref.plainKey]). *)

From Stdlib Require Import ZArith QArith Qround Qabs Qminmax Lqa Lia SpecFloat.
From Stdlib Require Import String Ascii List.
From stdpp Require Import gmap strings.
Import ListNotations.

(* ===================================================================== *)
(** ** JavaScript values                                                  *)
(* ===================================================================== *)

Module JS.

Local Open Scope Q_scope.

Inductive number : Type :=
| NaN
| PosInf
| NegInf
| Fin (q : Q).

Definition zero : number := Fin 0.
Definition of_Z (z : Z) : number := Fin (inject_Z z).

Definition Qis_zero (q : Q) : bool := Qeq_bool q 0.
Definition Qis_neg (q : Q) : bool := negb (Qle_bool 0 q).
Definition Qis_pos (q : Q) : bool := negb (Qle_bool q 0).

(** Unary minus. *)
Definition neg (a : number) : number :=
  match a with
  | NaN => NaN
  | PosInf => NegInf
  | NegInf => PosInf
  | Fin q => Fin (- q)
  end.

(** [a + b]. *)
Definition add (a b : number) : number :=
  match a, b with
  | NaN, _ | _, NaN => NaN
  | PosInf, NegInf | NegInf, PosInf => NaN
  | PosInf, _ | _, PosInf => PosInf
  | NegInf, _ | _, NegInf => NegInf
  | Fin x, Fin y => Fin (x + y)
  end.

(** [a - b]. *)
Definition sub (a b : number) : number := add a (neg b).

(** An infinity of the given sign ([true] is negative). *)
Definition inf (negative : bool) : number :=
  if negative then NegInf else PosInf.

(** [a * b]; infinity times zero is [NaN]. *)
Definition mul (a b : number) : number :=
  match a, b with
  | NaN, _ | _, NaN => NaN
  | Fin x, Fin y => Fin (x * y)
  | Fin x, PosInf | PosInf, Fin x =>
      if Qis_zero x then NaN else inf (Qis_neg x)
  | Fin x, NegInf | NegInf, Fin x =>
      if Qis_zero x then NaN else inf (negb (Qis_neg x))
  | PosInf, PosInf | NegInf, NegInf => PosInf
  | PosInf, NegInf | NegInf, PosInf => NegInf
  end.

(** [a / b]; a finite value over zero is an infinity, [0 / 0] is [NaN]. *)
Definition div (a b : number) : number :=
  match a, b with
  | NaN, _ | _, NaN => NaN
  | Fin x, Fin y =>
      if Qis_zero y
      then (if Qis_zero x then NaN else inf (Qis_neg x))
      else Fin (x / y)
  | Fin _, (PosInf | NegInf) => Fin 0
  | PosInf, Fin y => inf (Qis_neg y)
  | NegInf, Fin y => inf (negb (Qis_neg y))
  | (PosInf | NegInf), (PosInf | NegInf) => NaN
  end.

(** [Math.abs]. *)
Definition abs (a : number) : number :=
  match a with
  | NaN => NaN
  | PosInf | NegInf => PosInf
  | Fin q => Fin (Qabs q)
  end.

(** [a < b]; false as soon as one side is [NaN]. *)
Definition lt (a b : number) : bool :=
  match a, b with
  | NaN, _ | _, NaN => false
  | _, NegInf => false
  | NegInf, _ => true
  | PosInf, _ => false
  | Fin _, PosInf => true
  | Fin x, Fin y => negb (Qle_bool y x)
  end.

(** [a > b]. *)
Definition gt (a b : number) : bool := lt b a.

(** [a <= b]. *)
Definition le (a b : number) : bool :=
  match a, b with
  | NaN, _ | _, NaN => false
  | NegInf, _ => true
  | _, PosInf => true
  | _, NegInf => false
  | PosInf, _ => false
  | Fin x, Fin y => Qle_bool x y
  end.

(** [a === b] on numbers. *)
Definition strict_eq (a b : number) : bool :=
  match a, b with
  | PosInf, PosInf | NegInf, NegInf => true
  | Fin x, Fin y => Qeq_bool x y
  | _, _ => false
  end.

(** [Math.min(a, b)]. *)
Definition min (a b : number) : number :=
  match a, b with
  | NaN, _ | _, NaN => NaN
  | _, _ => if lt b a then b else a
  end.

(** [Math.pow(2, n)] for an integer exponent. *)
Definition pow2 (n : Z) : Z := (2 ^ n)%Z.

(** The integer nearest to [q], ties away from zero: the digits that
    [Number.prototype.toFixed] prints ("if there are two such n, pick
    the larger n", on the absolute value). *)
Definition round_half_away (q : Q) : Z :=
  if Qle_bool 0 q
  then Qfloor (q + (1 # 2))
  else (- Qfloor (- q + (1 # 2)))%Z.

(** The two-decimal value nearest to [q], as a reduced fraction. *)
Definition round2 (q : Q) : Q := Qred (round_half_away (q * 100) # 100).

(** [Number(x.toFixed(2))]: [NaN] and the infinities print as their
    names and read back unchanged.  (From 1e21 on [toFixed] prints the
    number itself; such a double is an integer, which [round2] keeps.) *)
Definition toFixed2 (a : number) : number :=
  match a with
  | Fin q => Fin (round2 q)
  | other => other
  end.

(** *** [parseFloat] on strings *)

Definition is_space (c : ascii) : bool :=
  match nat_of_ascii c with
  | 9%nat | 10%nat | 11%nat | 12%nat | 13%nat | 32%nat => true
  | _ => false
  end.

Definition digit_of (c : ascii) : option Z :=
  let n := Z.of_nat (nat_of_ascii c) in
  if ((48 <=? n) && (n <=? 57))%Z then Some (n - 48)%Z else None.

Fixpoint skip_spaces (s : string) : string :=
  match s with
  | String c r => if is_space c then skip_spaces r else s
  | EmptyString => s
  end.

(** Reads a run of decimal digits: the value read so far, how many
    digits were read, and the rest of the input. *)
Fixpoint read_digits (s : string) (acc : Z) (count : nat)
  : Z * nat * string :=
  match s with
  | String c r =>
      match digit_of c with
      | Some d => read_digits r (acc * 10 + d)%Z (S count)
      | None => (acc, count, s)
      end
  | EmptyString => (acc, count, s)
  end.

Definition read_sign (s : string) : bool * string :=
  match s with
  | String "-"%char r => (true, r)
  | String "+"%char r => (false, r)
  | _ => (false, s)
  end.

(** The exponent part [e[+-]digits], 0 when there is none. *)
Definition read_exponent (s : string) : Z :=
  match s with
  | String c r =>
      if (Ascii.eqb c "e" || Ascii.eqb c "E")%bool
      then
        let '(negative, r') := read_sign r in
        let '(e, n, _) := read_digits r' 0%Z 0%nat in
        match n with
        | O => 0%Z
        | _ => if negative then (- e)%Z else e
        end
      else 0%Z
  | EmptyString => 0%Z
  end.

Definition scale10 (q : Q) (e : Z) : Q :=
  if (0 <=? e)%Z
  then q * inject_Z (10 ^ e)
  else q / inject_Z (10 ^ (- e)).

(** [parseFloat(s)]: the longest prefix that is a decimal literal. *)
Definition parseFloat_string (s : string) : number :=
  let '(negative, body) := read_sign (skip_spaces s) in
  if String.prefix "Infinity" body then inf negative
  else
    let '(ipart, icount, after_int) := read_digits body 0%Z 0%nat in
    let '(fpart, fcount, after_frac) :=
      match after_int with
      | String "."%char r => read_digits r 0%Z 0%nat
      | _ => (0%Z, 0%nat, after_int)
      end in
    match (icount + fcount)%nat with
    | O => NaN
    | _ =>
        let mantissa :=
          inject_Z ipart + (fpart # Z.to_pos (10 ^ Z.of_nat fcount)) in
        let q := scale10 mantissa (read_exponent after_frac) in
        Fin (Qred (if negative then - q else q))
    end.

(** *** Fields of a JSON response *)

Inductive value : Type :=
| VUndefined
| VString (s : string)
| VNumber (n : number).

(** Truthiness, as tested by [a || b] and [c ? x : y]. *)
Definition truthy (v : value) : bool :=
  match v with
  | VUndefined => false
  | VString s => negb (String.eqb s "")
  | VNumber NaN => false
  | VNumber (Fin q) => negb (Qis_zero q)
  | VNumber _ => true
  end.

(** [a || b]. *)
Definition or_else (a b : value) : value := if truthy a then a else b.

(** [parseFloat(v)]: the argument is first converted to a string;
    [undefined] reads as [NaN], and a number prints and reads back as
    itself. *)
Definition parseFloat (v : value) : number :=
  match v with
  | VUndefined => NaN
  | VString s => parseFloat_string s
  | VNumber n => n
  end.

(** [String.prototype.toLowerCase] on ASCII letters. *)
Definition lower_char (c : ascii) : ascii :=
  let n := nat_of_ascii c in
  if ((65 <=? n) && (n <=? 90))%nat then ascii_of_nat (n + 32) else c.

Fixpoint toLowerCase (s : string) : string :=
  match s with
  | EmptyString => EmptyString
  | String c r => String (lower_char c) (toLowerCase r)
  end.

(** [s.includes(needle)]. *)
Fixpoint includes (needle s : string) : bool :=
  if String.prefix needle s then true
  else match s with
       | EmptyString => false
       | String _ r => includes needle r
       end.

(** [v.toLowerCase()]: a [TypeError] ([None]) unless [v] is a string. *)
Definition toLowerCase_value (v : value) : option string :=
  match v with
  | VString s => Some (toLowerCase s)
  | _ => None
  end.

(** [v === s] for a string literal [s]. *)
Definition is_string (v : value) (s : string) : bool :=
  match v with
  | VString t => String.eqb t s
  | _ => false
  end.

(** [v === n] for a number literal [n]. *)
Definition is_number (v : value) (n : number) : bool :=
  match v with
  | VNumber m => strict_eq m n
  | _ => false
  end.

(** The numeric reading of two numbers being the same finite value. *)
Definition same (a b : number) : Prop :=
  match a, b with
  | Fin x, Fin y => x == y
  | NaN, NaN | PosInf, PosInf | NegInf, NegInf => True
  | _, _ => False
  end.

End JS.

(* ===================================================================== *)
(** ** JavaScript numbers as IEEE 754 binary64                            *)
(* ===================================================================== *)

(** The numbers of the language itself: binary64 values with the
    operations of the standard library's specification of IEEE 754
    arithmetic ([SpecFloat], 53 bits of precision, rounding to nearest
    with ties to even), signed zeros, overflow to the infinities and
    [NaN].  The modules [Model64], [Binance64], [Bybit64] and the two
    [Wallet64] modules embed the numeric code over these numbers. *)
Module F64.

Local Open Scope Z_scope.

Definition prec : Z := 53.
Definition emax : Z := 1024.

Definition number : Type := spec_float.

Definition NaN : number := S754_nan.
Definition zero : number := S754_zero false.
Definition inf (negative : bool) : number := S754_infinity negative.

(** [a + b], [a - b], [a * b], [a / b], [-a], [Math.abs(a)]. *)
Definition add : number -> number -> number := SFadd prec emax.
Definition sub : number -> number -> number := SFsub prec emax.
Definition mul : number -> number -> number := SFmul prec emax.
Definition div : number -> number -> number := SFdiv prec emax.
Definition neg : number -> number := SFopp.
Definition abs : number -> number := SFabs.

(** [a < b], [a > b], [a <= b], [a === b]; false as soon as one side is
    [NaN], and the two zeros are equal. *)
Definition lt (a b : number) : bool := SFltb a b.
Definition gt (a b : number) : bool := SFltb b a.
Definition le (a b : number) : bool := SFleb a b.
Definition strict_eq (a b : number) : bool := SFeqb a b.

(** [Math.min(a, b)]: [NaN] as soon as one argument is, and [-0] is
    below [+0]. *)
Definition min (a b : number) : number :=
  match SFcompare a b with
  | None => NaN
  | Some Lt => a
  | Some Gt => b
  | Some Eq =>
      match b with
      | S754_zero true => b
      | _ => a
      end
  end.

(** The number nearest to the integer [z]. *)
Definition of_Z (z : Z) : number := binary_normalize prec emax z 0 false.

(** The number nearest to [n / d], for [n >= 0], with the given sign:
    the correctly rounded quotient of the two integers. *)
Definition of_ratio (negative : bool) (n : Z) (d : positive) : number :=
  match n with
  | Zpos p => SFdiv prec emax (S754_finite negative p 0) (S754_finite false d 0)
  | _ => S754_zero negative
  end.

(** The number nearest to a rational: the value of a numeric literal. *)
Definition of_Q (q : Q) : number :=
  of_ratio (Qnum q <? 0) (Z.abs (Qnum q)) (Qden q).

(** The number nearest to [mantissa * 10 ^ exponent], for
    [mantissa >= 0], with the given sign.  Beyond the two cuts the value
    is above every finite number, or below half of the least one. *)
Definition of_decimal (negative : bool) (mantissa exponent : Z) : number :=
  match mantissa with
  | Zpos m =>
      if 400 <? exponent then S754_infinity negative
      else if exponent + Z.log2 mantissa <? -400 then S754_zero negative
      else if 0 <=? exponent
           then binary_normalize prec emax
                  ((if negative then -1 else 1) * (mantissa * 10 ^ exponent)) 0 false
           else of_ratio negative mantissa (Z.to_pos (10 ^ (- exponent)))
  | _ => S754_zero negative
  end.

(** [Number(x.toFixed(2))].  [toFixed] takes the integer [n] for which
    [n / 100] is nearest to the exact value of [|x|], the larger one of
    two, and prints it with the sign of [x]; from 1e21 on it prints the
    number itself; [-0] prints as "0.00". *)
Definition toFixed2 (x : number) : number :=
  match x with
  | S754_finite s m e =>
      let num := if 0 <=? e then Zpos m * 2 ^ e else Zpos m in
      let den := if 0 <=? e then 1 else 2 ^ (- e) in
      if 10 ^ 21 * den <=? num then x
      else of_ratio s ((200 * num + den) / (2 * den)) 100
  | S754_zero _ => zero
  | other => other
  end.

(** [parseFloat(s)]: the longest prefix that is a decimal literal, read
    as the nearest number. *)
Definition parseFloat_string (s : string) : number :=
  let '(negative, body) := JS.read_sign (JS.skip_spaces s) in
  if String.prefix "Infinity" body then inf negative
  else
    let '(ipart, icount, after_int) := JS.read_digits body 0 0%nat in
    let '(fpart, fcount, after_frac) :=
      match after_int with
      | String "."%char r => JS.read_digits r 0 0%nat
      | _ => (0, 0%nat, after_int)
      end in
    match (icount + fcount)%nat with
    | O => NaN
    | _ =>
        of_decimal negative (ipart * 10 ^ Z.of_nat fcount + fpart)
                   (JS.read_exponent after_frac - Z.of_nat fcount)
    end.

(** The value of a number of a JSON response. *)
Definition of_number (n : JS.number) : number :=
  match n with
  | JS.NaN => NaN
  | JS.PosInf => inf false
  | JS.NegInf => inf true
  | JS.Fin q => of_Q q
  end.

(** [parseFloat(x)] for a number [x]: the number is printed and read
    back, unchanged but for [-0], which prints as "0". *)
Definition reparse (x : number) : number :=
  match x with
  | S754_zero _ => zero
  | other => other
  end.

(** Truthiness of a number: neither a zero nor [NaN]. *)
Definition truthy_number (x : number) : bool :=
  match x with
  | S754_zero _ | S754_nan => false
  | _ => true
  end.

(** Truthiness of a field, as tested by [a || b] and [c ? x : y]. *)
Definition truthy (v : JS.value) : bool :=
  match v with
  | JS.VUndefined => false
  | JS.VString s => negb (String.eqb s "")
  | JS.VNumber n => truthy_number (of_number n)
  end.

(** [a || b]. *)
Definition or_else (a b : JS.value) : JS.value := if truthy a then a else b.

(** [parseFloat(v)] for a field. *)
Definition parseFloat (v : JS.value) : number :=
  match v with
  | JS.VUndefined => NaN
  | JS.VString s => parseFloat_string s
  | JS.VNumber n => reparse (of_number n)
  end.

(** [positions.reduce((sum, p) => sum + f(p), 0)]. *)
Definition sum_over {A : Type} (f : A -> number) (l : list A) : number :=
  fold_left (fun sum p => add sum (f p)) l zero.

End F64.

(* ===================================================================== *)
(** ** The canonical data model ([src/models/position.model.ts])          *)
(* ===================================================================== *)

Module Model.

Inductive Side : Type := LONG | SHORT.
Inductive MarginMode : Type := CROSS | ISOLATED.

Record Position : Type := {
  symbol : string;
  side : Side;
  size : JS.number;
  notionalValue : JS.number;
  entryPrice : JS.number;
  markPrice : JS.number;
  liquidationPrice : JS.number;
  liquidationPriceChangePercent : JS.number;
  currentFundingRate : JS.number;
  nextFundingRate : JS.number;
  leverage : JS.number;
  unrealizedPnl : JS.number;
  realizedPnl : JS.number;
  marginMode : MarginMode;
  exchange : string
}.

Record AccountSummary : Type := {
  summaryExchange : string;
  accountId : string;
  baseCurrency : string;
  baseBalance : JS.number;
  totalNotionalValue : JS.number;
  accountLeverage : JS.number;
  openPositionsCount : nat;
  openOrdersCount : nat;
  accountMarginRatio : JS.number;
  liquidationBuffer : JS.number
}.

Record ExchangeData : Type := {
  positions : list Position;
  accountSummary : AccountSummary
}.

(** [positions.reduce((sum, p) => sum + f(p), 0)]. *)
Definition sum_over {A : Type} (f : A -> JS.number) (l : list A) : JS.number :=
  fold_left (fun sum p => JS.add sum (f p)) l JS.zero.

(** All awaited results, or the first rejection ([Promise.all]). *)
Fixpoint all {A : Type} (l : list (option A)) : option (list A) :=
  match l with
  | [] => Some []
  | None :: _ => None
  | Some x :: r =>
      match all r with
      | Some xs => Some (x :: xs)
      | None => None
      end
  end.

End Model.

(* ===================================================================== *)
(** ** Binance client ([src/exchanges/binance.client.ts])                 *)
(* ===================================================================== *)

Module Binance.

Inductive BinanceAccountType : Type := FUTURES | PORTFOLIO_MARGIN.

(** The string value of the enum member. *)
Definition accountType_string (t : BinanceAccountType) : string :=
  match t with
  | FUTURES => "futures"
  | PORTFOLIO_MARGIN => "portfolioMargin"
  end.

(** One element of the [positionRisk] response. *)
Module RawPosition.
Record t : Type := {
  symbol : string;
  positionAmt : JS.value;
  position : JS.value;
  entryPrice : JS.value;
  avgEntryPrice : JS.value;
  markPrice : JS.value;
  leverage : JS.value;
  unRealizedProfit : JS.value;
  unrealizedPnl : JS.value;
  liquidationPrice : JS.value;
  marginType : JS.value
}.
End RawPosition.

(** One element of the [premiumIndex] response, with the
    [nextFundingRate] that [getFundingRates] adds. *)
Module FundingRate.
Record t : Type := {
  symbol : string;
  lastFundingRate : JS.value;
  nextFundingRate : JS.value
}.
End FundingRate.

(** The fields of the account response that the client reads. *)
Module AccountInfo.
Record t : Type := {
  totalMarginBalance : JS.value;
  totalMaintMargin : JS.value;
  actualEquity : JS.value;
  accountMaintMargin : JS.value;
  accountInitialMargin : JS.value
}.
End AccountInfo.

(** What the network answers during one [getExchangeData]; [None] is a
    rejected request.  [totalUSDTBalance] is the value returned by
    [calculateTotalUSDTBalance], which catches every error of its own
    requests and always returns a number; [syncTime] likewise swallows
    its errors and only affects the request signature. *)
Record Responses : Type := {
  accountInfo : option AccountInfo.t;
  positionRisk : option (list RawPosition.t);
  openOrders : option (list JS.value);
  premiumIndex : option (list FundingRate.t);
  fundingRateHistory : string -> option (list JS.value);
  totalUSDTBalance : JS.number
}.

Record Client : Type := {
  accountType : BinanceAccountType;
  lastValidData : Model.ExchangeData
}.

(** The [lastValidData] set by the constructor. *)
Definition initialData (t : BinanceAccountType) : Model.ExchangeData :=
  {| Model.positions := [];
     Model.accountSummary :=
       {| Model.summaryExchange := "binance";
          Model.accountId := accountType_string t;
          Model.baseCurrency := "USDT";
          Model.baseBalance := JS.zero;
          Model.totalNotionalValue := JS.zero;
          Model.accountLeverage := JS.zero;
          Model.openPositionsCount := 0;
          Model.openOrdersCount := 0;
          Model.accountMarginRatio := JS.zero;
          Model.liquidationBuffer := JS.zero |} |}.

Definition new (t : BinanceAccountType) : Client :=
  {| accountType := t; lastValidData := initialData t |}.

(** [getFundingRates]: the premium index, each rate extended with the
    mean of its funding history; a rate whose history request fails is
    kept as it is, and a failed premium index gives the empty list.
    [avgRate.toString()] is kept as the number it reads back as. *)
Definition getFundingRates (r : Responses) : list FundingRate.t :=
  match premiumIndex r with
  | None => []
  | Some currentRates =>
      map (fun rate =>
             match fundingRateHistory r (FundingRate.symbol rate) with
             | None => rate
             | Some historicalRates =>
                 let sum := Model.sum_over JS.parseFloat historicalRates in
                 let avgRate :=
                   match historicalRates with
                   | _ :: _ =>
                       JS.div sum (JS.of_Z (Z.of_nat (length historicalRates)))
                   | [] => JS.parseFloat (FundingRate.lastFundingRate rate)
                   end in
                 {| FundingRate.symbol := FundingRate.symbol rate;
                    FundingRate.lastFundingRate :=
                      FundingRate.lastFundingRate rate;
                    FundingRate.nextFundingRate := JS.VNumber avgRate |}
             end)
          currentRates
  end.

Definition calculateLiquidationDistance
           (markPrice liquidationPrice : JS.number) : JS.number :=
  if JS.strict_eq liquidationPrice JS.zero then JS.zero
  else JS.toFixed2
         (JS.mul (JS.div (JS.abs (JS.sub markPrice liquidationPrice)) markPrice)
                 (JS.of_Z 100)).

Definition one : JS.number := JS.of_Z 1.
Definition hundred : JS.number := JS.of_Z 100.

(** [marginType.toLowerCase() === 'cross' ? 'CROSS' : 'ISOLATED']. *)
Definition marginMode_of (marginType : JS.value) : option Model.MarginMode :=
  match JS.toLowerCase_value marginType with
  | Some s => Some (if String.eqb s "cross" then Model.CROSS else Model.ISOLATED)
  | None => None
  end.

(** [fundingRate ? parseFloat(field) * 100 : 0], rounded. *)
Definition fundingPercent (fundingRate : option FundingRate.t)
           (field : FundingRate.t -> JS.value) : JS.number :=
  JS.toFixed2
    match fundingRate with
    | Some fr => JS.mul (JS.parseFloat (field fr)) hundred
    | None => JS.zero
    end.

Definition findFundingRate (fundingRates : list FundingRate.t) (symbol : string)
  : option FundingRate.t :=
  List.find (fun fr => String.eqb (FundingRate.symbol fr) symbol) fundingRates.

(** The liquidation price used by the portfolio-margin branch: the
    reported one, or the estimate when it is 0 or below 0.001. *)
Definition portfolioLiquidationPrice (isCoinM : bool)
           (positionAmt markPrice leverage liquidationPrice : JS.number)
  : JS.number :=
  if (JS.strict_eq liquidationPrice JS.zero
      || JS.lt liquidationPrice (JS.Fin (1 # 1000)))%bool
  then
    let maintenanceMarginRatio := JS.Fin (13 # 1000) in
    if isCoinM then
      if JS.lt positionAmt JS.zero then
        let totalMarginRatio :=
          JS.add (JS.add maintenanceMarginRatio (JS.div one leverage))
                 (JS.Fin (5 # 1000)) in
        JS.mul markPrice (JS.add one totalMarginRatio)
      else
        JS.mul markPrice (JS.sub one maintenanceMarginRatio)
    else
      if JS.lt positionAmt JS.zero
      then JS.mul markPrice
                  (JS.add (JS.add one (JS.div one leverage)) maintenanceMarginRatio)
      else JS.mul markPrice
                  (JS.sub (JS.sub one (JS.div one leverage)) maintenanceMarginRatio)
  else liquidationPrice.

(** The callback of the portfolio-margin branch of [processPositions];
    [None] is the [TypeError] of [marginType.toLowerCase()] on a value
    that is not a string. *)
Definition mapPortfolioPosition (fundingRates : list FundingRate.t)
           (pos : RawPosition.t) : option Model.Position :=
  let symbol := RawPosition.symbol pos in
  let positionAmt :=
    JS.parseFloat (JS.or_else (RawPosition.positionAmt pos) (RawPosition.position pos)) in
  let entryPrice :=
    JS.parseFloat (JS.or_else (RawPosition.entryPrice pos) (RawPosition.avgEntryPrice pos)) in
  let markPrice :=
    JS.parseFloat (JS.or_else (RawPosition.markPrice pos) (RawPosition.markPrice pos)) in
  let leverage :=
    JS.parseFloat (JS.or_else (RawPosition.leverage pos) (JS.VNumber one)) in
  let unrealizedProfit :=
    JS.parseFloat
      (JS.or_else (JS.or_else (RawPosition.unRealizedProfit pos)
                              (RawPosition.unrealizedPnl pos))
                  (JS.VNumber JS.zero)) in
  let liquidationPrice0 :=
    JS.parseFloat (JS.or_else (RawPosition.liquidationPrice pos) (JS.VNumber JS.zero)) in
  let marginType := JS.or_else (RawPosition.marginType pos) (JS.VString "cross") in
  let isCoinM := (JS.includes "_" symbol || JS.includes "USD_" symbol)%bool in
  let liquidationPrice :=
    portfolioLiquidationPrice isCoinM positionAmt markPrice leverage liquidationPrice0 in
  let liquidationDistance := calculateLiquidationDistance markPrice liquidationPrice in
  match marginMode_of marginType with
  | None => None
  | Some marginMode =>
      if isCoinM then
        let positionSizeUSDT := JS.mul positionAmt markPrice in
        let notionalValue := JS.toFixed2 positionSizeUSDT in
        Some {| Model.symbol := symbol;
                Model.side := if JS.gt positionAmt JS.zero then Model.LONG else Model.SHORT;
                Model.size := JS.abs positionAmt;
                Model.notionalValue := notionalValue;
                Model.entryPrice := JS.toFixed2 entryPrice;
                Model.markPrice := JS.toFixed2 markPrice;
                Model.liquidationPrice := JS.toFixed2 liquidationPrice;
                Model.liquidationPriceChangePercent := JS.toFixed2 liquidationDistance;
                Model.currentFundingRate := JS.zero;
                Model.nextFundingRate := JS.zero;
                Model.leverage := JS.toFixed2 leverage;
                Model.unrealizedPnl := JS.toFixed2 unrealizedProfit;
                Model.realizedPnl := JS.zero;
                Model.marginMode := marginMode;
                Model.exchange := "binance" |}
      else
        let fundingRate := findFundingRate fundingRates symbol in
        let positionSize := JS.toFixed2 positionAmt in
        let notionalValue := JS.toFixed2 (JS.abs (JS.mul positionSize markPrice)) in
        Some {| Model.symbol := symbol;
                Model.side := if JS.gt positionSize JS.zero then Model.LONG else Model.SHORT;
                Model.size := JS.abs positionSize;
                Model.notionalValue := notionalValue;
                Model.entryPrice := JS.toFixed2 entryPrice;
                Model.markPrice := JS.toFixed2 markPrice;
                Model.liquidationPrice := JS.toFixed2 liquidationPrice;
                Model.liquidationPriceChangePercent := liquidationDistance;
                Model.currentFundingRate :=
                  fundingPercent fundingRate FundingRate.lastFundingRate;
                Model.nextFundingRate :=
                  fundingPercent fundingRate FundingRate.nextFundingRate;
                Model.leverage := JS.toFixed2 leverage;
                Model.unrealizedPnl := JS.toFixed2 unrealizedProfit;
                Model.realizedPnl := JS.zero;
                Model.marginMode := marginMode;
                Model.exchange := "binance" |}
  end.

(** The callback of the futures branch of [processPositions]; [None]
    is the [TypeError] of [pos.marginType.toLowerCase()]. *)
Definition mapFuturesPosition (fundingRates : list FundingRate.t)
           (pos : RawPosition.t) : option Model.Position :=
  let fundingRate := findFundingRate fundingRates (RawPosition.symbol pos) in
  let positionSize := JS.toFixed2 (JS.parseFloat (RawPosition.positionAmt pos)) in
  let entryPrice := JS.toFixed2 (JS.parseFloat (RawPosition.entryPrice pos)) in
  let markPrice := JS.toFixed2 (JS.parseFloat (RawPosition.markPrice pos)) in
  let leverage := JS.toFixed2 (JS.parseFloat (RawPosition.leverage pos)) in
  let unrealizedPnl := JS.toFixed2 (JS.parseFloat (RawPosition.unRealizedProfit pos)) in
  let liquidationPrice := JS.toFixed2 (JS.parseFloat (RawPosition.liquidationPrice pos)) in
  let notionalValue := JS.toFixed2 (JS.abs (JS.mul positionSize markPrice)) in
  let liquidationDistance :=
    JS.toFixed2 (calculateLiquidationDistance markPrice liquidationPrice) in
  match marginMode_of (RawPosition.marginType pos) with
  | None => None
  | Some marginMode =>
      Some {| Model.symbol := RawPosition.symbol pos;
              Model.side := if JS.gt positionSize JS.zero then Model.LONG else Model.SHORT;
              Model.size := JS.abs positionSize;
              Model.notionalValue := notionalValue;
              Model.entryPrice := entryPrice;
              Model.markPrice := markPrice;
              Model.liquidationPrice := liquidationPrice;
              Model.liquidationPriceChangePercent := liquidationDistance;
              Model.currentFundingRate :=
                fundingPercent fundingRate FundingRate.lastFundingRate;
              Model.nextFundingRate :=
                fundingPercent fundingRate FundingRate.nextFundingRate;
              Model.leverage := leverage;
              Model.unrealizedPnl := unrealizedPnl;
              Model.realizedPnl := JS.zero;
              Model.marginMode := marginMode;
              Model.exchange := "binance" |}
  end.

(** [processPositions].  The callbacks are [async] and their promises
    are returned through [Promise.all] without an [await], so a callback
    that throws rejects the promise of [processPositions] itself: the
    [catch] of [processPositions] does not see it. *)
Definition processPositions (t : BinanceAccountType)
           (positionsData : list RawPosition.t)
           (fundingRates : list FundingRate.t) : option (list Model.Position) :=
  match t with
  | PORTFOLIO_MARGIN =>
      Model.all (map (mapPortfolioPosition fundingRates) positionsData)
  | FUTURES =>
      Model.all
        (map (mapFuturesPosition fundingRates)
             (List.filter (fun pos =>
                        JS.gt (JS.abs (JS.parseFloat (RawPosition.positionAmt pos)))
                              JS.zero)
                     positionsData))
  end.

(** [processAccountSummary].  [baseBalance] of the futures branch is
    the awaited [calculateTotalUSDTBalance()], taken from the responses. *)
Definition processAccountSummary (t : BinanceAccountType) (r : Responses)
           (accountInfo : AccountInfo.t) (positions : list Model.Position)
           (openOrders : list JS.value) : Model.AccountSummary :=
  let totalNotionalValue := Model.sum_over Model.notionalValue positions in
  let totalLeverage := Model.sum_over Model.leverage positions in
  let accountLeverage :=
    match positions with
    | _ :: _ =>
        JS.toFixed2 (JS.div totalLeverage (JS.of_Z (Z.of_nat (length positions))))
    | [] => JS.zero
    end in
  let '(baseBalance, marginRatio, liquidationBuffer) :=
    match t with
    | FUTURES =>
        let totalMarginBalance :=
          JS.toFixed2 (JS.parseFloat (AccountInfo.totalMarginBalance accountInfo)) in
        let totalMaintenanceMargin :=
          JS.toFixed2 (JS.parseFloat (AccountInfo.totalMaintMargin accountInfo)) in
        let baseBalance := totalUSDTBalance r in
        let marginRatio :=
          JS.toFixed2
            (JS.mul (JS.div totalMaintenanceMargin totalMarginBalance) hundred) in
        let calculatedBuffer :=
          if JS.gt totalMaintenanceMargin JS.zero
          then JS.toFixed2
                 (JS.mul (JS.div (JS.sub totalMarginBalance totalMaintenanceMargin)
                                 totalMaintenanceMargin)
                         hundred)
          else JS.zero in
        (baseBalance, marginRatio, JS.min calculatedBuffer hundred)
    | PORTFOLIO_MARGIN =>
        let totalBalance :=
          JS.toFixed2
            (JS.parseFloat (JS.or_else (AccountInfo.actualEquity accountInfo)
                                       (JS.VString "0"))) in
        let maintenanceMargin :=
          JS.toFixed2
            (JS.parseFloat (JS.or_else (AccountInfo.accountMaintMargin accountInfo)
                                       (JS.VString "0"))) in
        let marginRatio :=
          if (JS.gt maintenanceMargin JS.zero && JS.gt totalBalance JS.zero)%bool
          then JS.toFixed2 (JS.mul (JS.div maintenanceMargin totalBalance) hundred)
          else JS.zero in
        let calculatedBuffer :=
          if JS.gt maintenanceMargin JS.zero
          then JS.toFixed2
                 (JS.mul (JS.div (JS.sub totalBalance maintenanceMargin)
                                 maintenanceMargin)
                         hundred)
          else JS.zero in
        (totalBalance, marginRatio, JS.min calculatedBuffer hundred)
    end in
  {| Model.summaryExchange := "binance";
     Model.accountId := accountType_string t;
     Model.baseCurrency := "USDT";
     Model.baseBalance := baseBalance;
     Model.totalNotionalValue := totalNotionalValue;
     Model.accountLeverage := accountLeverage;
     Model.openPositionsCount := length positions;
     Model.openOrdersCount := length openOrders;
     Model.accountMarginRatio := marginRatio;
     Model.liquidationBuffer := liquidationBuffer |}.

(** The body of the [try] of [getExchangeData]: [None] when an
    exception reaches the [catch]. *)
Definition fetchFresh (t : BinanceAccountType) (r : Responses)
  : option Model.ExchangeData :=
  match accountInfo r, positionRisk r, openOrders r with
  | Some accountInfo, Some positionsData, Some openOrders =>
      let fundingRates := getFundingRates r in
      match processPositions t positionsData fundingRates with
      | Some positions =>
          Some {| Model.positions := positions;
                  Model.accountSummary :=
                    processAccountSummary t r accountInfo positions openOrders |}
      | None => None
      end
  | _, _, _ => None
  end.

(** [getExchangeData]: the data returned and the client afterwards. *)
Definition getExchangeData (r : Responses) (c : Client)
  : Model.ExchangeData * Client :=
  match fetchFresh (accountType c) r with
  | Some data => (data, {| accountType := accountType c; lastValidData := data |})
  | None => (lastValidData c, c)
  end.

End Binance.

(* ===================================================================== *)
(** ** Bybit client ([src/exchanges/bybit.client.ts])                     *)
(* ===================================================================== *)

Module Bybit.

(** One element of a [/v5/position/list] response. *)
Module RawPosition.
Record t : Type := {
  symbol : string;
  size : JS.value;
  avgPrice : JS.value;
  markPrice : JS.value;
  side : JS.value;
  leverage : JS.value;
  unrealisedPnl : JS.value;
  cumRealisedPnl : JS.value;
  positionValue : JS.value;
  walletBalance : JS.value;
  tradeMode : JS.value
}.
End RawPosition.

(** One element of the [/v5/market/tickers] response. *)
Module Ticker.
Record t : Type := {
  symbol : string;
  fundingRate : JS.value;
  nextFundingRate : JS.value
}.
End Ticker.

(** [list[0]] of the wallet-balance response. *)
Module AccountInfo.
Record t : Type := {
  totalEquity : JS.value;
  totalInitialMargin : JS.value;
  totalMaintenanceMargin : JS.value
}.
End AccountInfo.

(** What the network answers during one [getExchangeData]; [None] is a
    call that throws: a rejected request, for [walletBalance] also a
    response without [list[0].coin], for [tickers] also a response
    without [result].  A position response without a [list] is the
    empty list.  [totalUSDTBalance] is the value returned by
    [calculateTotalUSDTBalance], which catches every error of its own
    requests and always returns a number. *)
Record Responses : Type := {
  walletBalance : option AccountInfo.t;
  usdtPositions : option (list RawPosition.t);
  usdcPositions : option (list RawPosition.t);
  openOrders : option (list JS.value);
  tickers : option (list Ticker.t);
  totalUSDTBalance : JS.number
}.

Record Client : Type := {
  lastValidData : Model.ExchangeData
}.

(** The [lastValidData] set by the constructor. *)
Definition initialData : Model.ExchangeData :=
  {| Model.positions := [];
     Model.accountSummary :=
       {| Model.summaryExchange := "bybit";
          Model.accountId := "unified";
          Model.baseCurrency := "USDT";
          Model.baseBalance := JS.zero;
          Model.totalNotionalValue := JS.zero;
          Model.accountLeverage := JS.zero;
          Model.openPositionsCount := 0;
          Model.openOrdersCount := 0;
          Model.accountMarginRatio := JS.zero;
          Model.liquidationBuffer := JS.zero |} |}.

Definition new : Client := {| lastValidData := initialData |}.

Definition hundred : JS.number := JS.of_Z 100.

(** [getPositions]: both settlement pools, without the empty positions. *)
Definition getPositions (r : Responses) : option (list RawPosition.t) :=
  match usdtPositions r, usdcPositions r with
  | Some usdtRes, Some usdcRes =>
      Some (List.filter
              (fun pos =>
                 negb (JS.strict_eq (JS.parseFloat (RawPosition.size pos)) JS.zero))
              (usdtRes ++ usdcRes))
  | _, _ => None
  end.

Definition calculateLiquidationDistance
           (markPrice liquidationPrice : JS.number) (side : Model.Side)
  : JS.number :=
  if JS.strict_eq liquidationPrice JS.zero then JS.zero
  else JS.toFixed2
         (JS.mul
            (JS.div
               match side with
               | Model.LONG => JS.sub liquidationPrice markPrice
               | Model.SHORT => JS.sub markPrice liquidationPrice
               end
               markPrice)
            hundred).

Definition calculateLiquidationPrice
           (entryPrice positionSize availableBalance initialMargin
                       maintenanceMargin : JS.number) (side : Model.Side)
  : JS.number :=
  if JS.strict_eq positionSize JS.zero then JS.zero
  else
    let marginDiff :=
      JS.sub (JS.add availableBalance initialMargin) maintenanceMargin in
    match side with
    | Model.LONG =>
        JS.toFixed2 (JS.sub entryPrice (JS.div marginDiff (JS.abs positionSize)))
    | Model.SHORT =>
        JS.toFixed2 (JS.add entryPrice (JS.div marginDiff (JS.abs positionSize)))
    end.

Definition mapPosition (pos : RawPosition.t) (fundingRate : option Ticker.t)
  : Model.Position :=
  let size := JS.toFixed2 (JS.abs (JS.parseFloat (RawPosition.size pos))) in
  let entryPrice := JS.toFixed2 (JS.parseFloat (RawPosition.avgPrice pos)) in
  let markPrice := JS.toFixed2 (JS.parseFloat (RawPosition.markPrice pos)) in
  let side :=
    if JS.is_string (RawPosition.side pos) "Buy" then Model.LONG else Model.SHORT in
  let leverage := JS.toFixed2 (JS.parseFloat (RawPosition.leverage pos)) in
  let unrealizedPnl := JS.toFixed2 (JS.parseFloat (RawPosition.unrealisedPnl pos)) in
  let realizedPnl :=
    JS.toFixed2
      (JS.parseFloat (JS.or_else (RawPosition.cumRealisedPnl pos) (JS.VString "0"))) in
  let notionalValue := JS.toFixed2 (JS.parseFloat (RawPosition.positionValue pos)) in
  let initialMargin := JS.div notionalValue leverage in
  let maintenanceMargin := JS.mul initialMargin (JS.Fin (4 # 10)) in
  let availableBalance :=
    JS.toFixed2
      (JS.parseFloat (JS.or_else (RawPosition.walletBalance pos) (JS.VString "0"))) in
  let liquidationPrice :=
    calculateLiquidationPrice entryPrice size availableBalance initialMargin
                              maintenanceMargin side in
  let currentFundingRate :=
    JS.toFixed2
      match fundingRate with
      | Some fr => JS.mul (JS.parseFloat (Ticker.fundingRate fr)) hundred
      | None => JS.zero
      end in
  let nextFundingRate :=
    JS.toFixed2
      match fundingRate with
      | Some fr =>
          JS.mul (JS.parseFloat (JS.or_else (Ticker.nextFundingRate fr)
                                            (Ticker.fundingRate fr)))
                 hundred
      | None => JS.zero
      end in
  let liquidationDistance :=
    JS.toFixed2 (calculateLiquidationDistance markPrice liquidationPrice side) in
  let marginMode :=
    if JS.is_number (RawPosition.tradeMode pos) (JS.of_Z 1)
    then Model.ISOLATED else Model.CROSS in
  {| Model.symbol := RawPosition.symbol pos;
     Model.side := side;
     Model.size := size;
     Model.notionalValue := notionalValue;
     Model.entryPrice := entryPrice;
     Model.markPrice := markPrice;
     Model.liquidationPrice := liquidationPrice;
     Model.liquidationPriceChangePercent := liquidationDistance;
     Model.currentFundingRate := currentFundingRate;
     Model.nextFundingRate := nextFundingRate;
     Model.leverage := leverage;
     Model.unrealizedPnl := unrealizedPnl;
     Model.realizedPnl := realizedPnl;
     Model.marginMode := marginMode;
     Model.exchange := "bybit" |}.

(** [calculateTotalNotionalValue], called on the normalized positions:
    [parseFloat] of a number is that number. *)
Definition calculateTotalNotionalValue (positions : list Model.Position)
  : JS.number :=
  JS.toFixed2
    (Model.sum_over
       (fun position =>
          let size := JS.abs (JS.parseFloat (JS.VNumber (Model.size position))) in
          let markPrice := JS.parseFloat (JS.VNumber (Model.markPrice position)) in
          JS.mul size markPrice)
       positions).

(** [processPositions]: [None] when [getFundingRates] throws. *)
Definition processPositions (r : Responses) (positionsData : list RawPosition.t)
  : option (list Model.Position) :=
  match tickers r with
  | Some fundingRates =>
      Some (map (fun pos =>
                   let fundingRate :=
                     List.find (fun fr => String.eqb (Ticker.symbol fr)
                                                     (RawPosition.symbol pos))
                               fundingRates in
                   mapPosition pos fundingRate)
                positionsData)
  | None => None
  end.

(** The weighted leverage of [getExchangeData]. *)
Definition accountLeverageOf (positions : list Model.Position)
           (totalNotionalValue : JS.number) : JS.number :=
  match positions with
  | _ :: _ =>
      let weightedLeverageSum :=
        Model.sum_over
          (fun position =>
             JS.mul (Model.leverage position) (Model.notionalValue position))
          positions in
      if JS.gt totalNotionalValue JS.zero
      then JS.toFixed2 (JS.div weightedLeverageSum totalNotionalValue)
      else JS.zero
  | [] => JS.zero
  end.

(** The account summary built by [getExchangeData]. *)
Definition summarize (r : Responses) (accountInfo : AccountInfo.t)
           (positions : list Model.Position) (openOrders : list JS.value)
  : Model.AccountSummary :=
  let baseBalance := totalUSDTBalance r in
  let totalNotionalValue := calculateTotalNotionalValue positions in
  let accountLeverage := accountLeverageOf positions totalNotionalValue in
  let totalEquity :=
    JS.toFixed2
      (JS.parseFloat (JS.or_else (AccountInfo.totalEquity accountInfo)
                                 (JS.VString "0"))) in
  let totalMaintenanceMargin :=
    JS.toFixed2
      (JS.parseFloat (JS.or_else (AccountInfo.totalMaintenanceMargin accountInfo)
                                 (JS.VString "0"))) in
  let marginRatio :=
    if JS.gt totalEquity JS.zero
    then JS.toFixed2 (JS.mul (JS.div totalMaintenanceMargin totalEquity) hundred)
    else JS.zero in
  let liquidationBuffer :=
    if JS.gt totalMaintenanceMargin JS.zero
    then JS.toFixed2
           (JS.mul (JS.div (JS.sub totalEquity totalMaintenanceMargin)
                           totalMaintenanceMargin)
                   hundred)
    else JS.zero in
  {| Model.summaryExchange := "bybit";
     Model.accountId := "unified";
     Model.baseCurrency := "USDT";
     Model.baseBalance := baseBalance;
     Model.totalNotionalValue := totalNotionalValue;
     Model.accountLeverage := accountLeverage;
     Model.openPositionsCount := length positions;
     Model.openOrdersCount := length openOrders;
     Model.accountMarginRatio := marginRatio;
     Model.liquidationBuffer := JS.min liquidationBuffer hundred |}.

(** The body of the [try] of [getExchangeData]: [None] when an
    exception reaches the [catch]. *)
Definition fetchFresh (r : Responses) : option Model.ExchangeData :=
  match walletBalance r, getPositions r, openOrders r with
  | Some accountInfo, Some positionsData, Some openOrders =>
      match processPositions r positionsData with
      | Some positions =>
          Some {| Model.positions := positions;
                  Model.accountSummary :=
                    summarize r accountInfo positions openOrders |}
      | None => None
      end
  | _, _, _ => None
  end.

(** [getExchangeData]: the data returned and the client afterwards. *)
Definition getExchangeData (r : Responses) (c : Client)
  : Model.ExchangeData * Client :=
  match fetchFresh r with
  | Some data => (data, {| lastValidData := data |})
  | None => (lastValidData c, c)
  end.

End Bybit.

(* ===================================================================== *)
(** ** Data fetcher service ([src/services/dataFetcherService.ts])        *)
(* ===================================================================== *)

Module Fetcher.

Inductive Exception : Type :=
| TypeError
| Error (message : string).

(** An object of objects, [{ [exchange]: { [accountId]: V } }]. *)
Abbreviation Table V := (gmap string (gmap string V)).

Record CombinedData : Type := {
  exchanges : Table Model.ExchangeData;
  currentExchange : string;
  currentAccount : string;
  availableExchanges : list string;
  availableAccounts : gmap string (list string)
}.

Definition MAX_CONSECUTIVE_ERRORS : Z := 5.
Definition INITIAL_BACKOFF : Z := 60000.

(** [table[exchange][accountId]]: reading a property of [undefined]
    is a [TypeError]; a missing property reads as [undefined]. *)
Definition read {V : Type} (table : Table V) (exchange accountId : string)
  : Exception + option V :=
  match table !! exchange with
  | Some inner => inr (inner !! accountId)
  | None => inl TypeError
  end.

(** [table[exchange][accountId] = v]. *)
Definition write {V : Type} (table : Table V) (exchange accountId : string) (v : V)
  : Exception + Table V :=
  match table !! exchange with
  | Some inner => inr (<[exchange := <[accountId := v]> inner]> table)
  | None => inl TypeError
  end.

(** [list.includes(s)]. *)
Definition includes (l : list string) (s : string) : bool :=
  existsb (String.eqb s) l.

(** [INITIAL_BACKOFF * Math.pow(2, Math.min(errorCount - MAX_CONSECUTIVE_ERRORS, 5))]. *)
Definition backoffTime (errorCount : Z) : Z :=
  INITIAL_BACKOFF * JS.pow2 (Z.min (errorCount - MAX_CONSECUTIVE_ERRORS) 5).

Section Service.

(** The service is written against the clients' interface: a client
    of type [C], asked for its data in an environment [Env], answers
    with data or rejects ([None]), and is itself updated. *)
Context {Env C : Type}.
Variable getExchangeData : Env -> C -> option Model.ExchangeData * C.

(** The module-level variables. *)
Record State : Type := {
  exchangeClients : Table C;
  cachedData : CombinedData;
  lastFetchTimes : Table Z;
  errorCounts : Table Z;
  backoffTimes : Table Z
}.

Definition with_exchangeClients (st : State) (t : Table C) : State :=
  {| exchangeClients := t; cachedData := cachedData st;
     lastFetchTimes := lastFetchTimes st; errorCounts := errorCounts st;
     backoffTimes := backoffTimes st |}.

Definition with_cachedData (st : State) (d : CombinedData) : State :=
  {| exchangeClients := exchangeClients st; cachedData := d;
     lastFetchTimes := lastFetchTimes st; errorCounts := errorCounts st;
     backoffTimes := backoffTimes st |}.

Definition with_lastFetchTimes (st : State) (t : Table Z) : State :=
  {| exchangeClients := exchangeClients st; cachedData := cachedData st;
     lastFetchTimes := t; errorCounts := errorCounts st;
     backoffTimes := backoffTimes st |}.

Definition with_errorCounts (st : State) (t : Table Z) : State :=
  {| exchangeClients := exchangeClients st; cachedData := cachedData st;
     lastFetchTimes := lastFetchTimes st; errorCounts := t;
     backoffTimes := backoffTimes st |}.

Definition with_backoffTimes (st : State) (t : Table Z) : State :=
  {| exchangeClients := exchangeClients st; cachedData := cachedData st;
     lastFetchTimes := lastFetchTimes st; errorCounts := errorCounts st;
     backoffTimes := t |}.

Definition with_exchanges (d : CombinedData) (t : Table Model.ExchangeData)
  : CombinedData :=
  {| exchanges := t; currentExchange := currentExchange d;
     currentAccount := currentAccount d;
     availableExchanges := availableExchanges d;
     availableAccounts := availableAccounts d |}.

(** A statement sequence over the module state that may throw; the
    state reached when it throws is kept, as mutations are. *)
Definition M (A : Type) : Type := State -> (Exception + A) * State.

Definition ret {A : Type} (a : A) : M A := fun st => (inr a, st).
Definition throw {A : Type} (e : Exception) : M A := fun st => (inl e, st).
Definition bind {A B : Type} (m : M A) (k : A -> M B) : M B :=
  fun st =>
    match m st with
    | (inr a, st') => k a st'
    | (inl e, st') => (inl e, st')
    end.
Definition try_catch {A : Type} (body : M A) (handler : Exception -> M A)
  : M A :=
  fun st =>
    match body st with
    | (inr a, st') => (inr a, st')
    | (inl e, st') => handler e st'
    end.
Definition get : M State := fun st => (inr st, st).
Definition put (st : State) : M unit := fun _ => (inr tt, st).
Definition lift {A : Type} (r : Exception + A) : M A :=
  fun st => (r, st).

Notation "x <- m ;; k" := (bind m (fun x => k))
  (at level 100, m at next level, right associativity).
Notation "m ;;; k" := (bind m (fun _ => k))
  (at level 100, right associativity).

Definition readTable {V : Type} (field : State -> Table V)
           (exchange accountId : string) : M (option V) :=
  st <- get ;; lift (read (field st) exchange accountId).

Definition writeTable {V : Type} (field : State -> Table V)
           (update : State -> Table V -> State)
           (exchange accountId : string) (v : V) : M unit :=
  st <- get ;;
  t <- lift (write (field st) exchange accountId v) ;;
  put (update st t).

(** [await client.getExchangeData()]: the client object is updated in
    place, whether the call returns or rejects. *)
Definition callClient (env : Env) (exchange accountId : string) (client : C)
  : M Model.ExchangeData :=
  let '(result, client') := getExchangeData env client in
  writeTable exchangeClients with_exchangeClients exchange accountId client' ;;;
  match result with
  | Some data => ret data
  | None => throw (Error "getExchangeData rejected")
  end.

(** Is [errorCounts[exchange][accountId]] falsy ([undefined] or 0)? *)
Definition falsy (count : option Z) : bool :=
  match count with
  | Some n => (n =? 0)%Z
  | None => true
  end.

(** [backoffTimes[exchange][accountId] > now]; [undefined > now] is false. *)
Definition after (backoff : option Z) (now : Z) : bool :=
  match backoff with
  | Some b => (now <? b)%Z
  | None => false
  end.

(** [fetchExchangeData].  [checked] is [Date.now()] when the backoff
    is tested, [finished] is [Date.now()] after the awaited call. *)
Definition fetchExchangeData (env : Env) (checked finished : Z)
           (exchange accountId : string) : M unit :=
  client <- readTable exchangeClients exchange accountId ;;
  match client with
  | None => ret tt
  | Some client =>
      backoff <- readTable backoffTimes exchange accountId ;;
      if after backoff checked then ret tt
      else
        try_catch
          (data <- callClient env exchange accountId client ;;
           writeTable (fun st => exchanges (cachedData st))
                      (fun st t => with_cachedData st (with_exchanges (cachedData st) t))
                      exchange accountId data ;;;
           writeTable lastFetchTimes with_lastFetchTimes exchange accountId finished ;;;
           writeTable errorCounts with_errorCounts exchange accountId 0%Z ;;;
           writeTable backoffTimes with_backoffTimes exchange accountId 0%Z)
          (fun _ =>
             count <- readTable errorCounts exchange accountId ;;
             (if falsy count
              then writeTable errorCounts with_errorCounts exchange accountId 0%Z
              else ret tt) ;;;
             count <- readTable errorCounts exchange accountId ;;
             let incremented := (default 0 count + 1)%Z in
             writeTable errorCounts with_errorCounts exchange accountId incremented ;;;
             if (MAX_CONSECUTIVE_ERRORS <=? incremented)%Z
             then writeTable backoffTimes with_backoffTimes exchange accountId
                             (finished + backoffTime incremented)%Z
             else ret tt)
  end.

(** [setCurrentExchangeAndAccount]. *)
Definition setCurrentExchangeAndAccount (exchange account : string) : M unit :=
  st <- get ;;
  let data := cachedData st in
  if includes (availableExchanges data) exchange then
    match availableAccounts data !! exchange with
    | None => throw TypeError
    | Some accounts =>
        if includes accounts account then
          put (with_cachedData st
                 {| exchanges := exchanges data;
                    currentExchange := exchange;
                    currentAccount := account;
                    availableExchanges := availableExchanges data;
                    availableAccounts := availableAccounts data |})
        else throw (Error ("Invalid exchange or account: " ++ exchange ++ "/" ++ account))
    end
  else throw (Error ("Invalid exchange or account: " ++ exchange ++ "/" ++ account)).

(** The module state when the module is loaded. *)
Definition emptyTable {V : Type} : Table V :=
  <["binance" := ∅]> (<["bybit" := ∅]> ∅).

Definition initialCachedData : CombinedData :=
  {| exchanges := emptyTable;
     currentExchange := "binance";
     currentAccount := "futures";
     availableExchanges := ["binance"; "bybit"];
     availableAccounts :=
       <["binance" := ["futures"; "portfolioMargin"]]>
         (<["bybit" := ["unified"]]> ∅) |}.

Definition initialState : State :=
  {| exchangeClients := emptyTable;
     cachedData := initialCachedData;
     lastFetchTimes := emptyTable;
     errorCounts := emptyTable;
     backoffTimes := emptyTable |}.

(** Consecutive calls of [fetchExchangeData] for one key, each with
    its environment and its two clock readings; a call that throws
    ends the run. *)
Fixpoint fetchRepeatedly (exchange accountId : string)
         (calls : list (Env * Z * Z)) : M unit :=
  match calls with
  | [] => ret tt
  | (env, checked, finished) :: rest =>
      fetchExchangeData env checked finished exchange accountId ;;;
      fetchRepeatedly exchange accountId rest
  end.

(** One entry of the report of [getHealthStatus].  [lastFetch] and
    [backoffEnds] are the instants that [toISOString] prints, and [None]
    is [null]. *)
Record HealthStatus : Type := {
  healthy : bool;
  lastFetch : option Z;
  timeSinceLastFetch : option Z;
  inBackoff : bool;
  backoffEnds : option Z;
  errorCount : Z
}.

(** [new Date(t).toISOString()]: a [RangeError] outside the range of
    [Date], 8.64e15 ms either side of the epoch. *)
Definition toISOString (t : Z) : Exception + Z :=
  if (Z.abs t <=? 8640000000000000)%Z then inr t
  else inl (Error "Invalid time value").

(** [Math.round(ms / 1000)]: the nearest integer, a half rounding up. *)
Definition roundSeconds (ms : Z) : Z := ((ms + 500) / 1000)%Z.

Definition andThen {A B : Type} (r : Exception + A) (k : A -> Exception + B)
  : Exception + B :=
  match r with
  | inr a => k a
  | inl e => inl e
  end.

(** The body of the inner loop of [getHealthStatus]. *)
Definition accountHealth (st : State) (now : Z) (exchange accountId : string)
  : Exception + HealthStatus :=
  andThen (read (lastFetchTimes st) exchange accountId) (fun stored =>
  let lastFetch := default 0%Z stored in
  let timeSinceLastFetch := (now - lastFetch)%Z in
  let isHealthy := ((0 <? lastFetch) && (timeSinceLastFetch <? 300000))%Z in
  andThen (read (backoffTimes st) exchange accountId) (fun backoff =>
  let inBackoff := after backoff now in
  andThen (if (lastFetch =? 0)%Z then inr None
           else andThen (toISOString lastFetch) (fun iso => inr (Some iso)))
          (fun lastFetchText =>
  andThen (if inBackoff
           then andThen (toISOString (default 0%Z backoff))
                        (fun iso => inr (Some iso))
           else inr None)
          (fun backoffEndsText =>
  andThen (read (errorCounts st) exchange accountId) (fun count =>
  inr {| healthy := isHealthy;
         lastFetch := lastFetchText;
         timeSinceLastFetch :=
           if (lastFetch =? 0)%Z then None
           else Some (roundSeconds timeSinceLastFetch);
         inBackoff := inBackoff;
         backoffEnds := backoffEndsText;
         errorCount := default 0%Z count |}))))).

(** The entries computed for a list of keys, or the first exception. *)
Fixpoint collect {K V : Type} (l : list (K * (Exception + V)))
  : Exception + list (K * V) :=
  match l with
  | [] => inr []
  | (k, inl e) :: _ => inl e
  | (k, inr v) :: rest =>
      match collect rest with
      | inr entries => inr ((k, v) :: entries)
      | inl e => inl e
      end
  end.

(** [getHealthStatus]: one entry for every key of [exchangeClients].
    The keys are visited in the order of [map_to_list], which only
    decides which exception surfaces when several entries throw. *)
Definition getHealthStatus (st : State) (now : Z) : Exception + Table HealthStatus :=
  andThen
    (collect
       (map (fun '(exchange, accounts) =>
               (exchange,
                andThen
                  (collect
                     (map (fun '(accountId, _) =>
                             (accountId, accountHealth st now exchange accountId))
                          (map_to_list (accounts : gmap string C))))
                  (fun entries => inr (list_to_map entries : gmap string HealthStatus))))
            (map_to_list (exchangeClients st))))
    (fun entries => inr (list_to_map entries)).

End Service.

Arguments State : clear implicits.
Arguments M : clear implicits.

End Fetcher.

(* ===================================================================== *)
(** ** The clients as the service holds them                              *)
(* ===================================================================== *)

Module Clients.

(** [BinanceClient | BybitClient], the element type of [exchangeClients]. *)
Inductive Client : Type :=
| BinanceClient (c : Binance.Client)
| BybitClient (c : Bybit.Client).

(** What the exchanges answer at the time of one fetch. *)
Record Env : Type := {
  binance : Binance.BinanceAccountType -> Binance.Responses;
  bybit : Bybit.Responses
}.

(** [client.getExchangeData()], dispatched on the class of the client.
    Neither class lets its promise reject. *)
Definition getExchangeData (env : Env) (client : Client)
  : option Model.ExchangeData * Client :=
  match client with
  | BinanceClient c =>
      let '(data, c') :=
        Binance.getExchangeData (binance env (Binance.accountType c)) c in
      (Some data, BinanceClient c')
  | BybitClient c =>
      let '(data, c') := Bybit.getExchangeData (bybit env) c in
      (Some data, BybitClient c')
  end.

(** The module state after [initializeExchangeClients] has registered
    the three clients. *)
Definition registeredState : Fetcher.State Client :=
  Fetcher.with_exchangeClients Fetcher.initialState
    (<["binance" :=
         <["futures" := BinanceClient (Binance.new Binance.FUTURES)]>
           (<["portfolioMargin" :=
                BinanceClient (Binance.new Binance.PORTFOLIO_MARGIN)]> ∅)]>
       (<["bybit" := <["unified" := BybitClient Bybit.new]> ∅]> ∅)).

End Clients.

(* ===================================================================== *)
(** ** Start of the service ([initializeExchangeClients],                 *)
(** ** [startDataFetcher])                                                *)
(* ===================================================================== *)

Module Startup.

(** How the [initialize()] of each client ends: it returns, or rethrows
    the error of its account request. *)
Record Initializations : Type := {
  binanceFutures : Fetcher.Exception + unit;
  binancePortfolioMargin : Fetcher.Exception + unit;
  bybitUnified : Fetcher.Exception + unit
}.

(** [initializeExchangeClients]: the three clients are created,
    initialized and registered one after the other inside one [try],
    whose [catch] rethrows. *)
Definition initializeExchangeClients (i : Initializations)
  : Fetcher.M Clients.Client unit :=
  Fetcher.try_catch
    (Fetcher.bind (Fetcher.lift (binanceFutures i)) (fun _ =>
     Fetcher.bind
       (Fetcher.writeTable Fetcher.exchangeClients Fetcher.with_exchangeClients
          "binance" "futures"
          (Clients.BinanceClient (Binance.new Binance.FUTURES))) (fun _ =>
     Fetcher.bind (Fetcher.lift (binancePortfolioMargin i)) (fun _ =>
     Fetcher.bind
       (Fetcher.writeTable Fetcher.exchangeClients Fetcher.with_exchangeClients
          "binance" "portfolioMargin"
          (Clients.BinanceClient (Binance.new Binance.PORTFOLIO_MARGIN))) (fun _ =>
     Fetcher.bind (Fetcher.lift (bybitUnified i)) (fun _ =>
     Fetcher.writeTable Fetcher.exchangeClients Fetcher.with_exchangeClients
       "bybit" "unified" (Clients.BybitClient Bybit.new)))))))
    (fun error => Fetcher.throw error).

(** The environment and the two clock readings of one initial fetch. *)
Definition Call : Type := Clients.Env * Z * Z.

(** [startDataFetcher], run on the state of the freshly loaded module:
    the initialization, then one fetch per registered key in the order of
    [Object.keys], which is the order of registration.  The periodic
    logging that follows changes nothing. *)
Definition startDataFetcher (i : Initializations) (futures portfolio unified : Call)
  : (Fetcher.Exception + unit) * Fetcher.State Clients.Client :=
  let fetch (call : Call) (exchange accountId : string) :=
    let '(env, checked, finished) := call in
    Fetcher.fetchExchangeData Clients.getExchangeData env checked finished
                              exchange accountId in
  Fetcher.bind (initializeExchangeClients i) (fun _ =>
  Fetcher.bind (fetch futures "binance" "futures") (fun _ =>
  Fetcher.bind (fetch portfolio "binance" "portfolioMargin") (fun _ =>
  fetch unified "bybit" "unified")))
    Fetcher.initialState.

End Startup.

(* ===================================================================== *)
(** ** Routes on the cached data ([routes/exchange.routes.ts]:            *)
(** ** [/positions], [/account-summary], [/set-current])                  *)
(* ===================================================================== *)

Module Routes.

(** What a handler sends. *)
Inductive Body : Type :=
| ErrorBody (error : string)
| PositionsBody (positions : list Model.Position)
| SummaryBody (summary : Model.AccountSummary)
| SelectedBody (exchange account : string).

Record Response : Type := {
  status : Z;
  body : Body
}.

(** [res.json(b)] and [res.status(code).json(b)]. *)
Definition json (b : Body) : Response := {| status := 200; body := b |}.
Definition statusJson (code : Z) (b : Body) : Response :=
  {| status := code; body := b |}.

(** [getCachedData()]. *)
Definition getCachedData {C : Type} (st : Fetcher.State C) : Fetcher.CombinedData :=
  Fetcher.cachedData st.

(** [data.exchanges[exchange]?.[account]]. *)
Definition cached (data : Fetcher.CombinedData) (exchange account : string)
  : option Model.ExchangeData :=
  match Fetcher.exchanges data !! exchange with
  | Some accounts => accounts !! account
  | None => None
  end.

(** [!s] for a string. *)
Definition empty (s : string) : bool := String.eqb s "".

(** [GET /positions]. *)
Definition positions {C : Type} (st : Fetcher.State C) : Response :=
  let data := getCachedData st in
  let currentExchange := Fetcher.currentExchange data in
  let currentAccount := Fetcher.currentAccount data in
  if (empty currentExchange || empty currentAccount)%bool
  then statusJson 404 (ErrorBody "No exchange or account selected")
  else
    match cached data currentExchange currentAccount with
    | None =>
        statusJson 404
          (ErrorBody "No data available for selected exchange and account")
    | Some exchangeData => json (PositionsBody (Model.positions exchangeData))
    end.

(** [GET /account-summary]. *)
Definition accountSummary {C : Type} (st : Fetcher.State C) : Response :=
  let data := getCachedData st in
  let currentExchange := Fetcher.currentExchange data in
  let currentAccount := Fetcher.currentAccount data in
  if (empty currentExchange || empty currentAccount)%bool
  then statusJson 404 (ErrorBody "No exchange or account selected")
  else
    match cached data currentExchange currentAccount with
    | None =>
        statusJson 404
          (ErrorBody "No data available for selected exchange and account")
    | Some exchangeData => json (SummaryBody (Model.accountSummary exchangeData))
    end.

(** [!field] for a field of the request body that is a string when it
    is present. *)
Definition missing (field : option string) : bool :=
  match field with
  | Some s => empty s
  | None => true
  end.

(** [POST /set-current], for a body whose fields [exchange] and
    [account] are strings when present.  The handler is not wrapped: what
    [setCurrentExchangeAndAccount] throws, it throws. *)
Definition setCurrent {C : Type} (exchange account : option string)
  : Fetcher.M C Response :=
  if (missing exchange || missing account)%bool
  then Fetcher.ret (statusJson 400 (ErrorBody "Exchange and account are required"))
  else
    let e := default "" exchange in
    let a := default "" account in
    Fetcher.bind (Fetcher.setCurrentExchangeAndAccount e a) (fun _ =>
    Fetcher.ret (json (SelectedBody e a))).

End Routes.

(* ===================================================================== *)
(** ** Total balance of the Binance client ([getAssetPrice],              *)
(** ** [getUSDTPrice], [calculateTotalUSDTBalance])                       *)
(* ===================================================================== *)

Module BinanceWallet.

(** One element of the [assets] of an account response. *)
Record Asset : Type := {
  asset : string;
  walletBalance : JS.value
}.

(** What the network answers during one [calculateTotalUSDTBalance]:
    the USDT-M and COIN-M account requests ([None] when the request
    fails, [Some None] for a response without [assets]) and the [price]
    field of the public ticker of a symbol ([None] when that request
    fails). *)
Record Responses : Type := {
  usdtFuturesAccount : option (option (list Asset));
  coinFuturesAccount : option (option (list Asset));
  tickerPrice : string -> option JS.value
}.

Definition getAssetPrice (r : Responses) (symbol : string) : JS.number :=
  match tickerPrice r symbol with
  | Some price => JS.parseFloat price
  | None => JS.zero
  end.

Definition getUSDTPrice (r : Responses) (asset : string) : JS.number :=
  if String.eqb asset "USDT" then JS.of_Z 1
  else
    let price := getAssetPrice r (asset ++ "USDT") in
    if JS.gt price JS.zero then price
    else
      let btcPrice := getAssetPrice r (asset ++ "BTC") in
      let btcUsdt := getAssetPrice r "BTCUSDT" in
      JS.mul btcPrice btcUsdt.

(** One turn of the loop over the USDT-M assets. *)
Definition addUsdtAsset (r : Responses) (totalUsdt : JS.number) (a : Asset)
  : JS.number :=
  let balance := JS.parseFloat (walletBalance a) in
  if JS.le balance JS.zero then totalUsdt
  else if String.eqb (asset a) "USDT" then JS.add totalUsdt balance
       else JS.add totalUsdt (JS.mul balance (getUSDTPrice r (asset a))).

(** One turn of the loop over the COIN-M assets. *)
Definition addCoinAsset (r : Responses) (totalUsdt : JS.number) (a : Asset)
  : JS.number :=
  let balance := JS.parseFloat (walletBalance a) in
  if JS.le balance JS.zero then totalUsdt
  else JS.add totalUsdt (JS.mul balance (getUSDTPrice r (asset a))).

Definition calculateTotalUSDTBalance (r : Responses) : JS.number :=
  JS.toFixed2
    match usdtFuturesAccount r with
    | None => JS.zero
    | Some assets =>
        let usdtTotal := fold_left (addUsdtAsset r) (default [] assets) JS.zero in
        match coinFuturesAccount r with
        | None => usdtTotal
        | Some coinAssets => fold_left (addCoinAsset r) (default [] coinAssets) usdtTotal
        end
    end.

End BinanceWallet.

(* ===================================================================== *)
(** ** Total balance of the Bybit client ([getAssetPrice],                *)
(** ** [calculateTotalUSDTBalance])                                       *)
(* ===================================================================== *)

Module BybitWallet.

(** One element of [list[0].coin]. *)
Module Coin.
Record t : Type := {
  coin : string;
  usdValue : JS.value;
  equity : JS.value;
  totalWalletBalance : JS.value;
  walletBalance : JS.value
}.
End Coin.

(** [list[0]] of the wallet-balance response. *)
Module Wallet.
Record t : Type := {
  totalWalletBalance : JS.value;
  coin : option (list Coin.t)
}.
End Wallet.

(** What the network answers during one [calculateTotalUSDTBalance]:
    the wallet request ([None] when it fails, [Some None] for a response
    without [list[0]]) and, per coin, the [lastPrice] that
    [getAssetPrice] finds for the coin's USDT pair ([None] when the
    request fails or the response has no such field). *)
Record Responses : Type := {
  walletBalance : option (option Wallet.t);
  lastPrice : string -> option JS.value
}.

Definition getAssetPrice (r : Responses) (symbol : string) : JS.number :=
  match lastPrice r (symbol ++ "USDT") with
  | Some price => if JS.truthy price then JS.parseFloat price else JS.zero
  | None => JS.zero
  end.

(** One turn of the fallback loop over the coins. *)
Definition addCoin (r : Responses) (totalUsdt : JS.number) (a : Coin.t)
  : JS.number :=
  let usdValue := JS.parseFloat (JS.or_else (Coin.usdValue a) (JS.VString "0")) in
  if JS.gt usdValue JS.zero then JS.add totalUsdt usdValue
  else
    let balance :=
      JS.parseFloat
        (JS.or_else
           (JS.or_else (JS.or_else (Coin.equity a) (Coin.totalWalletBalance a))
                       (Coin.walletBalance a))
           (JS.VString "0")) in
    if JS.le balance JS.zero then totalUsdt
    else if String.eqb (Coin.coin a) "USDT" then JS.add totalUsdt balance
         else JS.add totalUsdt (JS.mul balance (getAssetPrice r (Coin.coin a))).

Definition calculateTotalUSDTBalance (r : Responses) : JS.number :=
  match walletBalance r with
  | None | Some None => JS.zero
  | Some (Some wallet) =>
      let totalWalletBalance :=
        JS.parseFloat (JS.or_else (Wallet.totalWalletBalance wallet)
                                  (JS.VString "0")) in
      if JS.gt totalWalletBalance JS.zero then JS.toFixed2 totalWalletBalance
      else JS.toFixed2 (fold_left (addCoin r) (default [] (Wallet.coin wallet)) JS.zero)
  end.

End BybitWallet.

(* ===================================================================== *)
(** ** The numeric code over binary64 numbers                             *)
(* ===================================================================== *)

(** The data model of [src/models/position.model.ts] with its numeric
    fields as binary64 numbers. *)
Module Model64.

Record Position : Type := {
  symbol : string;
  side : Model.Side;
  size : F64.number;
  notionalValue : F64.number;
  entryPrice : F64.number;
  markPrice : F64.number;
  liquidationPrice : F64.number;
  liquidationPriceChangePercent : F64.number;
  currentFundingRate : F64.number;
  nextFundingRate : F64.number;
  leverage : F64.number;
  unrealizedPnl : F64.number;
  realizedPnl : F64.number;
  marginMode : Model.MarginMode;
  exchange : string
}.

Record AccountSummary : Type := {
  summaryExchange : string;
  accountId : string;
  baseCurrency : string;
  baseBalance : F64.number;
  totalNotionalValue : F64.number;
  accountLeverage : F64.number;
  openPositionsCount : nat;
  openOrdersCount : nat;
  accountMarginRatio : F64.number;
  liquidationBuffer : F64.number
}.

End Model64.

(** The normalizers and the account summary of
    [src/exchanges/binance.client.ts], on the records of [Binance]. *)
Module Binance64.

Definition one : F64.number := F64.of_Z 1.
Definition hundred : F64.number := F64.of_Z 100.

Definition calculateLiquidationDistance
           (markPrice liquidationPrice : F64.number) : F64.number :=
  if F64.strict_eq liquidationPrice F64.zero then F64.zero
  else F64.toFixed2
         (F64.mul (F64.div (F64.abs (F64.sub markPrice liquidationPrice)) markPrice)
                  hundred).

(** [fundingRate ? parseFloat(field) * 100 : 0], rounded. *)
Definition fundingPercent (fundingRate : option Binance.FundingRate.t)
           (field : Binance.FundingRate.t -> JS.value) : F64.number :=
  F64.toFixed2
    match fundingRate with
    | Some fr => F64.mul (F64.parseFloat (field fr)) hundred
    | None => F64.zero
    end.

(** The liquidation price used by the portfolio-margin branch: the
    reported one, or the estimate when it is 0 or below 0.001. *)
Definition portfolioLiquidationPrice (isCoinM : bool)
           (positionAmt markPrice leverage liquidationPrice : F64.number)
  : F64.number :=
  if (F64.strict_eq liquidationPrice F64.zero
      || F64.lt liquidationPrice (F64.of_Q (1 # 1000)))%bool
  then
    let maintenanceMarginRatio := F64.of_Q (13 # 1000) in
    if isCoinM then
      if F64.lt positionAmt F64.zero then
        let totalMarginRatio :=
          F64.add (F64.add maintenanceMarginRatio (F64.div one leverage))
                  (F64.of_Q (5 # 1000)) in
        F64.mul markPrice (F64.add one totalMarginRatio)
      else
        F64.mul markPrice (F64.sub one maintenanceMarginRatio)
    else
      if F64.lt positionAmt F64.zero
      then F64.mul markPrice
                   (F64.add (F64.add one (F64.div one leverage))
                            maintenanceMarginRatio)
      else F64.mul markPrice
                   (F64.sub (F64.sub one (F64.div one leverage))
                            maintenanceMarginRatio)
  else liquidationPrice.

(** The numbers that the callback of the portfolio-margin branch reads
    from a record. *)
Definition portfolioAmount (pos : Binance.RawPosition.t) : F64.number :=
  F64.parseFloat (F64.or_else (Binance.RawPosition.positionAmt pos)
                              (Binance.RawPosition.position pos)).

Definition portfolioMarkPrice (pos : Binance.RawPosition.t) : F64.number :=
  F64.parseFloat (F64.or_else (Binance.RawPosition.markPrice pos)
                              (Binance.RawPosition.markPrice pos)).

Definition portfolioLeverage (pos : Binance.RawPosition.t) : F64.number :=
  F64.parseFloat (F64.or_else (Binance.RawPosition.leverage pos)
                              (JS.VNumber (JS.of_Z 1))).

Definition isCoinM (pos : Binance.RawPosition.t) : bool :=
  (JS.includes "_" (Binance.RawPosition.symbol pos)
   || JS.includes "USD_" (Binance.RawPosition.symbol pos))%bool.

(** The liquidation price of the portfolio-margin branch before it is
    rounded for the record. *)
Definition portfolioLiquidation (pos : Binance.RawPosition.t) : F64.number :=
  portfolioLiquidationPrice (isCoinM pos) (portfolioAmount pos)
    (portfolioMarkPrice pos) (portfolioLeverage pos)
    (F64.parseFloat (F64.or_else (Binance.RawPosition.liquidationPrice pos)
                                 (JS.VNumber JS.zero))).

(** The callback of the portfolio-margin branch of [processPositions];
    [None] is the [TypeError] of [marginType.toLowerCase()] on a value
    that is not a string. *)
Definition mapPortfolioPosition (fundingRates : list Binance.FundingRate.t)
           (pos : Binance.RawPosition.t) : option Model64.Position :=
  let symbol := Binance.RawPosition.symbol pos in
  let positionAmt := portfolioAmount pos in
  let entryPrice :=
    F64.parseFloat (F64.or_else (Binance.RawPosition.entryPrice pos)
                                (Binance.RawPosition.avgEntryPrice pos)) in
  let markPrice := portfolioMarkPrice pos in
  let leverage := portfolioLeverage pos in
  let unrealizedProfit :=
    F64.parseFloat
      (F64.or_else (F64.or_else (Binance.RawPosition.unRealizedProfit pos)
                                (Binance.RawPosition.unrealizedPnl pos))
                   (JS.VNumber JS.zero)) in
  let marginType :=
    F64.or_else (Binance.RawPosition.marginType pos) (JS.VString "cross") in
  let liquidationPrice := portfolioLiquidation pos in
  let liquidationDistance := calculateLiquidationDistance markPrice liquidationPrice in
  match Binance.marginMode_of marginType with
  | None => None
  | Some marginMode =>
      if isCoinM pos then
        let positionSizeUSDT := F64.mul positionAmt markPrice in
        let notionalValue := F64.toFixed2 positionSizeUSDT in
        Some {| Model64.symbol := symbol;
                Model64.side :=
                  if F64.gt positionAmt F64.zero then Model.LONG else Model.SHORT;
                Model64.size := F64.abs positionAmt;
                Model64.notionalValue := notionalValue;
                Model64.entryPrice := F64.toFixed2 entryPrice;
                Model64.markPrice := F64.toFixed2 markPrice;
                Model64.liquidationPrice := F64.toFixed2 liquidationPrice;
                Model64.liquidationPriceChangePercent :=
                  F64.toFixed2 liquidationDistance;
                Model64.currentFundingRate := F64.zero;
                Model64.nextFundingRate := F64.zero;
                Model64.leverage := F64.toFixed2 leverage;
                Model64.unrealizedPnl := F64.toFixed2 unrealizedProfit;
                Model64.realizedPnl := F64.zero;
                Model64.marginMode := marginMode;
                Model64.exchange := "binance" |}
      else
        let fundingRate := Binance.findFundingRate fundingRates symbol in
        let positionSize := F64.toFixed2 positionAmt in
        let notionalValue := F64.toFixed2 (F64.abs (F64.mul positionSize markPrice)) in
        Some {| Model64.symbol := symbol;
                Model64.side :=
                  if F64.gt positionSize F64.zero then Model.LONG else Model.SHORT;
                Model64.size := F64.abs positionSize;
                Model64.notionalValue := notionalValue;
                Model64.entryPrice := F64.toFixed2 entryPrice;
                Model64.markPrice := F64.toFixed2 markPrice;
                Model64.liquidationPrice := F64.toFixed2 liquidationPrice;
                Model64.liquidationPriceChangePercent := liquidationDistance;
                Model64.currentFundingRate :=
                  fundingPercent fundingRate Binance.FundingRate.lastFundingRate;
                Model64.nextFundingRate :=
                  fundingPercent fundingRate Binance.FundingRate.nextFundingRate;
                Model64.leverage := F64.toFixed2 leverage;
                Model64.unrealizedPnl := F64.toFixed2 unrealizedProfit;
                Model64.realizedPnl := F64.zero;
                Model64.marginMode := marginMode;
                Model64.exchange := "binance" |}
  end.

(** The callback of the futures branch of [processPositions]; [None]
    is the [TypeError] of [pos.marginType.toLowerCase()]. *)
Definition mapFuturesPosition (fundingRates : list Binance.FundingRate.t)
           (pos : Binance.RawPosition.t) : option Model64.Position :=
  let fundingRate :=
    Binance.findFundingRate fundingRates (Binance.RawPosition.symbol pos) in
  let positionSize :=
    F64.toFixed2 (F64.parseFloat (Binance.RawPosition.positionAmt pos)) in
  let entryPrice :=
    F64.toFixed2 (F64.parseFloat (Binance.RawPosition.entryPrice pos)) in
  let markPrice :=
    F64.toFixed2 (F64.parseFloat (Binance.RawPosition.markPrice pos)) in
  let leverage :=
    F64.toFixed2 (F64.parseFloat (Binance.RawPosition.leverage pos)) in
  let unrealizedPnl :=
    F64.toFixed2 (F64.parseFloat (Binance.RawPosition.unRealizedProfit pos)) in
  let liquidationPrice :=
    F64.toFixed2 (F64.parseFloat (Binance.RawPosition.liquidationPrice pos)) in
  let notionalValue := F64.toFixed2 (F64.abs (F64.mul positionSize markPrice)) in
  let liquidationDistance :=
    F64.toFixed2 (calculateLiquidationDistance markPrice liquidationPrice) in
  match Binance.marginMode_of (Binance.RawPosition.marginType pos) with
  | None => None
  | Some marginMode =>
      Some {| Model64.symbol := Binance.RawPosition.symbol pos;
              Model64.side :=
                if F64.gt positionSize F64.zero then Model.LONG else Model.SHORT;
              Model64.size := F64.abs positionSize;
              Model64.notionalValue := notionalValue;
              Model64.entryPrice := entryPrice;
              Model64.markPrice := markPrice;
              Model64.liquidationPrice := liquidationPrice;
              Model64.liquidationPriceChangePercent := liquidationDistance;
              Model64.currentFundingRate :=
                fundingPercent fundingRate Binance.FundingRate.lastFundingRate;
              Model64.nextFundingRate :=
                fundingPercent fundingRate Binance.FundingRate.nextFundingRate;
              Model64.leverage := leverage;
              Model64.unrealizedPnl := unrealizedPnl;
              Model64.realizedPnl := F64.zero;
              Model64.marginMode := marginMode;
              Model64.exchange := "binance" |}
  end.

(** [processAccountSummary]; [totalUSDTBalance] is the awaited
    [calculateTotalUSDTBalance()] of the futures branch. *)
Definition processAccountSummary (t : Binance.BinanceAccountType)
           (totalUSDTBalance : F64.number) (accountInfo : Binance.AccountInfo.t)
           (positions : list Model64.Position) (openOrders : list JS.value)
  : Model64.AccountSummary :=
  let totalNotionalValue := F64.sum_over Model64.notionalValue positions in
  let totalLeverage := F64.sum_over Model64.leverage positions in
  let accountLeverage :=
    match positions with
    | _ :: _ =>
        F64.toFixed2 (F64.div totalLeverage (F64.of_Z (Z.of_nat (length positions))))
    | [] => F64.zero
    end in
  let '(baseBalance, marginRatio, liquidationBuffer) :=
    match t with
    | Binance.FUTURES =>
        let totalMarginBalance :=
          F64.toFixed2
            (F64.parseFloat (Binance.AccountInfo.totalMarginBalance accountInfo)) in
        let totalMaintenanceMargin :=
          F64.toFixed2
            (F64.parseFloat (Binance.AccountInfo.totalMaintMargin accountInfo)) in
        let baseBalance := totalUSDTBalance in
        let marginRatio :=
          F64.toFixed2
            (F64.mul (F64.div totalMaintenanceMargin totalMarginBalance) hundred) in
        let calculatedBuffer :=
          if F64.gt totalMaintenanceMargin F64.zero
          then F64.toFixed2
                 (F64.mul
                    (F64.div (F64.sub totalMarginBalance totalMaintenanceMargin)
                             totalMaintenanceMargin)
                    hundred)
          else F64.zero in
        (baseBalance, marginRatio, F64.min calculatedBuffer hundred)
    | Binance.PORTFOLIO_MARGIN =>
        let totalBalance :=
          F64.toFixed2
            (F64.parseFloat (F64.or_else (Binance.AccountInfo.actualEquity accountInfo)
                                         (JS.VString "0"))) in
        let maintenanceMargin :=
          F64.toFixed2
            (F64.parseFloat
               (F64.or_else (Binance.AccountInfo.accountMaintMargin accountInfo)
                            (JS.VString "0"))) in
        let marginRatio :=
          if (F64.gt maintenanceMargin F64.zero && F64.gt totalBalance F64.zero)%bool
          then F64.toFixed2 (F64.mul (F64.div maintenanceMargin totalBalance) hundred)
          else F64.zero in
        let calculatedBuffer :=
          if F64.gt maintenanceMargin F64.zero
          then F64.toFixed2
                 (F64.mul (F64.div (F64.sub totalBalance maintenanceMargin)
                                   maintenanceMargin)
                          hundred)
          else F64.zero in
        (totalBalance, marginRatio, F64.min calculatedBuffer hundred)
    end in
  {| Model64.summaryExchange := "binance";
     Model64.accountId := Binance.accountType_string t;
     Model64.baseCurrency := "USDT";
     Model64.baseBalance := baseBalance;
     Model64.totalNotionalValue := totalNotionalValue;
     Model64.accountLeverage := accountLeverage;
     Model64.openPositionsCount := length positions;
     Model64.openOrdersCount := length openOrders;
     Model64.accountMarginRatio := marginRatio;
     Model64.liquidationBuffer := liquidationBuffer |}.

End Binance64.

(** The normalizer and the account summary of
    [src/exchanges/bybit.client.ts], on the records of [Bybit]. *)
Module Bybit64.

Definition hundred : F64.number := F64.of_Z 100.

Definition calculateLiquidationDistance
           (markPrice liquidationPrice : F64.number) (side : Model.Side)
  : F64.number :=
  if F64.strict_eq liquidationPrice F64.zero then F64.zero
  else F64.toFixed2
         (F64.mul
            (F64.div
               match side with
               | Model.LONG => F64.sub liquidationPrice markPrice
               | Model.SHORT => F64.sub markPrice liquidationPrice
               end
               markPrice)
            hundred).

Definition calculateLiquidationPrice
           (entryPrice positionSize availableBalance initialMargin
                       maintenanceMargin : F64.number) (side : Model.Side)
  : F64.number :=
  if F64.strict_eq positionSize F64.zero then F64.zero
  else
    let marginDiff :=
      F64.sub (F64.add availableBalance initialMargin) maintenanceMargin in
    match side with
    | Model.LONG =>
        F64.toFixed2 (F64.sub entryPrice (F64.div marginDiff (F64.abs positionSize)))
    | Model.SHORT =>
        F64.toFixed2 (F64.add entryPrice (F64.div marginDiff (F64.abs positionSize)))
    end.

(** [pos.tradeMode === 1]. *)
Definition isIsolated (tradeMode : JS.value) : bool :=
  match tradeMode with
  | JS.VNumber n => F64.strict_eq (F64.of_number n) (F64.of_Z 1)
  | _ => false
  end.

Definition mapPosition (pos : Bybit.RawPosition.t) (fundingRate : option Bybit.Ticker.t)
  : Model64.Position :=
  let size := F64.toFixed2 (F64.abs (F64.parseFloat (Bybit.RawPosition.size pos))) in
  let entryPrice := F64.toFixed2 (F64.parseFloat (Bybit.RawPosition.avgPrice pos)) in
  let markPrice := F64.toFixed2 (F64.parseFloat (Bybit.RawPosition.markPrice pos)) in
  let side :=
    if JS.is_string (Bybit.RawPosition.side pos) "Buy"
    then Model.LONG else Model.SHORT in
  let leverage := F64.toFixed2 (F64.parseFloat (Bybit.RawPosition.leverage pos)) in
  let unrealizedPnl :=
    F64.toFixed2 (F64.parseFloat (Bybit.RawPosition.unrealisedPnl pos)) in
  let realizedPnl :=
    F64.toFixed2
      (F64.parseFloat (F64.or_else (Bybit.RawPosition.cumRealisedPnl pos)
                                   (JS.VString "0"))) in
  let notionalValue :=
    F64.toFixed2 (F64.parseFloat (Bybit.RawPosition.positionValue pos)) in
  let initialMargin := F64.div notionalValue leverage in
  let maintenanceMargin := F64.mul initialMargin (F64.of_Q (4 # 10)) in
  let availableBalance :=
    F64.toFixed2
      (F64.parseFloat (F64.or_else (Bybit.RawPosition.walletBalance pos)
                                   (JS.VString "0"))) in
  let liquidationPrice :=
    calculateLiquidationPrice entryPrice size availableBalance initialMargin
                              maintenanceMargin side in
  let currentFundingRate :=
    F64.toFixed2
      match fundingRate with
      | Some fr => F64.mul (F64.parseFloat (Bybit.Ticker.fundingRate fr)) hundred
      | None => F64.zero
      end in
  let nextFundingRate :=
    F64.toFixed2
      match fundingRate with
      | Some fr =>
          F64.mul (F64.parseFloat (F64.or_else (Bybit.Ticker.nextFundingRate fr)
                                               (Bybit.Ticker.fundingRate fr)))
                  hundred
      | None => F64.zero
      end in
  let liquidationDistance :=
    F64.toFixed2 (calculateLiquidationDistance markPrice liquidationPrice side) in
  let marginMode :=
    if isIsolated (Bybit.RawPosition.tradeMode pos)
    then Model.ISOLATED else Model.CROSS in
  {| Model64.symbol := Bybit.RawPosition.symbol pos;
     Model64.side := side;
     Model64.size := size;
     Model64.notionalValue := notionalValue;
     Model64.entryPrice := entryPrice;
     Model64.markPrice := markPrice;
     Model64.liquidationPrice := liquidationPrice;
     Model64.liquidationPriceChangePercent := liquidationDistance;
     Model64.currentFundingRate := currentFundingRate;
     Model64.nextFundingRate := nextFundingRate;
     Model64.leverage := leverage;
     Model64.unrealizedPnl := unrealizedPnl;
     Model64.realizedPnl := realizedPnl;
     Model64.marginMode := marginMode;
     Model64.exchange := "bybit" |}.

(** [calculateTotalNotionalValue], called on the normalized positions,
    whose [size] and [markPrice] are numbers. *)
Definition calculateTotalNotionalValue (positions : list Model64.Position)
  : F64.number :=
  F64.toFixed2
    (F64.sum_over
       (fun position =>
          let size := F64.abs (F64.reparse (Model64.size position)) in
          let markPrice := F64.reparse (Model64.markPrice position) in
          F64.mul size markPrice)
       positions).

(** The weighted leverage of [getExchangeData]. *)
Definition accountLeverageOf (positions : list Model64.Position)
           (totalNotionalValue : F64.number) : F64.number :=
  match positions with
  | _ :: _ =>
      let weightedLeverageSum :=
        F64.sum_over
          (fun position =>
             F64.mul (Model64.leverage position) (Model64.notionalValue position))
          positions in
      if F64.gt totalNotionalValue F64.zero
      then F64.toFixed2 (F64.div weightedLeverageSum totalNotionalValue)
      else F64.zero
  | [] => F64.zero
  end.

(** The account summary built by [getExchangeData]; [baseBalance] is the
    awaited [calculateTotalUSDTBalance()]. *)
Definition summarize (baseBalance : F64.number) (accountInfo : Bybit.AccountInfo.t)
           (positions : list Model64.Position) (openOrders : list JS.value)
  : Model64.AccountSummary :=
  let totalNotionalValue := calculateTotalNotionalValue positions in
  let accountLeverage := accountLeverageOf positions totalNotionalValue in
  let totalEquity :=
    F64.toFixed2
      (F64.parseFloat (F64.or_else (Bybit.AccountInfo.totalEquity accountInfo)
                                   (JS.VString "0"))) in
  let totalMaintenanceMargin :=
    F64.toFixed2
      (F64.parseFloat
         (F64.or_else (Bybit.AccountInfo.totalMaintenanceMargin accountInfo)
                      (JS.VString "0"))) in
  let marginRatio :=
    if F64.gt totalEquity F64.zero
    then F64.toFixed2 (F64.mul (F64.div totalMaintenanceMargin totalEquity) hundred)
    else F64.zero in
  let liquidationBuffer :=
    if F64.gt totalMaintenanceMargin F64.zero
    then F64.toFixed2
           (F64.mul (F64.div (F64.sub totalEquity totalMaintenanceMargin)
                             totalMaintenanceMargin)
                    hundred)
    else F64.zero in
  {| Model64.summaryExchange := "bybit";
     Model64.accountId := "unified";
     Model64.baseCurrency := "USDT";
     Model64.baseBalance := baseBalance;
     Model64.totalNotionalValue := totalNotionalValue;
     Model64.accountLeverage := accountLeverage;
     Model64.openPositionsCount := length positions;
     Model64.openOrdersCount := length openOrders;
     Model64.accountMarginRatio := marginRatio;
     Model64.liquidationBuffer := F64.min liquidationBuffer hundred |}.

End Bybit64.

(** [getAssetPrice], [getUSDTPrice] and [calculateTotalUSDTBalance] of
    the Binance client, on the responses of [BinanceWallet]. *)
Module BinanceWallet64.

Definition getAssetPrice (r : BinanceWallet.Responses) (symbol : string)
  : F64.number :=
  match BinanceWallet.tickerPrice r symbol with
  | Some price => F64.parseFloat price
  | None => F64.zero
  end.

Definition getUSDTPrice (r : BinanceWallet.Responses) (asset : string)
  : F64.number :=
  if String.eqb asset "USDT" then F64.of_Z 1
  else
    let price := getAssetPrice r (asset ++ "USDT") in
    if F64.gt price F64.zero then price
    else
      let btcPrice := getAssetPrice r (asset ++ "BTC") in
      let btcUsdt := getAssetPrice r "BTCUSDT" in
      F64.mul btcPrice btcUsdt.

(** One turn of the loop over the USDT-M assets. *)
Definition addUsdtAsset (r : BinanceWallet.Responses) (totalUsdt : F64.number)
           (a : BinanceWallet.Asset) : F64.number :=
  let balance := F64.parseFloat (BinanceWallet.walletBalance a) in
  if F64.le balance F64.zero then totalUsdt
  else if String.eqb (BinanceWallet.asset a) "USDT" then F64.add totalUsdt balance
       else F64.add totalUsdt
                    (F64.mul balance (getUSDTPrice r (BinanceWallet.asset a))).

(** One turn of the loop over the COIN-M assets. *)
Definition addCoinAsset (r : BinanceWallet.Responses) (totalUsdt : F64.number)
           (a : BinanceWallet.Asset) : F64.number :=
  let balance := F64.parseFloat (BinanceWallet.walletBalance a) in
  if F64.le balance F64.zero then totalUsdt
  else F64.add totalUsdt (F64.mul balance (getUSDTPrice r (BinanceWallet.asset a))).

Definition calculateTotalUSDTBalance (r : BinanceWallet.Responses) : F64.number :=
  F64.toFixed2
    match BinanceWallet.usdtFuturesAccount r with
    | None => F64.zero
    | Some assets =>
        let usdtTotal :=
          fold_left (addUsdtAsset r) (default [] assets) F64.zero in
        match BinanceWallet.coinFuturesAccount r with
        | None => usdtTotal
        | Some coinAssets =>
            fold_left (addCoinAsset r) (default [] coinAssets) usdtTotal
        end
    end.

End BinanceWallet64.

(** [getAssetPrice] and [calculateTotalUSDTBalance] of the Bybit client,
    on the responses of [BybitWallet]. *)
Module BybitWallet64.

Definition getAssetPrice (r : BybitWallet.Responses) (symbol : string)
  : F64.number :=
  match BybitWallet.lastPrice r (symbol ++ "USDT") with
  | Some price => if F64.truthy price then F64.parseFloat price else F64.zero
  | None => F64.zero
  end.

(** One turn of the fallback loop over the coins. *)
Definition addCoin (r : BybitWallet.Responses) (totalUsdt : F64.number)
           (a : BybitWallet.Coin.t) : F64.number :=
  let usdValue :=
    F64.parseFloat (F64.or_else (BybitWallet.Coin.usdValue a) (JS.VString "0")) in
  if F64.gt usdValue F64.zero then F64.add totalUsdt usdValue
  else
    let balance :=
      F64.parseFloat
        (F64.or_else
           (F64.or_else (F64.or_else (BybitWallet.Coin.equity a)
                                     (BybitWallet.Coin.totalWalletBalance a))
                        (BybitWallet.Coin.walletBalance a))
           (JS.VString "0")) in
    if F64.le balance F64.zero then totalUsdt
    else if String.eqb (BybitWallet.Coin.coin a) "USDT"
         then F64.add totalUsdt balance
         else F64.add totalUsdt
                      (F64.mul balance (getAssetPrice r (BybitWallet.Coin.coin a))).

Definition calculateTotalUSDTBalance (r : BybitWallet.Responses) : F64.number :=
  match BybitWallet.walletBalance r with
  | None | Some None => F64.zero
  | Some (Some wallet) =>
      let totalWalletBalance :=
        F64.parseFloat (F64.or_else (BybitWallet.Wallet.totalWalletBalance wallet)
                                    (JS.VString "0")) in
      if F64.gt totalWalletBalance F64.zero then F64.toFixed2 totalWalletBalance
      else F64.toFixed2
             (fold_left (addCoin r) (default [] (BybitWallet.Wallet.coin wallet))
                        F64.zero)
  end.

End BybitWallet64.

(* ===================================================================== *)
(** ** Reference definitions used in the statements                       *)
(* ===================================================================== *)

Module Ref.

Local Open Scope Q_scope.


(** The sum of [f] over the positions. *)
Fixpoint total (f : Model.Position -> Q) (ps : list Model.Position) : Q :=
  match ps with
  | [] => 0
  | p :: rest => f p + total f rest
  end.



(** The most recent successful snapshot among the attempts, or the
    initial data when none succeeded. *)
Definition mostRecentSuccess (initial : Model.ExchangeData)
           (attempts : list (option Model.ExchangeData)) : Model.ExchangeData :=
  fold_left (fun served attempt => default served attempt) attempts initial.

(** Successive [getExchangeData] calls on a Binance client. *)
Definition runBinance (rs : list Binance.Responses) (c : Binance.Client)
  : Binance.Client :=
  fold_left (fun c r => snd (Binance.getExchangeData r c)) rs c.

(** Successive [getExchangeData] calls on a Bybit client. *)
Definition runBybit (rs : list Bybit.Responses) (c : Bybit.Client)
  : Bybit.Client :=
  fold_left (fun c r => snd (Bybit.getExchangeData r c)) rs c.

(** Every table of the service has an entry for the exchange, as the
    module creates them. *)
Definition hasExchange {C : Type} (st : Fetcher.State C) (exchange : string) : Prop :=
  is_Some (Fetcher.exchangeClients st !! exchange) /\
  is_Some (Fetcher.exchanges (Fetcher.cachedData st) !! exchange) /\
  is_Some (Fetcher.lastFetchTimes st !! exchange) /\
  is_Some (Fetcher.errorCounts st !! exchange) /\
  is_Some (Fetcher.backoffTimes st !! exchange).

(** Every available exchange has its list of accounts. *)
Definition accountsListed (d : Fetcher.CombinedData) : Prop :=
  forall exchange,
    exchange ∈ Fetcher.availableExchanges d ->
    is_Some (Fetcher.availableAccounts d !! exchange).

(** Membership in the configured available sets. *)
Definition validSelection (d : Fetcher.CombinedData) (exchange account : string)
  : Prop :=
  exchange ∈ Fetcher.availableExchanges d /\
  exists accounts,
    Fetcher.availableAccounts d !! exchange = Some accounts /\ account ∈ accounts.

(** A client whose [getExchangeData] always rejects. *)
Definition rejecting : unit -> unit -> option Model.ExchangeData * unit :=
  fun _ c => (None, c).

(** The calls are attempted: the clock does not go back, and each
    backoff check happens after the longest backoff that the previous
    call may have set. *)
Fixpoint spaced {Env : Type} (previous : Z) (calls : list (Env * Z * Z)) : Prop :=
  match calls with
  | [] => True
  | (_, checked, finished) :: rest =>
      (previous <= checked)%Z /\ (checked <= finished)%Z /\
      spaced (finished + 1920000)%Z rest
  end.

(** The clock reading after the last call. *)
Definition lastFinished {Env : Type} (calls : list (Env * Z * Z)) (start : Z) : Z :=
  fold_left (fun _ '(_, _, finished) => finished) calls start.

(** [table[exchange][accountId]], [None] for [undefined]. *)
Definition entry {V : Type} (table : Fetcher.Table V) (exchange accountId : string)
  : option V :=
  match table !! exchange with
  | Some inner => inner !! accountId
  | None => None
  end.

(** The table after [table[exchange][accountId] = v]. *)
Definition updated {V : Type} (table : Fetcher.Table V)
           (exchange accountId : string) (v : V) : Fetcher.Table V :=
  <[exchange := <[accountId := v]> (default ∅ (table !! exchange))]> table.

(** The module state after a fetch whose client call returned [data]. *)
Definition succeeded {C : Type} (st : Fetcher.State C)
           (exchange accountId : string) (client : C)
           (data : Model.ExchangeData) (finished : Z) : Fetcher.State C :=
  {| Fetcher.exchangeClients :=
       updated (Fetcher.exchangeClients st) exchange accountId client;
     Fetcher.cachedData :=
       Fetcher.with_exchanges (Fetcher.cachedData st)
         (updated (Fetcher.exchanges (Fetcher.cachedData st))
                  exchange accountId data);
     Fetcher.lastFetchTimes :=
       updated (Fetcher.lastFetchTimes st) exchange accountId finished;
     Fetcher.errorCounts := updated (Fetcher.errorCounts st) exchange accountId 0%Z;
     Fetcher.backoffTimes :=
       updated (Fetcher.backoffTimes st) exchange accountId 0%Z |}.

(** The module state after a fetch whose client call rejected. *)
Definition failed {C : Type} (st : Fetcher.State C)
           (exchange accountId : string) (client : C) (finished : Z)
  : Fetcher.State C :=
  let incremented :=
    (default 0 (entry (Fetcher.errorCounts st) exchange accountId) + 1)%Z in
  {| Fetcher.exchangeClients :=
       updated (Fetcher.exchangeClients st) exchange accountId client;
     Fetcher.cachedData := Fetcher.cachedData st;
     Fetcher.lastFetchTimes := Fetcher.lastFetchTimes st;
     Fetcher.errorCounts :=
       updated (Fetcher.errorCounts st) exchange accountId incremented;
     Fetcher.backoffTimes :=
       if (Fetcher.MAX_CONSECUTIVE_ERRORS <=? incremented)%Z
       then updated (Fetcher.backoffTimes st) exchange accountId
                    (finished + Fetcher.backoffTime incremented)%Z
       else Fetcher.backoffTimes st |}.

(** A position whose funding rates are 0. *)
Definition unfunded (p : Model.Position) : Prop :=
  Model.currentFundingRate p = JS.zero /\ Model.nextFundingRate p = JS.zero.

(** Data with no positions and an all-zero account summary. *)
Definition emptyData (d : Model.ExchangeData) : Prop :=
  Model.positions d = [] /\
  Model.baseBalance (Model.accountSummary d) = JS.zero /\
  Model.totalNotionalValue (Model.accountSummary d) = JS.zero /\
  Model.accountLeverage (Model.accountSummary d) = JS.zero /\
  Model.openPositionsCount (Model.accountSummary d) = 0%nat /\
  Model.openOrdersCount (Model.accountSummary d) = 0%nat /\
  Model.accountMarginRatio (Model.accountSummary d) = JS.zero /\
  Model.liquidationBuffer (Model.accountSummary d) = JS.zero.

(** The configured available sets of the cache. *)
Definition available {C : Type} (st : Fetcher.State C)
  : list string * gmap string (list string) :=
  (Fetcher.availableExchanges (Fetcher.cachedData st),
   Fetcher.availableAccounts (Fetcher.cachedData st)).

(** A statement sequence that never changes the available sets, whether
    it returns or throws. *)
Definition keepsAvailable {C A : Type} (m : Fetcher.M C A) : Prop :=
  forall st, available (snd (m st)) = available st.

(** A JSON field that holds a string. *)
Definition isString (v : JS.value) : Prop := exists s, v = JS.VString s.

(** The position amount reads as a number other than 0 (an infinity
    included), the test of the futures filter. *)
Definition hasAmount (pos : Binance.RawPosition.t) : bool :=
  match JS.parseFloat (Binance.RawPosition.positionAmt pos) with
  | JS.NaN => false
  | JS.Fin q => negb (JS.Qis_zero q)
  | _ => true
  end.

(** A snapshot whose count of open positions is the length of its list
    of positions and whose positions and summary carry the exchange tag. *)
Definition consistent (tag : string) (d : Model.ExchangeData) : Prop :=
  Model.openPositionsCount (Model.accountSummary d) = length (Model.positions d) /\
  Forall (fun p => Model.exchange p = tag) (Model.positions d) /\
  Model.summaryExchange (Model.accountSummary d) = tag.

(** The two instants kept for a key lie in the range of [Date]. *)
Definition datesInRange {C : Type} (st : Fetcher.State C)
           (exchange accountId : string) : Prop :=
  (Z.abs (default 0 (entry (Fetcher.lastFetchTimes st) exchange accountId))
   <= 8640000000000000)%Z /\
  (Z.abs (default 0 (entry (Fetcher.backoffTimes st) exchange accountId))
   <= 8640000000000000)%Z.

(** The health entry of a key, read off the three tables. *)
Definition expectedHealth {C : Type} (st : Fetcher.State C) (now : Z)
           (exchange accountId : string) : Fetcher.HealthStatus :=
  let lastFetch :=
    default 0%Z (entry (Fetcher.lastFetchTimes st) exchange accountId) in
  let backoff := entry (Fetcher.backoffTimes st) exchange accountId in
  {| Fetcher.healthy := ((0 <? lastFetch) && (now - lastFetch <? 300000))%Z;
     Fetcher.lastFetch := if (lastFetch =? 0)%Z then None else Some lastFetch;
     Fetcher.timeSinceLastFetch :=
       if (lastFetch =? 0)%Z then None
       else Some (Fetcher.roundSeconds (now - lastFetch));
     Fetcher.inBackoff := Fetcher.after backoff now;
     Fetcher.backoffEnds :=
       if Fetcher.after backoff now then Some (default 0%Z backoff) else None;
     Fetcher.errorCount :=
       default 0%Z (entry (Fetcher.errorCounts st) exchange accountId) |}.

(** Every exchange with registered clients has its tables, and the
    instants kept for every registered key lie in the range of [Date]. *)
Definition reportable {C : Type} (st : Fetcher.State C) : Prop :=
  forall exchange accounts,
    Fetcher.exchangeClients st !! exchange = Some accounts ->
    hasExchange st exchange /\
    forall accountId, is_Some (accounts !! accountId) ->
                      datesInRange st exchange accountId.

(** The error of the first [initialize()] that fails, if one does. *)
Definition firstFailure (i : Startup.Initializations) : option Fetcher.Exception :=
  match Startup.binanceFutures i with
  | inl e => Some e
  | inr _ =>
      match Startup.binancePortfolioMargin i with
      | inl e => Some e
      | inr _ =>
          match Startup.bybitUnified i with
          | inl e => Some e
          | inr _ => None
          end
      end
  end.

(** The state after a sequence of [POST /set-current] requests, each
    with the two fields of its body. *)
Definition selections {C : Type} (requests : list (option string * option string))
           (st : Fetcher.State C) : Fetcher.State C :=
  fold_left (fun st request => snd (Routes.setCurrent (fst request) (snd request) st))
            requests st.

(** The current selection is among the available ones, and every
    available selection is named and has cached data. *)
Definition ready (d : Fetcher.CombinedData) : Prop :=
  accountsListed d /\
  validSelection d (Fetcher.currentExchange d) (Fetcher.currentAccount d) /\
  forall exchange account,
    validSelection d exchange account ->
    exchange <> "" /\ account <> "" /\
    is_Some (Routes.cached d exchange account).

(** The asset lists that a Binance balance calculation goes through. *)
Definition binanceAssets (r : BinanceWallet.Responses) : list BinanceWallet.Asset :=
  match BinanceWallet.usdtFuturesAccount r with
  | None => []
  | Some usdtAssets =>
      default [] usdtAssets
      ++ match BinanceWallet.coinFuturesAccount r with
         | Some coinAssets => default [] coinAssets
         | None => []
         end
  end.

(** *** Over binary64 numbers *)

(** A number that is not below zero. *)
Definition notNegative (x : F64.number) : Prop := F64.lt x F64.zero = false.

(** A number that carries the sign [s], or [NaN]. *)
Definition signed (s : bool) (x : F64.number) : Prop :=
  match x with
  | S754_zero s' | S754_infinity s' | S754_finite s' _ _ => s' = s
  | S754_nan => True
  end.

(** The two-decimal equity and maintenance margin that a summary reads
    from the account response. *)
Definition binanceEquity (t : Binance.BinanceAccountType)
           (ai : Binance.AccountInfo.t) : F64.number :=
  F64.toFixed2
    (F64.parseFloat
       match t with
       | Binance.FUTURES => Binance.AccountInfo.totalMarginBalance ai
       | Binance.PORTFOLIO_MARGIN =>
           F64.or_else (Binance.AccountInfo.actualEquity ai) (JS.VString "0")
       end).

Definition binanceMaintenance (t : Binance.BinanceAccountType)
           (ai : Binance.AccountInfo.t) : F64.number :=
  F64.toFixed2
    (F64.parseFloat
       match t with
       | Binance.FUTURES => Binance.AccountInfo.totalMaintMargin ai
       | Binance.PORTFOLIO_MARGIN =>
           F64.or_else (Binance.AccountInfo.accountMaintMargin ai) (JS.VString "0")
       end).

Definition bybitEquity (ai : Bybit.AccountInfo.t) : F64.number :=
  F64.toFixed2
    (F64.parseFloat (F64.or_else (Bybit.AccountInfo.totalEquity ai) (JS.VString "0"))).

Definition bybitMaintenance (ai : Bybit.AccountInfo.t) : F64.number :=
  F64.toFixed2
    (F64.parseFloat (F64.or_else (Bybit.AccountInfo.totalMaintenanceMargin ai)
                                 (JS.VString "0"))).


(** [maintenanceMargin / equity * 100] in two decimals. *)
Definition marginRatio64 (equity maintenance : F64.number) : F64.number :=
  F64.toFixed2 (F64.mul (F64.div maintenance equity) (F64.of_Z 100)).



(** A name that every object inherits from [Object.prototype]: a table
    of the service answers it for a key that was never written. *)
Definition inheritedNames : list string :=
  ["constructor"; "__proto__"; "hasOwnProperty"; "isPrototypeOf";
   "propertyIsEnumerable"; "toLocaleString"; "toString"; "valueOf";
   "__defineGetter__"; "__defineSetter__"; "__lookupGetter__";
   "__lookupSetter__"].

(** A key that names no inherited member. *)
Definition plainKey (s : string) : Prop := ~ In s inheritedNames.

End Ref.

(* ===================================================================== *)
(** ** Concrete inputs                                                    *)
(* ===================================================================== *)

Module Samples.

(** A Binance account response reporting the given equity and
    maintenance margin, under the field names of both account types. *)
Definition binanceAccount (equity maintenance : string) : Binance.AccountInfo.t :=
  {| Binance.AccountInfo.totalMarginBalance := JS.VString equity;
     Binance.AccountInfo.totalMaintMargin := JS.VString maintenance;
     Binance.AccountInfo.actualEquity := JS.VString equity;
     Binance.AccountInfo.accountMaintMargin := JS.VString maintenance;
     Binance.AccountInfo.accountInitialMargin := JS.VUndefined |}.

Definition bybitAccount (equity maintenance : string) : Bybit.AccountInfo.t :=
  {| Bybit.AccountInfo.totalEquity := JS.VString equity;
     Bybit.AccountInfo.totalInitialMargin := JS.VUndefined;
     Bybit.AccountInfo.totalMaintenanceMargin := JS.VString maintenance |}.

(** The raw position of the end-to-end scenario, with the margin type
    left open. *)
Definition btcShort (marginType : JS.value) : Binance.RawPosition.t :=
  {| Binance.RawPosition.symbol := "BTCUSDT";
     Binance.RawPosition.positionAmt := JS.VString "-0.5";
     Binance.RawPosition.position := JS.VUndefined;
     Binance.RawPosition.entryPrice := JS.VString "61000";
     Binance.RawPosition.avgEntryPrice := JS.VUndefined;
     Binance.RawPosition.markPrice := JS.VString "60000";
     Binance.RawPosition.leverage := JS.VString "10";
     Binance.RawPosition.unRealizedProfit := JS.VUndefined;
     Binance.RawPosition.unrealizedPnl := JS.VUndefined;
     Binance.RawPosition.liquidationPrice := JS.VString "0";
     Binance.RawPosition.marginType := marginType |}.

(** Binance answers every authenticated request, with the scenario's
    position as the only one, and the funding-rate request fails. *)
Definition binanceWithoutFunding : Binance.Responses :=
  {| Binance.accountInfo := Some (binanceAccount "1000" "100");
     Binance.positionRisk := Some [btcShort (JS.VString "cross")];
     Binance.openOrders := Some [];
     Binance.premiumIndex := None;
     Binance.fundingRateHistory := fun _ => None;
     Binance.totalUSDTBalance := JS.of_Z 1000 |}.

(** A normalized position with the given size, mark price, notional
    value and leverage. *)
Definition position (size markPrice notional leverage : Z) : Model.Position :=
  {| Model.symbol := "BTCUSDT";
     Model.side := Model.LONG;
     Model.size := JS.of_Z size;
     Model.notionalValue := JS.of_Z notional;
     Model.entryPrice := JS.of_Z markPrice;
     Model.markPrice := JS.of_Z markPrice;
     Model.liquidationPrice := JS.zero;
     Model.liquidationPriceChangePercent := JS.zero;
     Model.currentFundingRate := JS.zero;
     Model.nextFundingRate := JS.zero;
     Model.leverage := JS.of_Z leverage;
     Model.unrealizedPnl := JS.zero;
     Model.realizedPnl := JS.zero;
     Model.marginMode := Model.CROSS;
     Model.exchange := "binance" |}.


(** A Bybit long of one contract bought and marked at 100, 10x. *)
Definition bybitLong : Bybit.RawPosition.t :=
  {| Bybit.RawPosition.symbol := "BTCUSDT";
     Bybit.RawPosition.size := JS.VString "1";
     Bybit.RawPosition.avgPrice := JS.VString "100";
     Bybit.RawPosition.markPrice := JS.VString "100";
     Bybit.RawPosition.side := JS.VString "Buy";
     Bybit.RawPosition.leverage := JS.VString "10";
     Bybit.RawPosition.unrealisedPnl := JS.VString "0";
     Bybit.RawPosition.cumRealisedPnl := JS.VString "0";
     Bybit.RawPosition.positionValue := JS.VString "100";
     Bybit.RawPosition.walletBalance := JS.VUndefined;
     Bybit.RawPosition.tradeMode := JS.VNumber JS.zero |}.

Definition bybitResponses : Bybit.Responses :=
  {| Bybit.walletBalance := Some (bybitAccount "1000" "100");
     Bybit.usdtPositions := Some [bybitLong];
     Bybit.usdcPositions := Some [];
     Bybit.openOrders := Some [];
     Bybit.tickers := Some [];
     Bybit.totalUSDTBalance := JS.of_Z 1000 |}.

(** The service with one always-rejecting client registered for
    binance/futures. *)
Definition rejectingState : Fetcher.State unit :=
  Fetcher.with_exchangeClients Fetcher.initialState
    (<["binance" := <["futures" := tt]> ∅]> (<["bybit" := ∅]> ∅)).

(** [n] fetches, the k-th checked and finished at [k * 10000000] ms, counted
    down from [n]. *)
Fixpoint callsEvery (n : nat) (start : Z) : list (unit * Z * Z) :=
  match n with
  | O => []
  | S k => (tt, start, start) :: callsEvery k (start + 10000000)%Z
  end.

(** What the three exchanges' endpoints answer at one time. *)
Definition env : Clients.Env :=
  {| Clients.binance := fun _ => binanceWithoutFunding;
     Clients.bybit := bybitResponses |}.


(** The premium-index entry of BTCUSDT. *)
Definition btcRate : Binance.FundingRate.t :=
  {| Binance.FundingRate.symbol := "BTCUSDT";
     Binance.FundingRate.lastFundingRate := JS.VString "0.0001";
     Binance.FundingRate.nextFundingRate := JS.VUndefined |}.

(** Binance answers every request, the funding-rate ones included. *)
Definition binanceWithFunding : Binance.Responses :=
  {| Binance.accountInfo := Some (binanceAccount "1000" "100");
     Binance.positionRisk := Some [btcShort (JS.VString "cross")];
     Binance.openOrders := Some [];
     Binance.premiumIndex := Some [btcRate];
     Binance.fundingRateHistory :=
       fun _ => Some [JS.VString "0.0001"; JS.VString "0.0003"];
     Binance.totalUSDTBalance := JS.of_Z 1000 |}.

(** A Binance wallet: USDT, BNB and an empty BUSD balance on the USDT-M
    account, BTC on the COIN-M account. *)
Definition binanceWallet : BinanceWallet.Responses :=
  {| BinanceWallet.usdtFuturesAccount :=
       Some (Some [ {| BinanceWallet.asset := "USDT";
                       BinanceWallet.walletBalance := JS.VString "100.50" |};
                    {| BinanceWallet.asset := "BNB";
                       BinanceWallet.walletBalance := JS.VString "2" |};
                    {| BinanceWallet.asset := "BUSD";
                       BinanceWallet.walletBalance := JS.VString "0.00000000" |} ]);
     BinanceWallet.coinFuturesAccount :=
       Some (Some [ {| BinanceWallet.asset := "BTC";
                       BinanceWallet.walletBalance := JS.VString "0.01" |} ]);
     BinanceWallet.tickerPrice := fun symbol =>
       if String.eqb symbol "BNBUSDT" then Some (JS.VString "300.10")
       else if String.eqb symbol "BTCUSDT" then Some (JS.VString "60000")
            else None |}.

(** The same wallet with an asset whose [walletBalance] is missing. *)
Definition binanceWalletUnreadable : BinanceWallet.Responses :=
  {| BinanceWallet.usdtFuturesAccount :=
       Some (Some [ {| BinanceWallet.asset := "USDT";
                       BinanceWallet.walletBalance := JS.VString "100.50" |};
                    {| BinanceWallet.asset := "BNB";
                       BinanceWallet.walletBalance := JS.VUndefined |} ]);
     BinanceWallet.coinFuturesAccount :=
       BinanceWallet.coinFuturesAccount binanceWallet;
     BinanceWallet.tickerPrice := BinanceWallet.tickerPrice binanceWallet |}.

(** A Bybit wallet that reports no total: USDT with its USD value, ETH
    with its equity only. *)
Definition bybitWallet : BybitWallet.Responses :=
  {| BybitWallet.walletBalance :=
       Some (Some
         {| BybitWallet.Wallet.totalWalletBalance := JS.VString "0";
            BybitWallet.Wallet.coin :=
              Some [ {| BybitWallet.Coin.coin := "USDT";
                        BybitWallet.Coin.usdValue := JS.VString "50.25";
                        BybitWallet.Coin.equity := JS.VString "50.25";
                        BybitWallet.Coin.totalWalletBalance := JS.VUndefined;
                        BybitWallet.Coin.walletBalance := JS.VString "50.25" |};
                     {| BybitWallet.Coin.coin := "ETH";
                        BybitWallet.Coin.usdValue := JS.VString "";
                        BybitWallet.Coin.equity := JS.VString "2";
                        BybitWallet.Coin.totalWalletBalance := JS.VUndefined;
                        BybitWallet.Coin.walletBalance := JS.VString "2" |} ] |});
     BybitWallet.lastPrice := fun symbol =>
       if String.eqb symbol "ETHUSDT" then Some (JS.VString "3000") else None |}.





(** A futures position of 0.015 contracts. *)
Definition tieLong : Binance.RawPosition.t :=
  {| Binance.RawPosition.symbol := "BTCUSDT";
     Binance.RawPosition.positionAmt := JS.VString "0.015";
     Binance.RawPosition.position := JS.VUndefined;
     Binance.RawPosition.entryPrice := JS.VString "61000";
     Binance.RawPosition.avgEntryPrice := JS.VUndefined;
     Binance.RawPosition.markPrice := JS.VString "60000";
     Binance.RawPosition.leverage := JS.VString "10";
     Binance.RawPosition.unRealizedProfit := JS.VString "0";
     Binance.RawPosition.unrealizedPnl := JS.VUndefined;
     Binance.RawPosition.liquidationPrice := JS.VString "59000";
     Binance.RawPosition.marginType := JS.VString "cross" |}.

End Samples.

(* ===================================================================== *)
(** ** Facts about the number model                                       *)
(* ===================================================================== *)

Section JSFacts.
Local Open Scope Q_scope.

Lemma Qle_bool_false (x y : Q) : Qle_bool x y = false -> y < x.
Proof.
  intros H. apply Qnot_le_lt. intros Hle. apply Qle_bool_iff in Hle. congruence.
Qed.








End JSFacts.

(* ===================================================================== *)
(** ** Risk calculator                                                    *)
(* ===================================================================== *)

Section RiskFacts.
Local Open Scope Q_scope.

Lemma gt_zero_Fin (q : Q) : JS.gt (JS.Fin q) JS.zero = JS.Qis_pos q.
Proof. reflexivity. Qed.


End RiskFacts.


(* ===================================================================== *)
(** ** Account leverage                                                   *)
(* ===================================================================== *)


(* ===================================================================== *)
(** ** Margin ratio                                                       *)
(* ===================================================================== *)

(** C5.  The margin ratio of the three account summaries when the equity
    is 0: the Binance futures branch divides without a guard and yields
    [NaN] (maintenance margin 0) or [Infinity] (maintenance margin 10),
    where the portfolio-margin branch and the Bybit summary yield 0. *)
Theorem binance_futures_marginRatio_unguarded :
  Model.accountMarginRatio
    (Binance.processAccountSummary Binance.FUTURES Samples.binanceWithoutFunding
       (Samples.binanceAccount "0" "0") [] []) = JS.NaN /\
  Model.accountMarginRatio
    (Binance.processAccountSummary Binance.FUTURES Samples.binanceWithoutFunding
       (Samples.binanceAccount "0" "10") [] []) = JS.PosInf /\
  Model.accountMarginRatio
    (Binance.processAccountSummary Binance.PORTFOLIO_MARGIN
       Samples.binanceWithoutFunding (Samples.binanceAccount "0" "10") [] [])
  = JS.zero /\
  Model.accountMarginRatio
    (Bybit.summarize Samples.bybitResponses (Samples.bybitAccount "0" "10") [] [])
  = JS.zero.
Proof. repeat split; reflexivity. Qed.

(* ===================================================================== *)
(** ** Liquidation distance                                               *)
(* ===================================================================== *)

Section DistanceFacts.
Local Open Scope Q_scope.



End DistanceFacts.


(* ===================================================================== *)
(** ** The end-to-end scenario                                            *)
(* ===================================================================== *)

(** The futures branch on the scenario's record: as written, without a
    margin type, the callback throws and no position is produced; with
    the margin type that the futures endpoint reports, the liquidation
    price stays 0. *)
Lemma futures_scenario_not_estimated :
  Binance.processPositions Binance.FUTURES [Samples.btcShort JS.VUndefined] []
  = None /\
  (exists p,
      Binance.processPositions Binance.FUTURES
        [Samples.btcShort (JS.VString "cross")] [] = Some [p] /\
      Model.side p = Model.SHORT /\
      Model.liquidationPrice p = JS.Fin 0 /\
      JS.gt (Model.liquidationPrice p) (JS.Fin 60000) = false).
Proof.
  split; [reflexivity|]. eexists. split; [reflexivity|].
  repeat split; reflexivity.
Qed.

(** C7 (amended).  The scenario's record normalizes on the
    portfolio-margin branch to a short of size 0.50 and notional value
    30000.00 whose liquidation price is the estimate 66780.00, above
    60000; on the futures branch, with the margin type that branch
    requires, to the same side, size and notional value with the
    reported liquidation price 0 and distance 0. *)
Theorem scenario_by_account_type :
  (exists p,
      Binance.processPositions Binance.PORTFOLIO_MARGIN
        [Samples.btcShort JS.VUndefined] [] = Some [p] /\
      Model.side p = Model.SHORT /\
      Model.size p = JS.Fin (1 # 2) /\
      Model.notionalValue p = JS.Fin 30000 /\
      Model.liquidationPrice p = JS.Fin 66780 /\
      JS.gt (Model.liquidationPrice p) (JS.Fin 60000) = true) /\
  (exists p,
      Binance.processPositions Binance.FUTURES
        [Samples.btcShort (JS.VString "cross")] [] = Some [p] /\
      Model.side p = Model.SHORT /\
      Model.size p = JS.Fin (1 # 2) /\
      Model.notionalValue p = JS.Fin 30000 /\
      Model.liquidationPrice p = JS.Fin 0 /\
      Model.liquidationPriceChangePercent p = JS.Fin 0).
Proof.
  split; eexists; (split; [reflexivity|]); repeat split; reflexivity.
Qed.

(* ===================================================================== *)
(** ** The fetch scheduler                                                *)
(* ===================================================================== *)

Section FetcherFacts.

Context {Env C : Type}.
Variable getExchangeData : Env -> C -> option Model.ExchangeData * C.

Lemma read_entry {V : Type} (table : Fetcher.Table V) (exchange accountId : string) :
  is_Some (table !! exchange) ->
  Fetcher.read table exchange accountId = inr (Ref.entry table exchange accountId).
Proof.
  intros [inner H]. unfold Fetcher.read, Ref.entry. rewrite H. reflexivity.
Qed.

Lemma write_updated {V : Type} (table : Fetcher.Table V)
      (exchange accountId : string) (v : V) :
  is_Some (table !! exchange) ->
  Fetcher.write table exchange accountId v
  = inr (Ref.updated table exchange accountId v).
Proof.
  intros [inner H]. unfold Fetcher.write, Ref.updated. rewrite H. reflexivity.
Qed.

Lemma entry_updated {V : Type} (table : Fetcher.Table V)
      (exchange accountId : string) (v : V) :
  Ref.entry (Ref.updated table exchange accountId v) exchange accountId = Some v.
Proof.
  unfold Ref.entry, Ref.updated. rewrite lookup_insert_eq. apply lookup_insert_eq.
Qed.

Lemma updated_is_Some {V : Type} (table : Fetcher.Table V)
      (exchange accountId e : string) (v : V) :
  is_Some (table !! e) ->
  is_Some (Ref.updated table exchange accountId v !! e).
Proof.
  intros H. unfold Ref.updated.
  destruct (decide (exchange = e)) as [->|Hne].
  - rewrite lookup_insert_eq. eauto.
  - rewrite lookup_insert_ne by exact Hne. exact H.
Qed.

Lemma updated_updated {V : Type} (table : Fetcher.Table V)
      (exchange accountId : string) (v w : V) :
  Ref.updated (Ref.updated table exchange accountId v) exchange accountId w
  = Ref.updated table exchange accountId w.
Proof.
  unfold Ref.updated. rewrite lookup_insert_eq. simpl.
  rewrite !insert_insert_eq. reflexivity.
Qed.

Lemma bind_run {A B : Type} (m : Fetcher.M C A) (k : A -> Fetcher.M C B)
      (st : Fetcher.State C) :
  Fetcher.bind m k st
  = match m st with
    | (inr a, st') => k a st'
    | (inl e, st') => (inl e, st')
    end.
Proof. reflexivity. Qed.

Lemma readTable_run {V : Type} (field : Fetcher.State C -> Fetcher.Table V)
      (exchange accountId : string) (st : Fetcher.State C) :
  is_Some (field st !! exchange) ->
  Fetcher.readTable field exchange accountId st
  = (inr (Ref.entry (field st) exchange accountId), st).
Proof.
  intros H. unfold Fetcher.readTable. rewrite bind_run. cbn.
  rewrite (read_entry _ _ _ H). reflexivity.
Qed.

Lemma writeTable_run {V : Type} (field : Fetcher.State C -> Fetcher.Table V)
      (update : Fetcher.State C -> Fetcher.Table V -> Fetcher.State C)
      (exchange accountId : string) (v : V) (st : Fetcher.State C) :
  is_Some (field st !! exchange) ->
  Fetcher.writeTable field update exchange accountId v st
  = (inr tt, update st (Ref.updated (field st) exchange accountId v)).
Proof.
  intros H. unfold Fetcher.writeTable, Fetcher.bind, Fetcher.get, Fetcher.lift,
    Fetcher.put.
  rewrite (write_updated _ _ _ _ H). reflexivity.
Qed.

Ltac run_table :=
  rewrite bind_run;
  first [ rewrite readTable_run by (cbn; eauto using updated_is_Some)
        | rewrite writeTable_run by (cbn; eauto using updated_is_Some) ];
  cbn [Fetcher.exchangeClients Fetcher.cachedData Fetcher.lastFetchTimes
       Fetcher.errorCounts Fetcher.backoffTimes Fetcher.exchanges
       Fetcher.with_exchangeClients Fetcher.with_cachedData
       Fetcher.with_lastFetchTimes Fetcher.with_errorCounts
       Fetcher.with_backoffTimes Fetcher.with_exchanges].

Lemma fetch_no_client (env : Env) (checked finished : Z)
      (exchange accountId : string) (st : Fetcher.State C) :
  Ref.hasExchange st exchange ->
  Ref.entry (Fetcher.exchangeClients st) exchange accountId = None ->
  Fetcher.fetchExchangeData getExchangeData env checked finished exchange accountId st
  = (inr tt, st).
Proof.
  intros (Hc & _) Hnone. unfold Fetcher.fetchExchangeData.
  run_table. rewrite Hnone. reflexivity.
Qed.

Lemma fetch_skipped (env : Env) (checked finished : Z)
      (exchange accountId : string) (st : Fetcher.State C) (client : C) :
  Ref.hasExchange st exchange ->
  Ref.entry (Fetcher.exchangeClients st) exchange accountId = Some client ->
  Fetcher.after (Ref.entry (Fetcher.backoffTimes st) exchange accountId) checked
  = true ->
  Fetcher.fetchExchangeData getExchangeData env checked finished exchange accountId st
  = (inr tt, st).
Proof.
  intros (Hc & _ & _ & _ & Hb) Hclient Hafter. unfold Fetcher.fetchExchangeData.
  run_table. rewrite Hclient. run_table. rewrite Hafter. reflexivity.
Qed.

Lemma fetch_attempted (env : Env) (checked finished : Z)
      (exchange accountId : string) (st : Fetcher.State C) (client : C) :
  Ref.hasExchange st exchange ->
  Ref.entry (Fetcher.exchangeClients st) exchange accountId = Some client ->
  Fetcher.after (Ref.entry (Fetcher.backoffTimes st) exchange accountId) checked
  = false ->
  Fetcher.fetchExchangeData getExchangeData env checked finished exchange accountId st
  = (inr tt,
     match getExchangeData env client with
     | (Some data, client') =>
         Ref.succeeded st exchange accountId client' data finished
     | (None, client') => Ref.failed st exchange accountId client' finished
     end).
Proof.
  intros (Hc & Hx & Hl & He & Hb) Hclient Hafter. unfold Fetcher.fetchExchangeData.
  run_table. rewrite Hclient. run_table. rewrite Hafter.
  unfold Fetcher.try_catch, Fetcher.callClient.
  destruct (getExchangeData env client) as [[data|] client'].
  - rewrite bind_run. run_table. unfold Fetcher.ret at 1. do 3 run_table.
    rewrite writeTable_run by (cbn; eauto). reflexivity.
  - rewrite bind_run. run_table. unfold Fetcher.throw at 1. unfold Ref.failed.
    run_table.
    destruct (Ref.entry (Fetcher.errorCounts st) exchange accountId) as [n|] eqn:Hn.
    + cbn [Fetcher.falsy]. destruct (n =? 0)%Z eqn:Hz.
      * apply Z.eqb_eq in Hz. subst n.
        do 3 run_table. rewrite entry_updated. simpl default.
        rewrite updated_updated. reflexivity.
      * rewrite bind_run. unfold Fetcher.ret at 1. run_table. rewrite Hn.
        simpl default. run_table.
        destruct (Fetcher.MAX_CONSECUTIVE_ERRORS <=? n + 1)%Z; [|reflexivity].
        rewrite writeTable_run by (cbn; eauto). reflexivity.
    + cbn [Fetcher.falsy].
      do 3 run_table. rewrite entry_updated. simpl default.
      rewrite updated_updated. reflexivity.
Qed.

End FetcherFacts.

Section ScheduleFacts.

Context {Env C : Type}.
Variable getExchangeData : Env -> C -> option Model.ExchangeData * C.

Lemma failed_hasExchange (st : Fetcher.State C) (exchange accountId : string)
      (client : C) (finished : Z) :
  Ref.hasExchange st exchange ->
  Ref.hasExchange (Ref.failed st exchange accountId client finished) exchange.
Proof.
  intros (Hc & Hx & Hl & He & Hb). unfold Ref.hasExchange, Ref.failed. cbn.
  repeat split; eauto using updated_is_Some.
  destruct (_ <=? _)%Z; eauto using updated_is_Some.
Qed.

Lemma backoffTime_cap (n : Z) :
  (5 <= n)%Z -> (0 < Fetcher.backoffTime n <= 1920000)%Z.
Proof.
  intros Hn. unfold Fetcher.backoffTime, Fetcher.INITIAL_BACKOFF,
               Fetcher.MAX_CONSECUTIVE_ERRORS, JS.pow2.
  assert (0 <= Z.min (n - 5) 5 <= 5)%Z as [Hlo Hhi] by lia.
  assert (0 < 2 ^ Z.min (n - 5) 5)%Z by (apply Z.pow_pos_nonneg; lia).
  assert (2 ^ Z.min (n - 5) 5 <= 2 ^ 5)%Z by (apply Z.pow_le_mono_r; lia).
  change (2 ^ 5)%Z with 32%Z in *. lia.
Qed.

Lemma backoffTime_capped (n : Z) :
  (10 <= n)%Z -> Fetcher.backoffTime n = 1920000%Z.
Proof.
  intros Hn. unfold Fetcher.backoffTime, Fetcher.MAX_CONSECUTIVE_ERRORS.
  rewrite Z.min_r by lia. reflexivity.
Qed.

Lemma after_false (backoff : option Z) (previous checked : Z) :
  (forall b, backoff = Some b -> (b <= previous)%Z) ->
  (previous <= checked)%Z ->
  Fetcher.after backoff checked = false.
Proof.
  intros Hb Hp. destruct backoff as [b|]; [|reflexivity].
  cbn. apply Z.ltb_ge. specialize (Hb b eq_refl). lia.
Qed.

(** One rejected fetch. *)
Lemma fetch_rejected (env : Env) (checked finished : Z)
      (exchange accountId : string) (st : Fetcher.State C) (client client' : C) :
  Ref.hasExchange st exchange ->
  Ref.entry (Fetcher.exchangeClients st) exchange accountId = Some client ->
  Fetcher.after (Ref.entry (Fetcher.backoffTimes st) exchange accountId) checked
  = false ->
  getExchangeData env client = (None, client') ->
  let count := default 0%Z (Ref.entry (Fetcher.errorCounts st) exchange accountId) in
  exists st',
    Fetcher.fetchExchangeData getExchangeData env checked finished
                              exchange accountId st = (inr tt, st') /\
    Ref.entry (Fetcher.errorCounts st') exchange accountId = Some (count + 1)%Z /\
    ((5 <= count + 1)%Z ->
     Ref.entry (Fetcher.backoffTimes st') exchange accountId
     = Some (finished + 60000 * 2 ^ Z.min (count + 1 - 5) 5)%Z) /\
    ((count + 1 < 5)%Z -> Fetcher.backoffTimes st' = Fetcher.backoffTimes st) /\
    Fetcher.cachedData st' = Fetcher.cachedData st /\
    Fetcher.lastFetchTimes st' = Fetcher.lastFetchTimes st.
Proof.
  intros Hwf Hclient Hafter Hcall count.
  exists (Ref.failed st exchange accountId client' finished).
  split.
  { rewrite (fetch_attempted _ _ _ _ _ _ _ client Hwf Hclient Hafter), Hcall.
    reflexivity. }
  unfold Ref.failed. cbn. fold count.
  split; [apply entry_updated|].
  unfold Fetcher.MAX_CONSECUTIVE_ERRORS.
  split; [|split; [|split; reflexivity]].
  - intros H5. apply Z.leb_le in H5. rewrite H5. rewrite entry_updated. reflexivity.
  - intros H5. apply Z.leb_gt in H5. rewrite H5. reflexivity.
Qed.

(** One fetch whose client call returns. *)
Lemma fetch_returned (env : Env) (checked finished : Z)
      (exchange accountId : string) (st : Fetcher.State C) (client client' : C)
      (data : Model.ExchangeData) :
  Ref.hasExchange st exchange ->
  Ref.entry (Fetcher.exchangeClients st) exchange accountId = Some client ->
  Fetcher.after (Ref.entry (Fetcher.backoffTimes st) exchange accountId) checked
  = false ->
  getExchangeData env client = (Some data, client') ->
  exists st',
    Fetcher.fetchExchangeData getExchangeData env checked finished
                              exchange accountId st = (inr tt, st') /\
    Ref.entry (Fetcher.errorCounts st') exchange accountId = Some 0%Z /\
    Ref.entry (Fetcher.backoffTimes st') exchange accountId = Some 0%Z /\
    Ref.entry (Fetcher.exchanges (Fetcher.cachedData st')) exchange accountId
    = Some data /\
    Ref.entry (Fetcher.lastFetchTimes st') exchange accountId = Some finished.
Proof.
  intros Hwf Hclient Hafter Hcall.
  exists (Ref.succeeded st exchange accountId client' data finished).
  split.
  { rewrite (fetch_attempted _ _ _ _ _ _ _ client Hwf Hclient Hafter), Hcall.
    reflexivity. }
  unfold Ref.succeeded. cbn. repeat split; apply entry_updated.
Qed.

(** Consecutive rejected fetches. *)
Lemma fetch_rejected_repeatedly (exchange accountId : string)
      (calls : list (Env * Z * Z)) :
  forall (st : Fetcher.State C) (client : C) (previous : Z),
    Ref.hasExchange st exchange ->
    Ref.entry (Fetcher.exchangeClients st) exchange accountId = Some client ->
    (forall b, Ref.entry (Fetcher.backoffTimes st) exchange accountId = Some b ->
               (b <= previous)%Z) ->
    Ref.spaced previous calls ->
    Forall (fun call => forall c, fst (getExchangeData (fst (fst call)) c) = None)
           calls ->
    calls <> [] ->
    let count := default 0%Z (Ref.entry (Fetcher.errorCounts st) exchange accountId) in
    let total := (count + Z.of_nat (length calls))%Z in
    exists st',
      Fetcher.fetchRepeatedly getExchangeData exchange accountId calls st
      = (inr tt, st') /\
      Ref.entry (Fetcher.errorCounts st') exchange accountId = Some total /\
      ((5 <= total)%Z ->
       Ref.entry (Fetcher.backoffTimes st') exchange accountId
       = Some (Ref.lastFinished calls 0 + Fetcher.backoffTime total)%Z) /\
      Fetcher.cachedData st' = Fetcher.cachedData st.
Proof.
  induction calls as [|[[env checked] finished] rest IH];
    intros st client previous Hwf Hclient Hprev Hspaced Hrej Hne count total;
    [congruence|].
  destruct Hspaced as (Hpc & Hcf & Hrest).
  inversion Hrej as [|? ? Hhead Htail]; subst. cbn [fst] in Hhead.
  destruct (getExchangeData env client) as [result client'] eqn:Hcall.
  pose proof (Hhead client) as Hnone. rewrite Hcall in Hnone. cbn in Hnone. subst result.
  pose proof (after_false _ _ _ Hprev Hpc) as Hafter.
  cbn [Fetcher.fetchRepeatedly]. rewrite bind_run.
  rewrite (fetch_attempted _ _ _ _ _ _ _ client Hwf Hclient Hafter), Hcall.
  set (st1 := Ref.failed st exchange accountId client' finished).
  assert (Ref.entry (Fetcher.errorCounts st1) exchange accountId
          = Some (count + 1)%Z) as Hcount1 by apply entry_updated.
  assert (Fetcher.cachedData st1 = Fetcher.cachedData st) as Hcache by reflexivity.
  assert (5 <= count + 1 ->
          Ref.entry (Fetcher.backoffTimes st1) exchange accountId
          = Some (finished + Fetcher.backoffTime (count + 1)))%Z as Hback1.
  { intros H5. unfold st1, Ref.failed. cbn. fold count.
    unfold Fetcher.MAX_CONSECUTIVE_ERRORS. apply Z.leb_le in H5. rewrite H5.
    apply entry_updated. }
  destruct rest as [|next rest'].
  - exists st1. cbn [Fetcher.fetchRepeatedly Fetcher.ret].
    split; [reflexivity|]. unfold total. cbn [length Ref.lastFinished fold_left].
    split; [rewrite Hcount1; f_equal; lia|].
    split; [|exact Hcache].
    intros H5. replace (count + Z.of_nat 1)%Z with (count + 1)%Z in * by lia.
    apply Hback1. exact H5.
  - assert (forall b, Ref.entry (Fetcher.backoffTimes st1) exchange accountId = Some b ->
                      (b <= finished + 1920000)%Z) as Hprev1.
    { intros b Hb. unfold st1, Ref.failed in Hb. cbn in Hb. fold count in Hb.
      unfold Fetcher.MAX_CONSECUTIVE_ERRORS in Hb.
      destruct (5 <=? count + 1)%Z eqn:H5.
      - rewrite entry_updated in Hb. injection Hb as <-.
        apply Z.leb_le in H5. pose proof (backoffTime_cap _ H5). lia.
      - specialize (Hprev b Hb). lia. }
    destruct (IH st1 client' (finished + 1920000)%Z
                 (failed_hasExchange _ _ _ _ _ Hwf) (entry_updated _ _ _ _)
                 Hprev1 Hrest Htail ltac:(discriminate))
      as (st' & Hrun & Hcount & Hback & Hcache').
    exists st'. split; [exact Hrun|].
    rewrite Hcount1 in Hcount, Hback. simpl default in Hcount, Hback.
    assert (count + 1 + Z.of_nat (length (next :: rest'))
            = total)%Z as Htotal by (unfold total; cbn [length]; lia).
    rewrite Htotal in Hcount, Hback.
    split; [exact Hcount|]. split; [|congruence].
    intros H5. rewrite (Hback H5). destruct next as [[env2 checked2] finished2].
    reflexivity.
Qed.

End ScheduleFacts.

Lemma rejectingState_hasExchange :
  Ref.hasExchange Samples.rejectingState "binance".
Proof. repeat split; eexists; reflexivity. Qed.

Lemma callsEvery_spaced (n : nat) :
  forall start previous : Z,
    (previous <= start)%Z -> Ref.spaced previous (Samples.callsEvery n start).
Proof.
  induction n as [|n IH]; intros start previous Hp; cbn; [exact I|].
  split; [exact Hp|]. split; [lia|]. apply IH. lia.
Qed.

Lemma callsEvery_rejected (n : nat) (start : Z) :
  Forall (fun call => forall c, fst (Ref.rejecting (fst (fst call)) c) = None)
         (Samples.callsEvery n start).
Proof.
  revert start. induction n as [|n IH]; intros start; cbn; constructor; auto.
Qed.

(** Ten consecutive rejected fetches of binance/futures, the last one
    finishing at 100000000 ms: the backoff then lasts 1920 s, not 960 s. *)
Lemma backoff_after_ten_failures :
  exists st',
    Fetcher.fetchRepeatedly Ref.rejecting "binance" "futures"
                            (Samples.callsEvery 10 10000000) Samples.rejectingState
    = (inr tt, st') /\
    Ref.entry (Fetcher.errorCounts st') "binance" "futures" = Some 10%Z /\
    Ref.entry (Fetcher.backoffTimes st') "binance" "futures"
    = Some (100000000 + 1920000)%Z /\
    Ref.entry (Fetcher.backoffTimes st') "binance" "futures"
    <> Some (100000000 + 960000)%Z.
Proof.
  destruct (fetch_rejected_repeatedly Ref.rejecting "binance" "futures"
              (Samples.callsEvery 10 10000000) Samples.rejectingState tt 0%Z
              rejectingState_hasExchange eq_refl)
    as (st' & Hrun & Hcount & Hback & _).
  - intros b Hb. discriminate Hb.
  - apply callsEvery_spaced. lia.
  - apply callsEvery_rejected.
  - discriminate.
  - exists st'. split; [exact Hrun|]. split; [exact Hcount|].
    assert (Ref.entry (Fetcher.backoffTimes st') "binance" "futures"
            = Some (100000000 + 1920000)%Z) as H
        by (apply Hback; vm_compute; discriminate).
    split; [exact H|]. rewrite H. discriminate.
Qed.

(** C4 (amended).  For every key of the scheduler whose tables exist:
    a rejected fetch increments the error count (an unset count is 0),
    sets [backoffUntil] to [finished + 60000 * 2^min(count - 5, 5)] once
    the count is at least 5 and leaves the backoff times and the cache
    untouched below 5; a fetch that returns sets the count and the
    backoff to 0; the delays are 60 s at 5 failures, 120 s at 6, 240 s at
    7, 480 s at 8, 960 s at 9 and 1920 s, the cap, from 10 on; and any
    number of consecutive rejected fetches, each attempted after the
    previous backoff, adds that number to the count and ends with the
    backoff of the resulting count. *)
Theorem backoff_schedule :
  forall (Env C : Type) (getExchangeData : Env -> C -> option Model.ExchangeData * C)
         (exchange accountId : string) (st : Fetcher.State C) (client : C),
    Ref.hasExchange st exchange ->
    Ref.entry (Fetcher.exchangeClients st) exchange accountId = Some client ->
    let count := default 0%Z (Ref.entry (Fetcher.errorCounts st) exchange accountId) in
    (forall env checked finished client',
        Fetcher.after (Ref.entry (Fetcher.backoffTimes st) exchange accountId) checked
        = false ->
        getExchangeData env client = (None, client') ->
        exists st',
          Fetcher.fetchExchangeData getExchangeData env checked finished
                                    exchange accountId st = (inr tt, st') /\
          Ref.entry (Fetcher.errorCounts st') exchange accountId
          = Some (count + 1)%Z /\
          ((5 <= count + 1)%Z ->
           Ref.entry (Fetcher.backoffTimes st') exchange accountId
           = Some (finished + 60000 * 2 ^ Z.min (count + 1 - 5) 5)%Z) /\
          ((count + 1 < 5)%Z ->
           Fetcher.backoffTimes st' = Fetcher.backoffTimes st) /\
          Fetcher.cachedData st' = Fetcher.cachedData st /\
          Fetcher.lastFetchTimes st' = Fetcher.lastFetchTimes st) /\
    (forall env checked finished client' data,
        Fetcher.after (Ref.entry (Fetcher.backoffTimes st) exchange accountId) checked
        = false ->
        getExchangeData env client = (Some data, client') ->
        exists st',
          Fetcher.fetchExchangeData getExchangeData env checked finished
                                    exchange accountId st = (inr tt, st') /\
          Ref.entry (Fetcher.errorCounts st') exchange accountId = Some 0%Z /\
          Ref.entry (Fetcher.backoffTimes st') exchange accountId = Some 0%Z /\
          Ref.entry (Fetcher.exchanges (Fetcher.cachedData st')) exchange accountId
          = Some data /\
          Ref.entry (Fetcher.lastFetchTimes st') exchange accountId
          = Some finished) /\
    (forall env checked finished,
        Fetcher.after (Ref.entry (Fetcher.backoffTimes st) exchange accountId) checked
        = true ->
        Fetcher.fetchExchangeData getExchangeData env checked finished
                                  exchange accountId st = (inr tt, st)) /\
    (Fetcher.backoffTime 5 = 60000 /\ Fetcher.backoffTime 6 = 120000 /\
     Fetcher.backoffTime 7 = 240000 /\ Fetcher.backoffTime 8 = 480000 /\
     Fetcher.backoffTime 9 = 960000 /\
     forall n, (10 <= n)%Z -> Fetcher.backoffTime n = 1920000)%Z /\
    (forall calls previous,
        (forall b, Ref.entry (Fetcher.backoffTimes st) exchange accountId = Some b ->
                   (b <= previous)%Z) ->
        Ref.spaced previous calls ->
        Forall (fun call => forall c, fst (getExchangeData (fst (fst call)) c) = None)
               calls ->
        calls <> [] ->
        let total := (count + Z.of_nat (length calls))%Z in
        exists st',
          Fetcher.fetchRepeatedly getExchangeData exchange accountId calls st
          = (inr tt, st') /\
          Ref.entry (Fetcher.errorCounts st') exchange accountId = Some total /\
          ((5 <= total)%Z ->
           Ref.entry (Fetcher.backoffTimes st') exchange accountId
           = Some (Ref.lastFinished calls 0 + Fetcher.backoffTime total)%Z) /\
          Fetcher.cachedData st' = Fetcher.cachedData st).
Proof.
  intros Env C getExchangeData exchange accountId st client Hwf Hclient count.
  split; [|split; [|split; [|split]]].
  - intros env checked finished client' Hafter Hcall.
    exact (fetch_rejected getExchangeData env checked finished exchange accountId
                          st client client' Hwf Hclient Hafter Hcall).
  - intros env checked finished client' data Hafter Hcall.
    exact (fetch_returned getExchangeData env checked finished exchange accountId
                          st client client' data Hwf Hclient Hafter Hcall).
  - intros env checked finished Hafter.
    exact (fetch_skipped getExchangeData env checked finished exchange accountId
                         st client Hwf Hclient Hafter).
  - repeat split; try reflexivity. exact backoffTime_capped.
  - intros calls previous Hprev Hspaced Hrej Hne.
    exact (fetch_rejected_repeatedly getExchangeData exchange accountId calls
             st client previous Hwf Hclient Hprev Hspaced Hrej Hne).
Qed.

Lemma backoff_schedule_witness :
  Ref.hasExchange Samples.rejectingState "binance" /\
  Ref.entry (Fetcher.exchangeClients Samples.rejectingState) "binance" "futures"
  = Some tt /\
  Fetcher.after
    (Ref.entry (Fetcher.backoffTimes Samples.rejectingState) "binance" "futures")
    10000000 = false /\
  Ref.rejecting tt tt = (None, tt) /\
  exists st',
    Fetcher.fetchExchangeData Ref.rejecting tt 10000000 10000000
                              "binance" "futures" Samples.rejectingState
    = (inr tt, st') /\
    Ref.entry (Fetcher.errorCounts st') "binance" "futures" = Some 1%Z.
Proof.
  split; [exact rejectingState_hasExchange|].
  split; [reflexivity|]. split; [reflexivity|]. split; [reflexivity|].
  destruct (proj1 (backoff_schedule unit unit Ref.rejecting "binance" "futures"
                     Samples.rejectingState tt rejectingState_hasExchange eq_refl)
                  tt 10000000%Z 10000000%Z tt eq_refl eq_refl)
    as (st' & Hrun & Hcount & _).
  exists st'. split; [exact Hrun | exact Hcount].
Defined.

(* ===================================================================== *)
(** ** The current selection                                              *)
(* ===================================================================== *)

Section SelectionFacts.

Context {C : Type}.

Lemma includes_elem_of (l : list string) (s : string) :
  Fetcher.includes l s = true <-> s ∈ l.
Proof.
  unfold Fetcher.includes. rewrite existsb_exists, list_elem_of_In. split.
  - intros (x & Hin & Heq). apply String.eqb_eq in Heq. subst x. exact Hin.
  - intros Hin. exists s. split; [exact Hin | apply String.eqb_refl].
Qed.

Lemma setCurrent_valid (st : Fetcher.State C) (exchange account : string) :
  Ref.validSelection (Fetcher.cachedData st) exchange account ->
  Fetcher.setCurrentExchangeAndAccount exchange account st
  = (inr tt,
     Fetcher.with_cachedData st
       {| Fetcher.exchanges := Fetcher.exchanges (Fetcher.cachedData st);
          Fetcher.currentExchange := exchange;
          Fetcher.currentAccount := account;
          Fetcher.availableExchanges :=
            Fetcher.availableExchanges (Fetcher.cachedData st);
          Fetcher.availableAccounts :=
            Fetcher.availableAccounts (Fetcher.cachedData st) |}).
Proof.
  intros (Hex & accounts & Hacc & Hin).
  apply includes_elem_of in Hex. apply includes_elem_of in Hin.
  unfold Fetcher.setCurrentExchangeAndAccount, Fetcher.bind, Fetcher.get.
  rewrite Hex, Hacc, Hin. reflexivity.
Qed.

Lemma setCurrent_invalid (st : Fetcher.State C) (exchange account : string) :
  Ref.accountsListed (Fetcher.cachedData st) ->
  ~ Ref.validSelection (Fetcher.cachedData st) exchange account ->
  Fetcher.setCurrentExchangeAndAccount exchange account st
  = (inl (Fetcher.Error
            ("Invalid exchange or account: " ++ exchange ++ "/" ++ account)),
     st).
Proof.
  intros Hlisted Hinvalid.
  unfold Fetcher.setCurrentExchangeAndAccount, Fetcher.bind, Fetcher.get.
  destruct (Fetcher.includes _ exchange) eqn:Hex; [|reflexivity].
  apply includes_elem_of in Hex.
  destruct (Hlisted exchange Hex) as [accounts Hacc]. rewrite Hacc.
  destruct (Fetcher.includes accounts account) eqn:Hin; [|reflexivity].
  apply includes_elem_of in Hin. exfalso. apply Hinvalid.
  split; [exact Hex|]. exists accounts. split; [exact Hacc | exact Hin].
Qed.

Lemma setCurrent_cases (st : Fetcher.State C) (exchange account : string) :
  let data := Fetcher.cachedData st in
  let selected :=
    Fetcher.with_cachedData st
      {| Fetcher.exchanges := Fetcher.exchanges data;
         Fetcher.currentExchange := exchange;
         Fetcher.currentAccount := account;
         Fetcher.availableExchanges := Fetcher.availableExchanges data;
         Fetcher.availableAccounts := Fetcher.availableAccounts data |} in
  Fetcher.setCurrentExchangeAndAccount exchange account st = (inr tt, selected) \/
  exists e, Fetcher.setCurrentExchangeAndAccount exchange account st = (inl e, st).
Proof.
  unfold Fetcher.setCurrentExchangeAndAccount, Fetcher.bind, Fetcher.get.
  cbn zeta.
  destruct (Fetcher.includes _ exchange); [|right; eexists; reflexivity].
  destruct (_ !! exchange) as [accounts|]; [|right; eexists; reflexivity].
  destruct (Fetcher.includes accounts account);
    [left; reflexivity | right; eexists; reflexivity].
Qed.

Lemma setCurrent_returns_valid (st : Fetcher.State C) (exchange account : string) :
  fst (Fetcher.setCurrentExchangeAndAccount exchange account st) = inr tt ->
  Ref.validSelection (Fetcher.cachedData st) exchange account.
Proof.
  unfold Fetcher.setCurrentExchangeAndAccount, Fetcher.bind, Fetcher.get.
  cbn zeta.
  destruct (Fetcher.includes _ exchange) eqn:Hex; [|discriminate].
  destruct (_ !! exchange) as [accounts|] eqn:Hacc; [|discriminate].
  destruct (Fetcher.includes accounts account) eqn:Hin; [|discriminate].
  intros _. apply includes_elem_of in Hex. apply includes_elem_of in Hin.
  split; [exact Hex|]. exists accounts. split; [exact Hacc | exact Hin].
Qed.

End SelectionFacts.

Lemma initial_accountsListed (C : Type) :
  Ref.accountsListed (Fetcher.cachedData (@Fetcher.initialState C)).
Proof.
  unfold Ref.accountsListed. intros exchange Hin.
  apply includes_elem_of in Hin. cbn in Hin. revert Hin.
  destruct (String.eqb_spec exchange "binance") as [Hb|_];
    [intros _; rewrite Hb; eexists; reflexivity|].
  destruct (String.eqb_spec exchange "bybit") as [Hy|_];
    [intros _; rewrite Hy; eexists; reflexivity | discriminate].
Qed.



(** C10.  Whatever its arguments and the state, and whether it returns
    or throws, [setCurrentExchangeAndAccount] leaves the clients, the
    per-exchange data, [availableExchanges], [availableAccounts],
    [lastFetchTimes], [errorCounts] and [backoffTimes] as they were; when
    it returns, [currentExchange] and [currentAccount] are its arguments,
    and when it throws the whole state is unchanged. *)
Theorem setCurrent_frame :
  forall (C : Type) (st : Fetcher.State C) (exchange account : string),
    let result := Fetcher.setCurrentExchangeAndAccount exchange account st in
    Fetcher.exchangeClients (snd result) = Fetcher.exchangeClients st /\
    Fetcher.exchanges (Fetcher.cachedData (snd result))
    = Fetcher.exchanges (Fetcher.cachedData st) /\
    Fetcher.availableExchanges (Fetcher.cachedData (snd result))
    = Fetcher.availableExchanges (Fetcher.cachedData st) /\
    Fetcher.availableAccounts (Fetcher.cachedData (snd result))
    = Fetcher.availableAccounts (Fetcher.cachedData st) /\
    Fetcher.lastFetchTimes (snd result) = Fetcher.lastFetchTimes st /\
    Fetcher.errorCounts (snd result) = Fetcher.errorCounts st /\
    Fetcher.backoffTimes (snd result) = Fetcher.backoffTimes st /\
    match fst result with
    | inr _ =>
        Fetcher.currentExchange (Fetcher.cachedData (snd result)) = exchange /\
        Fetcher.currentAccount (Fetcher.cachedData (snd result)) = account
    | inl _ => snd result = st
    end.
Proof.
  intros C st exchange account result. unfold result.
  destruct (setCurrent_cases st exchange account) as [H | [e H]]; rewrite H;
    cbn; repeat split; reflexivity.
Qed.

(* ===================================================================== *)
(** ** Failure handling of the clients                                    *)
(* ===================================================================== *)

Section ClientFacts.

Lemma all_Some_Forall {A B : Type} (f : A -> option B) (P : B -> Prop)
      (l : list A) :
  (forall a b, f a = Some b -> P b) ->
  forall xs, Model.all (map f l) = Some xs -> Forall P xs.
Proof.
  intros Hf. induction l as [|a l IH]; intros xs Hall; cbn in Hall.
  - injection Hall as <-. constructor.
  - destruct (f a) as [b|] eqn:Hb; [|discriminate].
    destruct (Model.all (map f l)) as [ys|]; [|discriminate].
    injection Hall as <-. constructor; [exact (Hf a b Hb) | apply IH; reflexivity].
Qed.

Lemma mapFuturesPosition_unfunded (pos : Binance.RawPosition.t) (p : Model.Position) :
  Binance.mapFuturesPosition [] pos = Some p -> Ref.unfunded p.
Proof.
  unfold Binance.mapFuturesPosition.
  destruct (Binance.marginMode_of _); [|discriminate].
  intros H. injection H as <-. split; reflexivity.
Qed.

Lemma mapPortfolioPosition_unfunded (pos : Binance.RawPosition.t)
      (p : Model.Position) :
  Binance.mapPortfolioPosition [] pos = Some p -> Ref.unfunded p.
Proof.
  unfold Binance.mapPortfolioPosition.
  destruct (Binance.marginMode_of _); [|discriminate].
  destruct (_ || _)%bool; intros H; injection H as <-; split; reflexivity.
Qed.

Lemma binance_without_funding (t : Binance.BinanceAccountType)
      (r : Binance.Responses) (data : Model.ExchangeData) :
  Binance.premiumIndex r = None ->
  Binance.fetchFresh t r = Some data ->
  Forall Ref.unfunded (Model.positions data).
Proof.
  intros Hfund. unfold Binance.fetchFresh, Binance.getFundingRates. rewrite Hfund.
  destruct (Binance.accountInfo r); [|discriminate].
  destruct (Binance.positionRisk r) as [positionsData|]; [|discriminate].
  destruct (Binance.openOrders r); [|discriminate].
  destruct (Binance.processPositions t positionsData []) as [ps|] eqn:Hps;
    [|discriminate].
  intros H. injection H as <-. cbn [Model.positions].
  destruct t; cbn in Hps.
  - eapply all_Some_Forall; [|exact Hps]. exact mapFuturesPosition_unfunded.
  - eapply all_Some_Forall; [|exact Hps]. exact mapPortfolioPosition_unfunded.
Qed.

Lemma binance_failure (r : Binance.Responses) (c : Binance.Client) :
  Binance.accountInfo r = None \/ Binance.positionRisk r = None \/
  Binance.openOrders r = None ->
  Binance.getExchangeData r c = (Binance.lastValidData c, c).
Proof.
  intros H. unfold Binance.getExchangeData, Binance.fetchFresh.
  destruct H as [-> | [-> | ->]]; [reflexivity| |].
  - destruct (Binance.accountInfo r); reflexivity.
  - destruct (Binance.accountInfo r); [|reflexivity].
    destruct (Binance.positionRisk r); reflexivity.
Qed.

Lemma bybit_failure (r : Bybit.Responses) (c : Bybit.Client) :
  Bybit.walletBalance r = None \/ Bybit.usdtPositions r = None \/
  Bybit.usdcPositions r = None \/ Bybit.openOrders r = None \/
  Bybit.tickers r = None ->
  Bybit.getExchangeData r c = (Bybit.lastValidData c, c).
Proof.
  intros H. unfold Bybit.getExchangeData, Bybit.fetchFresh, Bybit.getPositions,
              Bybit.processPositions.
  destruct (Bybit.walletBalance r); [|reflexivity].
  destruct (Bybit.usdtPositions r);
    [|destruct H as [H|[H|[H|[H|H]]]]; try discriminate; reflexivity].
  destruct (Bybit.usdcPositions r);
    [|destruct H as [H|[H|[H|[H|H]]]]; try discriminate; reflexivity].
  destruct (Bybit.openOrders r);
    [|destruct H as [H|[H|[H|[H|H]]]]; try discriminate; reflexivity].
  destruct (Bybit.tickers r);
    [destruct H as [H|[H|[H|[H|H]]]]; discriminate | reflexivity].
Qed.

End ClientFacts.

(** Binance answers the three authenticated requests and the
    funding-rate request fails: [getExchangeData] returns a new snapshot
    holding the position, not the previous data. *)
Lemma binance_funding_failure_tolerated :
  Binance.premiumIndex Samples.binanceWithoutFunding = None /\
  exists data client,
    Binance.getExchangeData Samples.binanceWithoutFunding
                            (Binance.new Binance.FUTURES) = (data, client) /\
    length (Model.positions data) = 1%nat /\
    Model.openPositionsCount (Model.accountSummary data) = 1%nat /\
    Model.positions (Binance.lastValidData (Binance.new Binance.FUTURES)) = [] /\
    data <> Binance.lastValidData (Binance.new Binance.FUTURES) /\
    Binance.lastValidData client = data.
Proof.
  split; [reflexivity|]. eexists. eexists. split; [reflexivity|].
  split; [reflexivity|]. split; [reflexivity|]. split; [reflexivity|].
  split; [|reflexivity]. intros H. apply (f_equal Model.positions) in H.
  discriminate H.
Qed.

(** C3 (amended).  When the account, position or open-order request of
    a Binance client fails, or the wallet, either position, open-order or
    ticker request of the Bybit client, [getExchangeData] returns the
    client's [lastValidData] and leaves the client as it was: nothing is
    built from the requests that succeeded.  A failed Binance funding-rate
    request does not fail the fetch: the rates are the empty list, and
    every position of the snapshot then built has funding rates 0. *)
Theorem getExchangeData_all_or_last :
  (forall r c,
      Binance.accountInfo r = None \/ Binance.positionRisk r = None \/
      Binance.openOrders r = None ->
      Binance.getExchangeData r c = (Binance.lastValidData c, c)) /\
  (forall r c,
      Bybit.walletBalance r = None \/ Bybit.usdtPositions r = None \/
      Bybit.usdcPositions r = None \/ Bybit.openOrders r = None \/
      Bybit.tickers r = None ->
      Bybit.getExchangeData r c = (Bybit.lastValidData c, c)) /\
  (forall t r,
      Binance.premiumIndex r = None ->
      Binance.getFundingRates r = [] /\
      forall data,
        Binance.fetchFresh t r = Some data ->
        Forall (fun p => Model.currentFundingRate p = JS.zero /\
                         Model.nextFundingRate p = JS.zero)
               (Model.positions data)).
Proof.
  split; [exact binance_failure|]. split; [exact bybit_failure|].
  intros t r Hfund. split.
  - unfold Binance.getFundingRates. rewrite Hfund. reflexivity.
  - intros data Hdata. exact (binance_without_funding t r data Hfund Hdata).
Qed.

Lemma getExchangeData_all_or_last_witness :
  Bybit.tickers
    {| Bybit.walletBalance := Bybit.walletBalance Samples.bybitResponses;
       Bybit.usdtPositions := Bybit.usdtPositions Samples.bybitResponses;
       Bybit.usdcPositions := Bybit.usdcPositions Samples.bybitResponses;
       Bybit.openOrders := Bybit.openOrders Samples.bybitResponses;
       Bybit.tickers := None;
       Bybit.totalUSDTBalance := JS.zero |} = None /\
  Bybit.getExchangeData
    {| Bybit.walletBalance := Bybit.walletBalance Samples.bybitResponses;
       Bybit.usdtPositions := Bybit.usdtPositions Samples.bybitResponses;
       Bybit.usdcPositions := Bybit.usdcPositions Samples.bybitResponses;
       Bybit.openOrders := Bybit.openOrders Samples.bybitResponses;
       Bybit.tickers := None;
       Bybit.totalUSDTBalance := JS.zero |} Bybit.new
  = (Bybit.lastValidData Bybit.new, Bybit.new).
Proof.
  split; [reflexivity|].
  apply (proj1 (proj2 getExchangeData_all_or_last)).
  right. right. right. right. reflexivity.
Defined.

(* ===================================================================== *)
(** ** Last valid data                                                    *)
(* ===================================================================== *)

Section LastValidFacts.

Lemma binance_get_cases (r : Binance.Responses) (c : Binance.Client) :
  let result := Binance.getExchangeData r c in
  fst result = Binance.lastValidData (snd result) /\
  Binance.accountType (snd result) = Binance.accountType c /\
  fst result = default (Binance.lastValidData c)
                       (Binance.fetchFresh (Binance.accountType c) r) /\
  (Binance.fetchFresh (Binance.accountType c) r = None -> snd result = c).
Proof.
  unfold Binance.getExchangeData.
  destruct (Binance.fetchFresh (Binance.accountType c) r); cbn;
    repeat split; try reflexivity; discriminate.
Qed.

Lemma bybit_get_cases (r : Bybit.Responses) (c : Bybit.Client) :
  let result := Bybit.getExchangeData r c in
  fst result = Bybit.lastValidData (snd result) /\
  fst result = default (Bybit.lastValidData c) (Bybit.fetchFresh r) /\
  (Bybit.fetchFresh r = None -> snd result = c).
Proof.
  unfold Bybit.getExchangeData.
  destruct (Bybit.fetchFresh r); cbn; repeat split; try reflexivity; discriminate.
Qed.

Lemma runBinance_served (rs : list Binance.Responses) :
  forall c,
    Binance.accountType (Ref.runBinance rs c) = Binance.accountType c /\
    Binance.lastValidData (Ref.runBinance rs c)
    = Ref.mostRecentSuccess (Binance.lastValidData c)
                            (map (Binance.fetchFresh (Binance.accountType c)) rs).
Proof.
  induction rs as [|r rs IH]; intros c; [split; reflexivity|].
  unfold Ref.runBinance, Ref.mostRecentSuccess. cbn [fold_left map].
  destruct (binance_get_cases r c) as (Hlast & Htype & Hserved & _).
  destruct (IH (snd (Binance.getExchangeData r c))) as [IHt IHd].
  fold (Ref.runBinance rs (snd (Binance.getExchangeData r c))).
  split; [congruence|].
  rewrite IHd, Htype, <- Hlast, Hserved. reflexivity.
Qed.

Lemma runBybit_served (rs : list Bybit.Responses) :
  forall c,
    Bybit.lastValidData (Ref.runBybit rs c)
    = Ref.mostRecentSuccess (Bybit.lastValidData c) (map Bybit.fetchFresh rs).
Proof.
  induction rs as [|r rs IH]; intros c; [reflexivity|].
  unfold Ref.runBybit, Ref.mostRecentSuccess. cbn [fold_left map].
  destruct (bybit_get_cases r c) as (Hlast & Hserved & _).
  fold (Ref.runBybit rs (snd (Bybit.getExchangeData r c))).
  rewrite IH, <- Hlast, Hserved. reflexivity.
Qed.

Lemma clients_never_reject (env : Clients.Env) (client : Clients.Client) :
  fst (Clients.getExchangeData env client) <> None.
Proof.
  destruct client as [c|c]; cbn.
  - destruct (Binance.getExchangeData _ c). discriminate.
  - destruct (Bybit.getExchangeData _ c). discriminate.
Qed.

Context {Env C : Type}.
Variable getExchangeData : Env -> C -> option Model.ExchangeData * C.

Lemma succeeded_hasExchange (st : Fetcher.State C) (exchange accountId : string)
      (client : C) (data : Model.ExchangeData) (finished : Z) :
  Ref.hasExchange st exchange ->
  Ref.hasExchange (Ref.succeeded st exchange accountId client data finished) exchange.
Proof.
  intros (Hc & Hx & Hl & He & Hb). unfold Ref.hasExchange, Ref.succeeded. cbn.
  repeat split; eauto using updated_is_Some.
Qed.

(** A fetch whose client call does not reject never counts an error. *)
Lemma fetch_without_rejection (env : Env) (checked finished : Z)
      (exchange accountId : string) (st : Fetcher.State C) :
  Ref.hasExchange st exchange ->
  (forall client, fst (getExchangeData env client) <> None) ->
  exists st',
    Fetcher.fetchExchangeData getExchangeData env checked finished
                              exchange accountId st = (inr tt, st') /\
    Ref.hasExchange st' exchange /\
    (Ref.entry (Fetcher.errorCounts st') exchange accountId
     = Ref.entry (Fetcher.errorCounts st) exchange accountId \/
     Ref.entry (Fetcher.errorCounts st') exchange accountId = Some 0%Z) /\
    (Ref.entry (Fetcher.backoffTimes st') exchange accountId
     = Ref.entry (Fetcher.backoffTimes st) exchange accountId \/
     Ref.entry (Fetcher.backoffTimes st') exchange accountId = Some 0%Z).
Proof.
  intros Hwf Hreturns.
  destruct (Ref.entry (Fetcher.exchangeClients st) exchange accountId)
    as [client|] eqn:Hclient.
  - destruct (Fetcher.after
                (Ref.entry (Fetcher.backoffTimes st) exchange accountId) checked)
      eqn:Hafter.
    + exists st. rewrite (fetch_skipped _ _ _ _ _ _ _ client Hwf Hclient Hafter).
      split; [reflexivity|]. split; [exact Hwf|]. split; left; reflexivity.
    + rewrite (fetch_attempted _ _ _ _ _ _ _ client Hwf Hclient Hafter).
      specialize (Hreturns client).
      destruct (getExchangeData env client) as [[data|] client'];
        [|exfalso; apply Hreturns; reflexivity].
      eexists. split; [reflexivity|].
      split; [apply succeeded_hasExchange, Hwf|].
      split; right; apply entry_updated.
  - exists st. rewrite (fetch_no_client _ _ _ _ _ _ _ Hwf Hclient).
    split; [reflexivity|]. split; [exact Hwf|]. split; left; reflexivity.
Qed.

(** With clients that never reject, no run of fetches counts an error. *)
Lemma fetches_without_rejection (exchange accountId : string)
      (calls : list (Env * Z * Z)) :
  (forall env client, fst (getExchangeData env client) <> None) ->
  forall st,
    Ref.hasExchange st exchange ->
    Ref.entry (Fetcher.errorCounts st) exchange accountId = None \/
    Ref.entry (Fetcher.errorCounts st) exchange accountId = Some 0%Z ->
    exists st',
      Fetcher.fetchRepeatedly getExchangeData exchange accountId calls st
      = (inr tt, st') /\
      (Ref.entry (Fetcher.errorCounts st') exchange accountId = None \/
       Ref.entry (Fetcher.errorCounts st') exchange accountId = Some 0%Z).
Proof.
  intros Hreturns.
  induction calls as [|[[env checked] finished] rest IH]; intros st Hwf Hcount.
  - exists st. split; [reflexivity | exact Hcount].
  - destruct (fetch_without_rejection env checked finished exchange accountId st
                Hwf (Hreturns env)) as (st1 & Hrun & Hwf1 & Hcount1 & _).
    assert (Ref.entry (Fetcher.errorCounts st1) exchange accountId = None \/
            Ref.entry (Fetcher.errorCounts st1) exchange accountId = Some 0%Z)
      as Hzero.
    { destruct Hcount1 as [Hsame | Hreset]; [rewrite Hsame; exact Hcount|].
      right. exact Hreset. }
    destruct (IH st1 Hwf1 Hzero) as (st' & Hrest & Hfinal).
    exists st'. split; [|exact Hfinal].
    cbn [Fetcher.fetchRepeatedly]. rewrite bind_run, Hrun. exact Hrest.
Qed.

End LastValidFacts.

Lemma registeredState_hasExchange (exchange : string) :
  exchange = "binance" \/ exchange = "bybit" ->
  Ref.hasExchange Clients.registeredState exchange.
Proof.
  intros [-> | ->]; repeat split; eexists; reflexivity.
Qed.

(** C9.  [getExchangeData] of either client always returns data, which is
    the client's [lastValidData] after the call: the snapshot just built
    when the fetch succeeded, and otherwise the previous [lastValidData]
    with the client unchanged.  Over any sequence of calls on a new
    client, [lastValidData] is the most recent successful snapshot, or
    the constructor's data, with no positions and an all-zero summary,
    when no fetch has succeeded.  The dispatching call of the service
    therefore never rejects, and a fetch whose client call does not
    reject never increments the error count nor sets a backoff: it
    leaves them as they were or resets them to 0; with the registered
    clients the error count of a key stays unset or 0 over every run. *)
Theorem getExchangeData_never_rejects :
  (forall r c,
      let result := Binance.getExchangeData r c in
      fst result = Binance.lastValidData (snd result) /\
      fst result = default (Binance.lastValidData c)
                           (Binance.fetchFresh (Binance.accountType c) r) /\
      (Binance.fetchFresh (Binance.accountType c) r = None -> snd result = c)) /\
  (forall r c,
      let result := Bybit.getExchangeData r c in
      fst result = Bybit.lastValidData (snd result) /\
      fst result = default (Bybit.lastValidData c) (Bybit.fetchFresh r) /\
      (Bybit.fetchFresh r = None -> snd result = c)) /\
  (forall rs t,
      Binance.lastValidData (Ref.runBinance rs (Binance.new t))
      = Ref.mostRecentSuccess (Binance.initialData t)
                              (map (Binance.fetchFresh t) rs)) /\
  (forall rs,
      Bybit.lastValidData (Ref.runBybit rs Bybit.new)
      = Ref.mostRecentSuccess Bybit.initialData (map Bybit.fetchFresh rs)) /\
  (forall t, Ref.emptyData (Binance.initialData t)) /\
  Ref.emptyData Bybit.initialData /\
  (forall env client, fst (Clients.getExchangeData env client) <> None) /\
  (forall (Env C : Type) (getExchangeData : Env -> C -> option Model.ExchangeData * C)
          env checked finished exchange accountId (st : Fetcher.State C),
      Ref.hasExchange st exchange ->
      (forall client, fst (getExchangeData env client) <> None) ->
      exists st',
        Fetcher.fetchExchangeData getExchangeData env checked finished
                                  exchange accountId st = (inr tt, st') /\
        (Ref.entry (Fetcher.errorCounts st') exchange accountId
         = Ref.entry (Fetcher.errorCounts st) exchange accountId \/
         Ref.entry (Fetcher.errorCounts st') exchange accountId = Some 0%Z) /\
        (Ref.entry (Fetcher.backoffTimes st') exchange accountId
         = Ref.entry (Fetcher.backoffTimes st) exchange accountId \/
         Ref.entry (Fetcher.backoffTimes st') exchange accountId = Some 0%Z)) /\
  (forall exchange accountId calls,
      exchange = "binance" \/ exchange = "bybit" ->
      exists st',
        Fetcher.fetchRepeatedly Clients.getExchangeData exchange accountId calls
                                Clients.registeredState = (inr tt, st') /\
        (Ref.entry (Fetcher.errorCounts st') exchange accountId = None \/
         Ref.entry (Fetcher.errorCounts st') exchange accountId = Some 0%Z)).
Proof.
  split.
  { intros r c. destruct (binance_get_cases r c) as (H1 & _ & H2 & H3).
    repeat split; assumption. }
  split; [exact bybit_get_cases|].
  split.
  { intros rs t. destruct (runBinance_served rs (Binance.new t)) as [_ H].
    exact H. }
  split; [intros rs; apply runBybit_served|].
  split; [intros []; repeat split; reflexivity|].
  split; [repeat split; reflexivity|].
  split; [exact clients_never_reject|].
  split.
  { intros Env C get env checked finished exchange accountId st Hwf Hret.
    destruct (fetch_without_rejection get env checked finished exchange accountId
                st Hwf Hret) as (st' & Hrun & _ & Hc & Hb).
    exists st'. repeat split; assumption. }
  intros exchange accountId calls Hex.
  apply (fetches_without_rejection Clients.getExchangeData exchange accountId calls
           clients_never_reject Clients.registeredState
           (registeredState_hasExchange exchange Hex)).
  left. destruct Hex as [-> | ->]; reflexivity.
Qed.

Lemma getExchangeData_never_rejects_witness :
  Ref.hasExchange Clients.registeredState "bybit" /\
  (forall client, fst (Clients.getExchangeData Samples.env client) <> None) /\
  exists st',
    Fetcher.fetchExchangeData Clients.getExchangeData Samples.env 1000 2000
                              "bybit" "unified" Clients.registeredState
    = (inr tt, st') /\
    (Ref.entry (Fetcher.errorCounts st') "bybit" "unified"
     = Ref.entry (Fetcher.errorCounts Clients.registeredState) "bybit" "unified" \/
     Ref.entry (Fetcher.errorCounts st') "bybit" "unified" = Some 0%Z).
Proof.
  pose proof (registeredState_hasExchange "bybit" (or_intror eq_refl)) as Hwf.
  pose proof (proj1 (proj2 (proj2 (proj2 (proj2 (proj2
                (proj2 getExchangeData_never_rejects)))))) Samples.env) as Hret.
  split; [exact Hwf|]. split; [exact Hret|].
  destruct (proj1 (proj2 (proj2 (proj2 (proj2 (proj2 (proj2
              (proj2 getExchangeData_never_rejects)))))))
              Clients.Env Clients.Client Clients.getExchangeData Samples.env
              1000%Z 2000%Z "bybit" "unified" Clients.registeredState Hwf Hret)
    as (st' & Hrun & Hcount & _).
  exists st'. split; [exact Hrun | exact Hcount].
Defined.

(* ===================================================================== *)
(** ** The available sets are never changed                               *)
(* ===================================================================== *)

Section AvailableFacts.

Context {Env C : Type}.
Variable getExchangeData : Env -> C -> option Model.ExchangeData * C.

Lemma keeps_ret {A : Type} (a : A) : Ref.keepsAvailable (@Fetcher.ret C A a).
Proof. intros st. reflexivity. Qed.

Lemma keeps_throw {A : Type} (e : Fetcher.Exception) :
  Ref.keepsAvailable (@Fetcher.throw C A e).
Proof. intros st. reflexivity. Qed.

Lemma keeps_bind {A B : Type} (m : Fetcher.M C A) (k : A -> Fetcher.M C B) :
  Ref.keepsAvailable m -> (forall a, Ref.keepsAvailable (k a)) ->
  Ref.keepsAvailable (Fetcher.bind m k).
Proof.
  intros Hm Hk st. rewrite bind_run. specialize (Hm st).
  destruct (m st) as [[e|a] st1]; cbn [snd] in *; [exact Hm|].
  rewrite (Hk a st1). exact Hm.
Qed.

Lemma keeps_try_catch {A : Type} (body : Fetcher.M C A)
      (handler : Fetcher.Exception -> Fetcher.M C A) :
  Ref.keepsAvailable body -> (forall e, Ref.keepsAvailable (handler e)) ->
  Ref.keepsAvailable (Fetcher.try_catch body handler).
Proof.
  intros Hb Hh st. unfold Fetcher.try_catch. specialize (Hb st).
  destruct (body st) as [[e|a] st1]; cbn [snd] in *; [|exact Hb].
  rewrite (Hh e st1). exact Hb.
Qed.

Lemma keeps_readTable {V : Type} (field : Fetcher.State C -> Fetcher.Table V)
      (exchange accountId : string) :
  Ref.keepsAvailable (Fetcher.readTable field exchange accountId).
Proof. intros st. reflexivity. Qed.

Lemma keeps_writeTable {V : Type} (field : Fetcher.State C -> Fetcher.Table V)
      (update : Fetcher.State C -> Fetcher.Table V -> Fetcher.State C)
      (exchange accountId : string) (v : V) :
  (forall st t, Ref.available (update st t) = Ref.available st) ->
  Ref.keepsAvailable (Fetcher.writeTable field update exchange accountId v).
Proof.
  intros Hupdate st.
  unfold Fetcher.writeTable, Fetcher.bind, Fetcher.get, Fetcher.lift, Fetcher.put.
  destruct (Fetcher.write (field st) exchange accountId v); cbn [snd];
    [reflexivity | apply Hupdate].
Qed.

Lemma fetch_keeps_available (env : Env) (checked finished : Z)
      (exchange accountId : string) :
  Ref.keepsAvailable
    (Fetcher.fetchExchangeData getExchangeData env checked finished
                               exchange accountId).
Proof.
  unfold Fetcher.fetchExchangeData.
  apply keeps_bind; [apply keeps_readTable|]. intros [client|]; [|apply keeps_ret].
  apply keeps_bind; [apply keeps_readTable|]. intros backoff.
  destruct (Fetcher.after backoff checked); [apply keeps_ret|].
  apply keeps_try_catch.
  - apply keeps_bind.
    + unfold Fetcher.callClient.
      destruct (getExchangeData env client) as [[data|] client'];
        (apply keeps_bind; [apply keeps_writeTable; reflexivity|]); intros _;
        [apply keeps_ret | apply keeps_throw].
    + intros data.
      repeat (apply keeps_bind; [apply keeps_writeTable; reflexivity | intros _]).
      apply keeps_writeTable; reflexivity.
  - intros _. apply keeps_bind; [apply keeps_readTable|]. intros count.
    apply keeps_bind.
    { destruct (Fetcher.falsy count);
        [apply keeps_writeTable; reflexivity | apply keeps_ret]. }
    intros _. apply keeps_bind; [apply keeps_readTable|]. intros count'.
    apply keeps_bind; [apply keeps_writeTable; reflexivity|]. intros _.
    destruct (_ <=? _)%Z; [apply keeps_writeTable; reflexivity | apply keeps_ret].
Qed.

Lemma setCurrent_keeps_available (exchange account : string) :
  Ref.keepsAvailable (@Fetcher.setCurrentExchangeAndAccount C exchange account).
Proof.
  intros st. destruct (setCurrent_cases st exchange account) as [H | [e H]];
    rewrite H; reflexivity.
Qed.

(** The hypothesis of the selection theorem is an invariant of the
    service: it holds when the module is loaded and after every fetch
    and every selection. *)
Lemma accountsListed_invariant (st : Fetcher.State C) :
  Ref.accountsListed (Fetcher.cachedData st) ->
  (forall env checked finished exchange accountId,
      Ref.accountsListed
        (Fetcher.cachedData
           (snd (Fetcher.fetchExchangeData getExchangeData env checked finished
                                           exchange accountId st)))) /\
  (forall exchange account,
      Ref.accountsListed
        (Fetcher.cachedData
           (snd (Fetcher.setCurrentExchangeAndAccount exchange account st)))).
Proof.
  intros Hlisted.
  assert (forall st' : Fetcher.State C,
             Ref.available st' = Ref.available st ->
             Ref.accountsListed (Fetcher.cachedData st')) as Hkeep.
  { intros st' Heq. unfold Ref.available in Heq. injection Heq as Hex Hacc.
    unfold Ref.accountsListed. rewrite Hex, Hacc. exact Hlisted. }
  split.
  - intros env checked finished exchange accountId.
    apply Hkeep, fetch_keeps_available.
  - intros exchange account. apply Hkeep, setCurrent_keeps_available.
Qed.

End AvailableFacts.

(* ===================================================================== *)
(** ** Further properties of the position normalizers                     *)
(* ===================================================================== *)

Section EstimateFacts.
Local Open Scope Q_scope.







End EstimateFacts.



Section BatchFacts.
Local Open Scope Q_scope.

Lemma all_Forall2 {A B : Type} (f : A -> option B) (l : list A) :
  forall xs, Model.all (map f l) = Some xs ->
             Forall2 (fun a x => f a = Some x) l xs.
Proof.
  induction l as [|a l IH]; intros xs H; cbn in H.
  - injection H as <-. constructor.
  - destruct (f a) as [b|] eqn:Hb; [|discriminate].
    destruct (Model.all (map f l)) as [ys|]; [|discriminate].
    injection H as <-. constructor; [exact Hb | apply IH; reflexivity].
Qed.

Lemma all_None {A B : Type} (f : A -> option B) (l : list A) :
  Model.all (map f l) = None <-> Exists (fun a => f a = None) l.
Proof.
  induction l as [|a l IH]; cbn.
  - split; [discriminate | intros H; inversion H].
  - destruct (f a) as [b|] eqn:Hb.
    + destruct (Model.all (map f l)) as [ys|].
      * split; [discriminate|]. intros H. inversion H as [? ? Ha|? ? Hl]; subst.
        -- congruence.
        -- apply IH in Hl. discriminate Hl.
      * split; [|reflexivity]. intros _. right. apply IH. reflexivity.
    + split; [|reflexivity]. intros _. left. exact Hb.
Qed.

Lemma Forall2_map_eq {A B K : Type} (R : A -> B -> Prop)
      (g : A -> K) (h : B -> K) (l : list A) (xs : list B) :
  (forall a x, R a x -> h x = g a) ->
  Forall2 R l xs -> map h xs = map g l.
Proof.
  intros Hr. induction 1 as [|a x l xs Hax _ IH]; cbn; [reflexivity|].
  rewrite (Hr a x Hax), IH. reflexivity.
Qed.

Lemma marginMode_of_None (v : JS.value) :
  Binance.marginMode_of v = None <-> ~ Ref.isString v.
Proof.
  unfold Binance.marginMode_of, Ref.isString.
  destruct v as [|s|n]; cbn; split; try discriminate; try reflexivity.
  - intros _ [s H]. discriminate H.
  - intros H. exfalso. apply H. eauto.
  - intros _ [s H]. discriminate H.
Qed.

Lemma mapFuturesPosition_None (frs : list Binance.FundingRate.t)
      (pos : Binance.RawPosition.t) :
  Binance.mapFuturesPosition frs pos = None
  <-> ~ Ref.isString (Binance.RawPosition.marginType pos).
Proof.
  rewrite <- marginMode_of_None. unfold Binance.mapFuturesPosition.
  destruct (Binance.marginMode_of _); split; intros; congruence.
Qed.

Lemma mapPortfolioPosition_None (frs : list Binance.FundingRate.t)
      (pos : Binance.RawPosition.t) :
  Binance.mapPortfolioPosition frs pos = None
  <-> JS.truthy (Binance.RawPosition.marginType pos) = true /\
      ~ Ref.isString (Binance.RawPosition.marginType pos).
Proof.
  unfold Binance.mapPortfolioPosition.
  destruct (Binance.marginMode_of
              (JS.or_else (Binance.RawPosition.marginType pos) (JS.VString "cross")))
    as [mode|] eqn:Hmode.
  - split; [destruct (_ || _)%bool; discriminate|].
    intros [Ht Hs]. unfold JS.or_else in Hmode. rewrite Ht in Hmode.
    apply marginMode_of_None in Hs. congruence.
  - split; [|reflexivity]. intros _.
    unfold JS.or_else in Hmode.
    destruct (JS.truthy (Binance.RawPosition.marginType pos)) eqn:Ht;
      [|discriminate Hmode].
    split; [reflexivity | apply marginMode_of_None, Hmode].
Qed.

Lemma futures_filter_hasAmount (pos : Binance.RawPosition.t) :
  JS.gt (JS.abs (JS.parseFloat (Binance.RawPosition.positionAmt pos))) JS.zero
  = Ref.hasAmount pos.
Proof.
  unfold Ref.hasAmount.
  destruct (JS.parseFloat (Binance.RawPosition.positionAmt pos)) as [| | |q];
    try reflexivity.
  cbn [JS.abs]. rewrite gt_zero_Fin. unfold JS.Qis_pos, JS.Qis_zero. f_equal.
  destruct (Qle_bool (Qabs q) 0) eqn:Hle; destruct (Qeq_bool q 0) eqn:Heq;
    try reflexivity.
  - apply Qle_bool_iff in Hle. pose proof (Qabs_nonneg q).
    assert (Qabs q == 0) as H0 by lra.
    assert (q == 0) as Hq.
    { destruct (Qlt_le_dec q 0) as [Hn|Hp].
      - rewrite Qabs_neg in H0 by lra. lra.
      - rewrite Qabs_pos in H0 by lra. lra. }
    apply Qeq_bool_iff in Hq. congruence.
  - apply Qeq_bool_iff in Heq. apply Qle_bool_false in Hle.
    assert (Qabs q == 0) as H0 by (rewrite Heq; reflexivity). lra.
Qed.

Lemma futures_filter_ext (raw : list Binance.RawPosition.t) :
  List.filter
    (fun pos =>
       JS.gt (JS.abs (JS.parseFloat (Binance.RawPosition.positionAmt pos))) JS.zero)
    raw
  = List.filter Ref.hasAmount raw.
Proof.
  induction raw as [|pos raw IH]; cbn [List.filter]; [reflexivity|].
  rewrite futures_filter_hasAmount, IH. reflexivity.
Qed.

Lemma mapFuturesPosition_symbol frs pos p :
  Binance.mapFuturesPosition frs pos = Some p ->
  Model.symbol p = Binance.RawPosition.symbol pos.
Proof.
  unfold Binance.mapFuturesPosition.
  destruct (Binance.marginMode_of _); [|discriminate].
  intros H. injection H as <-. reflexivity.
Qed.

Lemma mapPortfolioPosition_symbol frs pos p :
  Binance.mapPortfolioPosition frs pos = Some p ->
  Model.symbol p = Binance.RawPosition.symbol pos.
Proof.
  unfold Binance.mapPortfolioPosition.
  destruct (Binance.marginMode_of _); [|discriminate].
  destruct (_ || _)%bool; intros H; injection H as <-; reflexivity.
Qed.

Lemma Exists_equiv {A : Type} (P Q : A -> Prop) (l : list A) :
  (forall a, P a <-> Q a) -> Exists P l <-> Exists Q l.
Proof.
  intros H. rewrite !List.Exists_exists.
  split; intros (a & Hin & Ha); exists a; (split; [exact Hin | apply H, Ha]).
Qed.

End BatchFacts.

(** X2.  The futures branch of [processPositions] keeps, in order,
    exactly the records whose position amount reads as a number other
    than 0, whereas the portfolio-margin branch keeps every record, the
    empty positions included: the symbols of the result are those of the
    kept records. *)
Theorem positions_kept_in_order :
  (forall frs raw ps,
      Binance.processPositions Binance.FUTURES raw frs = Some ps ->
      map Model.symbol ps
      = map Binance.RawPosition.symbol (List.filter Ref.hasAmount raw)) /\
  (forall frs raw ps,
      Binance.processPositions Binance.PORTFOLIO_MARGIN raw frs = Some ps ->
      map Model.symbol ps = map Binance.RawPosition.symbol raw).
Proof.
  split; intros frs raw ps H; unfold Binance.processPositions in H.
  - rewrite futures_filter_ext in H. apply all_Forall2 in H.
    eapply Forall2_map_eq; [|exact H]. intros a x. apply mapFuturesPosition_symbol.
  - apply all_Forall2 in H.
    eapply Forall2_map_eq; [|exact H]. intros a x. apply mapPortfolioPosition_symbol.
Qed.

Lemma positions_kept_in_order_witness :
  exists ps,
    Binance.processPositions Binance.FUTURES
      [Samples.btcShort (JS.VString "cross")] [] = Some ps /\
    map Model.symbol ps
    = map Binance.RawPosition.symbol
          (List.filter Ref.hasAmount [Samples.btcShort (JS.VString "cross")]).
Proof.
  eexists. split; [reflexivity|].
  apply (proj1 positions_kept_in_order [] [Samples.btcShort (JS.VString "cross")]).
  reflexivity.
Defined.

(** X3.  [processPositions] is all or nothing: the futures branch
    rejects the whole batch exactly when some kept record has a margin
    type that is not a string, and the portfolio-margin branch exactly
    when some record has a truthy margin type that is not a string (an
    absent or empty margin type defaults to cross). *)
Theorem positions_rejected_iff_bad_marginType :
  (forall frs raw,
      Binance.processPositions Binance.FUTURES raw frs = None <->
      Exists (fun pos => ~ Ref.isString (Binance.RawPosition.marginType pos))
             (List.filter Ref.hasAmount raw)) /\
  (forall frs raw,
      Binance.processPositions Binance.PORTFOLIO_MARGIN raw frs = None <->
      Exists (fun pos =>
                JS.truthy (Binance.RawPosition.marginType pos) = true /\
                ~ Ref.isString (Binance.RawPosition.marginType pos))
             raw).
Proof.
  split; intros frs raw; unfold Binance.processPositions.
  - rewrite futures_filter_ext, all_None. apply Exists_equiv.
    intros pos. apply mapFuturesPosition_None.
  - rewrite all_None. apply Exists_equiv.
    intros pos. apply mapPortfolioPosition_None.
Qed.

Lemma positions_rejected_iff_bad_marginType_witness :
  Exists (fun pos => ~ Ref.isString (Binance.RawPosition.marginType pos))
         (List.filter Ref.hasAmount [Samples.btcShort JS.VUndefined]) /\
  Binance.processPositions Binance.FUTURES [Samples.btcShort JS.VUndefined] []
  = None.
Proof.
  assert (Exists (fun pos => ~ Ref.isString (Binance.RawPosition.marginType pos))
                 (List.filter Ref.hasAmount [Samples.btcShort JS.VUndefined]))
    as H.
  { left. intros [s Hs]. discriminate Hs. }
  split; [exact H|].
  exact (proj2 (proj1 positions_rejected_iff_bad_marginType []
                      [Samples.btcShort JS.VUndefined]) H).
Defined.

Section RoundingEdgeFacts.
Local Open Scope Q_scope.



End RoundingEdgeFacts.


Section FundingFacts.

Lemma find_enriched (enrich : Binance.FundingRate.t -> Binance.FundingRate.t)
      (symbol : string) (rates : list Binance.FundingRate.t) :
  (forall rate,
      Binance.FundingRate.symbol (enrich rate) = Binance.FundingRate.symbol rate /\
      Binance.FundingRate.lastFundingRate (enrich rate)
      = Binance.FundingRate.lastFundingRate rate) ->
  option_map Binance.FundingRate.lastFundingRate
             (Binance.findFundingRate (map enrich rates) symbol)
  = option_map Binance.FundingRate.lastFundingRate
               (Binance.findFundingRate rates symbol).
Proof.
  intros Henrich. unfold Binance.findFundingRate.
  induction rates as [|rate rates IH]; cbn [map List.find]; [reflexivity|].
  destruct (Henrich rate) as [-> Hlast].
  destruct (String.eqb (Binance.FundingRate.symbol rate) symbol);
    [cbn; rewrite Hlast; reflexivity | exact IH].
Qed.

Lemma fundingRates_kept (r : Binance.Responses)
      (rates : list Binance.FundingRate.t) :
  Binance.premiumIndex r = Some rates ->
  map Binance.FundingRate.symbol (Binance.getFundingRates r)
  = map Binance.FundingRate.symbol rates /\
  (forall symbol,
      option_map Binance.FundingRate.lastFundingRate
                 (Binance.findFundingRate (Binance.getFundingRates r) symbol)
      = option_map Binance.FundingRate.lastFundingRate
                   (Binance.findFundingRate rates symbol)) /\
  (forall rate,
      In rate rates ->
      Binance.fundingRateHistory r (Binance.FundingRate.symbol rate) = None ->
      In rate (Binance.getFundingRates r)).
Proof.
  intros Hrates. unfold Binance.getFundingRates. rewrite Hrates.
  split; [|split].
  - rewrite map_map. apply map_ext. intros rate.
    destruct (Binance.fundingRateHistory r _); reflexivity.
  - intros symbol. apply find_enriched. intros rate.
    destruct (Binance.fundingRateHistory r _); split; reflexivity.
  - intros rate Hin Hnone. apply in_map_iff. exists rate.
    rewrite Hnone. split; [reflexivity | exact Hin].
Qed.

End FundingFacts.

(** X5.  [getFundingRates] never drops, reorders or renames a rate of
    the premium index, and the last funding rate found for a symbol does
    not depend on the history requests; a rate whose history request
    fails is returned unchanged. *)
Theorem fundingRates_enriched_in_place :
  forall (r : Binance.Responses) (rates : list Binance.FundingRate.t),
    Binance.premiumIndex r = Some rates ->
    map Binance.FundingRate.symbol (Binance.getFundingRates r)
    = map Binance.FundingRate.symbol rates /\
    (forall symbol,
        option_map Binance.FundingRate.lastFundingRate
                   (Binance.findFundingRate (Binance.getFundingRates r) symbol)
        = option_map Binance.FundingRate.lastFundingRate
                     (Binance.findFundingRate rates symbol)) /\
    (forall rate,
        In rate rates ->
        Binance.fundingRateHistory r (Binance.FundingRate.symbol rate) = None ->
        In rate (Binance.getFundingRates r)).
Proof. exact fundingRates_kept. Qed.


Lemma fundingRates_enriched_in_place_witness :
  Binance.premiumIndex Samples.binanceWithFunding = Some [Samples.btcRate] /\
  map Binance.FundingRate.symbol (Binance.getFundingRates Samples.binanceWithFunding)
  = ["BTCUSDT"].
Proof.
  split; [reflexivity|].
  exact (proj1 (fundingRates_enriched_in_place Samples.binanceWithFunding
                  [Samples.btcRate] eq_refl)).
Defined.

(* ===================================================================== *)
(** ** Consistency of the snapshots served                                *)
(* ===================================================================== *)

Section ConsistencyFacts.

Lemma all_length {A : Type} (l : list (option A)) :
  forall xs, Model.all l = Some xs -> length xs = length l.
Proof.
  induction l as [|[a|] l IH]; intros xs H; cbn in H; try discriminate.
  - injection H as <-. reflexivity.
  - destruct (Model.all l) as [ys|]; [|discriminate].
    injection H as <-. cbn. f_equal. apply IH. reflexivity.
Qed.

Lemma mapFuturesPosition_exchange frs pos p :
  Binance.mapFuturesPosition frs pos = Some p -> Model.exchange p = "binance".
Proof.
  unfold Binance.mapFuturesPosition.
  destruct (Binance.marginMode_of _); [|discriminate].
  intros H. injection H as <-. reflexivity.
Qed.

Lemma mapPortfolioPosition_exchange frs pos p :
  Binance.mapPortfolioPosition frs pos = Some p -> Model.exchange p = "binance".
Proof.
  unfold Binance.mapPortfolioPosition.
  destruct (Binance.marginMode_of _); [|discriminate].
  destruct (_ || _)%bool; intros H; injection H as <-; reflexivity.
Qed.

Lemma binance_fresh_consistent (t : Binance.BinanceAccountType)
      (r : Binance.Responses) (data : Model.ExchangeData) :
  Binance.fetchFresh t r = Some data -> Ref.consistent "binance" data.
Proof.
  unfold Binance.fetchFresh.
  destruct (Binance.accountInfo r) as [ai|]; [|discriminate].
  destruct (Binance.positionRisk r) as [raw|]; [|discriminate].
  destruct (Binance.openOrders r) as [orders|]; [|discriminate].
  destruct (Binance.processPositions t raw (Binance.getFundingRates r))
    as [ps|] eqn:Hps; [|discriminate].
  intros H. injection H as <-. unfold Ref.consistent.
  cbn [Model.positions Model.accountSummary].
  split; [destruct t; reflexivity|]. split; [|destruct t; reflexivity].
  destruct t; unfold Binance.processPositions in Hps.
  - eapply all_Some_Forall; [|exact Hps]. apply mapFuturesPosition_exchange.
  - eapply all_Some_Forall; [|exact Hps]. apply mapPortfolioPosition_exchange.
Qed.

Lemma bybit_fresh_consistent (r : Bybit.Responses) (data : Model.ExchangeData) :
  Bybit.fetchFresh r = Some data -> Ref.consistent "bybit" data.
Proof.
  unfold Bybit.fetchFresh, Bybit.processPositions.
  destruct (Bybit.walletBalance r) as [ai|]; [|discriminate].
  destruct (Bybit.getPositions r) as [raw|]; [|discriminate].
  destruct (Bybit.openOrders r) as [orders|]; [|discriminate].
  destruct (Bybit.tickers r) as [frs|]; [|discriminate].
  intros H. injection H as <-. unfold Ref.consistent.
  cbn [Model.positions Model.accountSummary].
  split; [reflexivity|]. split; [|reflexivity].
  apply List.Forall_forall. intros p Hin. apply in_map_iff in Hin.
  destruct Hin as (pos & <- & _). reflexivity.
Qed.

Lemma mostRecentSuccess_keeps (P : Model.ExchangeData -> Prop)
      (attempts : list (option Model.ExchangeData)) :
  forall initial,
    P initial ->
    Forall (fun attempt => forall d, attempt = Some d -> P d) attempts ->
    P (Ref.mostRecentSuccess initial attempts).
Proof.
  unfold Ref.mostRecentSuccess.
  induction attempts as [|attempt attempts IH]; intros initial Hinit Hall;
    cbn [fold_left]; [exact Hinit|].
  inversion Hall as [|? ? Hhead Htail]; subst.
  apply IH; [|exact Htail].
  destruct attempt as [d|]; [apply Hhead; reflexivity | exact Hinit].
Qed.

Lemma binance_served_consistent (rs : list Binance.Responses)
      (t : Binance.BinanceAccountType) :
  Ref.consistent "binance"
    (Binance.lastValidData (Ref.runBinance rs (Binance.new t))).
Proof.
  destruct (runBinance_served rs (Binance.new t)) as [_ ->].
  apply mostRecentSuccess_keeps.
  - repeat split. constructor.
  - apply List.Forall_forall. intros attempt Hin d ->. apply in_map_iff in Hin.
    destruct Hin as (r & Hr & _). exact (binance_fresh_consistent _ r d Hr).
Qed.

Lemma bybit_served_consistent (rs : list Bybit.Responses) :
  Ref.consistent "bybit" (Bybit.lastValidData (Ref.runBybit rs Bybit.new)).
Proof.
  rewrite runBybit_served. apply mostRecentSuccess_keeps.
  - repeat split. constructor.
  - apply List.Forall_forall. intros attempt Hin d ->. apply in_map_iff in Hin.
    destruct Hin as (r & Hr & _). exact (bybit_fresh_consistent r d Hr).
Qed.

End ConsistencyFacts.

(** X6.  Whatever the exchanges answered so far, the data a client
    holds as last valid, and hence every snapshot it returns, is
    consistent: [openPositionsCount] is the number of positions listed,
    and every position and the summary carry the client's exchange tag. *)
Theorem served_snapshot_consistent :
  (forall (rs : list Binance.Responses) (t : Binance.BinanceAccountType)
          (r : Binance.Responses),
      Ref.consistent "binance"
        (fst (Binance.getExchangeData r (Ref.runBinance rs (Binance.new t))))) /\
  (forall (rs : list Bybit.Responses) (r : Bybit.Responses),
      Ref.consistent "bybit"
        (fst (Bybit.getExchangeData r (Ref.runBybit rs Bybit.new)))).
Proof.
  split.
  - intros rs t r.
    destruct (binance_get_cases r (Ref.runBinance rs (Binance.new t)))
      as (_ & _ & -> & _).
    destruct (Binance.fetchFresh _ r) as [d|] eqn:Hd; cbn.
    + exact (binance_fresh_consistent _ r d Hd).
    + apply binance_served_consistent.
  - intros rs r.
    destruct (bybit_get_cases r (Ref.runBybit rs Bybit.new)) as (_ & -> & _).
    destruct (Bybit.fetchFresh r) as [d|] eqn:Hd; cbn.
    + exact (bybit_fresh_consistent r d Hd).
    + apply bybit_served_consistent.
Qed.

(* ===================================================================== *)
(** ** Sizes, notional values and the Bybit estimate                      *)
(* ===================================================================== *)

Section MagnitudeFacts.
Local Open Scope Q_scope.





End MagnitudeFacts.





(* ===================================================================== *)
(** ** Further properties of the fetch scheduler                          *)
(* ===================================================================== *)

Section FetchFrameFacts.

Context {Env C : Type}.
Variable getExchangeData : Env -> C -> option Model.ExchangeData * C.

Lemma entry_updated_other {V : Type} (table : Fetcher.Table V)
      (exchange accountId exchange' accountId' : string) (v : V) :
  (exchange', accountId') <> (exchange, accountId) ->
  Ref.entry (Ref.updated table exchange accountId v) exchange' accountId'
  = Ref.entry table exchange' accountId'.
Proof.
  intros Hne. unfold Ref.entry, Ref.updated.
  destruct (decide (exchange = exchange')) as [<-|Hex].
  - rewrite lookup_insert_eq.
    assert (accountId <> accountId') as Hacc by (intros <-; apply Hne; reflexivity).
    rewrite lookup_insert_ne by exact Hacc.
    destruct (table !! exchange); reflexivity.
  - rewrite lookup_insert_ne by exact Hex. reflexivity.
Qed.

Lemma fetch_state_cases (env : Env) (checked finished : Z)
      (exchange accountId : string) (st : Fetcher.State C) :
  Ref.hasExchange st exchange ->
  let st' :=
    snd (Fetcher.fetchExchangeData getExchangeData env checked finished
                                   exchange accountId st) in
  st' = st \/
  (exists client data, st' = Ref.succeeded st exchange accountId client data finished) \/
  (exists client, st' = Ref.failed st exchange accountId client finished).
Proof.
  intros Hwf. cbv zeta.
  destruct (Ref.entry (Fetcher.exchangeClients st) exchange accountId)
    as [client|] eqn:Hclient.
  - destruct (Fetcher.after
                (Ref.entry (Fetcher.backoffTimes st) exchange accountId) checked)
      eqn:Hafter.
    + rewrite (fetch_skipped _ _ _ _ _ _ _ client Hwf Hclient Hafter). left.
      reflexivity.
    + rewrite (fetch_attempted _ _ _ _ _ _ _ client Hwf Hclient Hafter).
      destruct (getExchangeData env client) as [[data|] client']; right;
        [left | right]; eauto.
  - rewrite (fetch_no_client _ _ _ _ _ _ _ Hwf Hclient). left. reflexivity.
Qed.

Lemma fetch_frame (env : Env) (checked finished : Z)
      (exchange accountId exchange' accountId' : string) (st : Fetcher.State C) :
  Ref.hasExchange st exchange ->
  (exchange', accountId') <> (exchange, accountId) ->
  let st' :=
    snd (Fetcher.fetchExchangeData getExchangeData env checked finished
                                   exchange accountId st) in
  Ref.entry (Fetcher.exchangeClients st') exchange' accountId'
  = Ref.entry (Fetcher.exchangeClients st) exchange' accountId' /\
  Ref.entry (Fetcher.exchanges (Fetcher.cachedData st')) exchange' accountId'
  = Ref.entry (Fetcher.exchanges (Fetcher.cachedData st)) exchange' accountId' /\
  Ref.entry (Fetcher.lastFetchTimes st') exchange' accountId'
  = Ref.entry (Fetcher.lastFetchTimes st) exchange' accountId' /\
  Ref.entry (Fetcher.errorCounts st') exchange' accountId'
  = Ref.entry (Fetcher.errorCounts st) exchange' accountId' /\
  Ref.entry (Fetcher.backoffTimes st') exchange' accountId'
  = Ref.entry (Fetcher.backoffTimes st) exchange' accountId' /\
  Fetcher.currentExchange (Fetcher.cachedData st')
  = Fetcher.currentExchange (Fetcher.cachedData st) /\
  Fetcher.currentAccount (Fetcher.cachedData st')
  = Fetcher.currentAccount (Fetcher.cachedData st).
Proof.
  intros Hwf Hne.
  destruct (fetch_state_cases env checked finished exchange accountId st Hwf)
    as [H | [(client & data & H) | (client & H)]]; cbv zeta; rewrite H.
  - repeat split.
  - unfold Ref.succeeded. cbn. rewrite !entry_updated_other by exact Hne.
    repeat split.
  - unfold Ref.failed. cbn. rewrite !entry_updated_other by exact Hne.
    repeat split.
    destruct (_ <=? _)%Z; [apply entry_updated_other, Hne | reflexivity].
Qed.

Lemma fetch_unknown_exchange (env : Env) (checked finished : Z)
      (exchange accountId : string) (st : Fetcher.State C) :
  Fetcher.exchangeClients st !! exchange = None ->
  Fetcher.fetchExchangeData getExchangeData env checked finished exchange accountId st
  = (inl Fetcher.TypeError, st).
Proof.
  intros Hnone. unfold Fetcher.fetchExchangeData. rewrite bind_run.
  unfold Fetcher.readTable. rewrite bind_run. cbn.
  unfold Fetcher.read. rewrite Hnone. reflexivity.
Qed.

Lemma fetch_unregistered_account (env : Env) (checked finished : Z)
      (exchange accountId : string) (st : Fetcher.State C)
      (accounts : gmap string C) :
  Fetcher.exchangeClients st !! exchange = Some accounts ->
  accounts !! accountId = None ->
  Fetcher.fetchExchangeData getExchangeData env checked finished exchange accountId st
  = (inr tt, st).
Proof.
  intros Hsome Hnone. unfold Fetcher.fetchExchangeData. rewrite bind_run.
  unfold Fetcher.readTable. rewrite bind_run. cbn.
  unfold Fetcher.read. rewrite Hsome, Hnone. reflexivity.
Qed.

End FetchFrameFacts.

(** X11.  A fetch for one key never touches another key: the client,
    the cached data, the last fetch time, the error count and the backoff
    time of every other (exchange, account) pair are as before, and so is
    the current selection. *)
Theorem fetch_leaves_other_keys :
  forall (Env C : Type) (getExchangeData : Env -> C -> option Model.ExchangeData * C)
         (env : Env) (checked finished : Z)
         (exchange accountId exchange' accountId' : string) (st : Fetcher.State C),
    Ref.hasExchange st exchange ->
    (exchange', accountId') <> (exchange, accountId) ->
    let st' :=
      snd (Fetcher.fetchExchangeData getExchangeData env checked finished
                                     exchange accountId st) in
    Ref.entry (Fetcher.exchangeClients st') exchange' accountId'
    = Ref.entry (Fetcher.exchangeClients st) exchange' accountId' /\
    Ref.entry (Fetcher.exchanges (Fetcher.cachedData st')) exchange' accountId'
    = Ref.entry (Fetcher.exchanges (Fetcher.cachedData st)) exchange' accountId' /\
    Ref.entry (Fetcher.lastFetchTimes st') exchange' accountId'
    = Ref.entry (Fetcher.lastFetchTimes st) exchange' accountId' /\
    Ref.entry (Fetcher.errorCounts st') exchange' accountId'
    = Ref.entry (Fetcher.errorCounts st) exchange' accountId' /\
    Ref.entry (Fetcher.backoffTimes st') exchange' accountId'
    = Ref.entry (Fetcher.backoffTimes st) exchange' accountId' /\
    Fetcher.currentExchange (Fetcher.cachedData st')
    = Fetcher.currentExchange (Fetcher.cachedData st) /\
    Fetcher.currentAccount (Fetcher.cachedData st')
    = Fetcher.currentAccount (Fetcher.cachedData st).
Proof. intros Env C get. exact (fetch_frame get). Qed.

Lemma fetch_leaves_other_keys_witness :
  Ref.hasExchange Clients.registeredState "bybit" /\
  ("binance", "futures") <> ("bybit", "unified") /\
  Ref.entry
    (Fetcher.exchanges
       (Fetcher.cachedData
          (snd (Fetcher.fetchExchangeData Clients.getExchangeData Samples.env
                  1000 2000 "bybit" "unified" Clients.registeredState))))
    "binance" "futures"
  = Ref.entry (Fetcher.exchanges (Fetcher.cachedData Clients.registeredState))
              "binance" "futures".
Proof.
  pose proof (registeredState_hasExchange "bybit" (or_intror eq_refl)) as Hwf.
  assert (("binance", "futures") <> ("bybit", "unified")) as Hne by discriminate.
  split; [exact Hwf|]. split; [exact Hne|].
  exact (proj1 (proj2 (fetch_leaves_other_keys
                         Clients.Env Clients.Client Clients.getExchangeData
                         Samples.env 1000%Z 2000%Z "bybit" "unified"
                         "binance" "futures" Clients.registeredState Hwf Hne))).
Defined.

(* ===================================================================== *)
(** ** The health report                                                  *)
(* ===================================================================== *)

Section HealthFacts.

Context {C : Type}.

Lemma toISOString_in_range (t : Z) :
  (Z.abs t <= 8640000000000000)%Z -> Fetcher.toISOString t = inr t.
Proof.
  intros H. unfold Fetcher.toISOString. apply Z.leb_le in H. rewrite H. reflexivity.
Qed.

Lemma accountHealth_expected (st : Fetcher.State C) (now : Z)
      (exchange accountId : string) :
  Ref.hasExchange st exchange ->
  Ref.datesInRange st exchange accountId ->
  Fetcher.accountHealth st now exchange accountId
  = inr (Ref.expectedHealth st now exchange accountId).
Proof.
  intros (_ & _ & Hl & He & Hb) [Rl Rb].
  unfold Fetcher.accountHealth, Ref.expectedHealth.
  rewrite (read_entry _ _ _ Hl), (read_entry _ _ _ Hb), (read_entry _ _ _ He).
  cbn [Fetcher.andThen].
  set (t := default 0%Z (Ref.entry (Fetcher.lastFetchTimes st) exchange accountId))
    in *.
  set (b := Ref.entry (Fetcher.backoffTimes st) exchange accountId) in *.
  rewrite (toISOString_in_range t Rl), (toISOString_in_range _ Rb).
  destruct (t =? 0)%Z; destruct (Fetcher.after b now); reflexivity.
Qed.

Lemma accountHealth_meaning (st : Fetcher.State C) (now : Z)
      (exchange accountId : string) (h : Fetcher.HealthStatus) :
  Fetcher.accountHealth st now exchange accountId = inr h ->
  (Fetcher.healthy h = true <->
   exists t, Ref.entry (Fetcher.lastFetchTimes st) exchange accountId = Some t /\
             (0 < t)%Z /\ (now - t < 300000)%Z) /\
  (Fetcher.inBackoff h = true <->
   exists b, Ref.entry (Fetcher.backoffTimes st) exchange accountId = Some b /\
             (now < b)%Z) /\
  (Fetcher.inBackoff h = true ->
   Fetcher.backoffEnds h = Ref.entry (Fetcher.backoffTimes st) exchange accountId) /\
  (Fetcher.inBackoff h = false -> Fetcher.backoffEnds h = None) /\
  (Ref.entry (Fetcher.lastFetchTimes st) exchange accountId = None ->
   Fetcher.healthy h = false /\ Fetcher.lastFetch h = None /\
   Fetcher.timeSinceLastFetch h = None) /\
  Fetcher.errorCount h
  = default 0%Z (Ref.entry (Fetcher.errorCounts st) exchange accountId).
Proof.
  unfold Fetcher.accountHealth, Fetcher.read, Ref.entry.
  destruct (Fetcher.lastFetchTimes st !! exchange) as [lf|]; [|discriminate].
  destruct (Fetcher.backoffTimes st !! exchange) as [bt|]; [|discriminate].
  cbn [Fetcher.andThen].
  set (t := default 0%Z (lf !! accountId)).
  destruct (if (t =? 0)%Z then inr None
            else Fetcher.andThen (Fetcher.toISOString t) (fun iso => inr (Some iso)))
    as [e1|text1] eqn:H1; [discriminate|]. cbn [Fetcher.andThen].
  destruct (if Fetcher.after (bt !! accountId) now
            then Fetcher.andThen (Fetcher.toISOString (default 0%Z (bt !! accountId)))
                                 (fun iso => inr (Some iso))
            else inr None)
    as [e2|text2] eqn:H2; [discriminate|]. cbn [Fetcher.andThen].
  destruct (Fetcher.errorCounts st !! exchange) as [ec|]; [|discriminate].
  cbn [Fetcher.andThen]. intros H. injection H as <-.
  cbn [Fetcher.healthy Fetcher.inBackoff Fetcher.backoffEnds Fetcher.lastFetch
       Fetcher.timeSinceLastFetch Fetcher.errorCount].
  split; [|split; [|split; [|split; [|split]]]].
  - rewrite andb_true_iff, Z.ltb_lt, Z.ltb_lt. unfold t. split.
    + intros [Hpos Hrecent]. destruct (lf !! accountId) as [t0|]; cbn in *;
        [exists t0; auto | lia].
    + intros (t0 & -> & Hpos & Hrecent). cbn. auto.
  - unfold Fetcher.after. destruct (bt !! accountId) as [b|].
    + rewrite Z.ltb_lt. split; [intros Hb; exists b; auto|].
      intros (b' & Hb' & Hlt). injection Hb' as <-. exact Hlt.
    + split; [discriminate|]. intros (b' & Hb' & _). discriminate Hb'.
  - intros Hin. rewrite Hin in H2. unfold Fetcher.toISOString in H2.
    destruct (bt !! accountId) as [b|]; [|cbn in Hin; discriminate Hin].
    simpl default in H2.
    destruct (Z.abs b <=? 8640000000000000)%Z; cbn in H2; [|discriminate H2].
    injection H2 as <-. reflexivity.
  - intros Hout. rewrite Hout in H2. injection H2 as <-. reflexivity.
  - intros Hnone. unfold t in *. rewrite Hnone in *. cbn in H1. injection H1 as <-.
    cbn. repeat split.
  - reflexivity.
Qed.

Lemma collect_keyed {K V W : Type} (g : K -> V -> Fetcher.Exception + W)
      (h : K -> W) (l : list (K * V)) :
  (forall k v, In (k, v) l -> g k v = inr (h k)) ->
  Fetcher.collect (map (fun '(k, v) => (k, g k v)) l)
  = inr (map (fun kv => (fst kv, h (fst kv))) l).
Proof.
  induction l as [|[k v] l IH]; intros Hg; cbn [map Fetcher.collect];
    [reflexivity|].
  rewrite (Hg k v) by (left; reflexivity).
  rewrite IH by (intros k' v' Hin; apply (Hg k' v'); right; exact Hin).
  reflexivity.
Qed.

Lemma lookup_keyed {V W : Type} (m : gmap string V) (h : string -> W) (k : string) :
  (list_to_map (map (fun kv => (fst kv, h (fst kv))) (map_to_list m))
   : gmap string W) !! k
  = match m !! k with Some _ => Some (h k) | None => None end.
Proof.
  set (l := map (fun kv : string * V => (fst kv, h (fst kv))) (map_to_list m)).
  assert (l.*1 = (map_to_list m).*1) as Hkeys.
  { unfold l. rewrite <- list_fmap_compose. reflexivity. }
  destruct (m !! k) as [v|] eqn:Hk.
  - apply elem_of_list_to_map_1.
    + rewrite Hkeys. apply NoDup_fst_map_to_list.
    + apply elem_of_map_to_list in Hk. unfold l.
      apply (list_elem_of_fmap_2 (fun kv : string * V => (fst kv, h (fst kv)))) in Hk.
      exact Hk.
  - apply not_elem_of_list_to_map_1. rewrite Hkeys.
    intros Hin. apply list_elem_of_fmap in Hin. destruct Hin as ([k' v] & Heq & Hin).
    cbn in Heq. subst k'. apply elem_of_map_to_list in Hin. congruence.
Qed.

Lemma health_report_entries (st : Fetcher.State C) (now : Z) :
  Ref.reportable st ->
  exists report,
    Fetcher.getHealthStatus st now = inr report /\
    forall exchange accountId,
      Ref.entry report exchange accountId
      = match Ref.entry (Fetcher.exchangeClients st) exchange accountId with
        | Some _ => Some (Ref.expectedHealth st now exchange accountId)
        | None => None
        end.
Proof.
  intros Hrep. unfold Fetcher.getHealthStatus.
  set (inner :=
         fun exchange : string =>
           list_to_map
             (map (fun kv : string * C =>
                     (fst kv, Ref.expectedHealth st now exchange (fst kv)))
                  (map_to_list
                     (default ∅ (Fetcher.exchangeClients st !! exchange))))
           : gmap string Fetcher.HealthStatus).
  rewrite (collect_keyed
             (fun exchange (accounts : gmap string C) =>
                Fetcher.andThen
                  (Fetcher.collect
                     (map (fun '(accountId, _) =>
                             (accountId,
                              Fetcher.accountHealth st now exchange accountId))
                          (map_to_list accounts)))
                  (fun entries => inr (list_to_map entries)))
             inner).
  - cbn [Fetcher.andThen]. eexists. split; [reflexivity|].
    intros exchange accountId. unfold Ref.entry at 1. rewrite lookup_keyed.
    unfold Ref.entry.
    destruct (Fetcher.exchangeClients st !! exchange) as [accounts|] eqn:Hacc;
      [|reflexivity].
    unfold inner. rewrite Hacc. cbn [default]. apply lookup_keyed.
  - intros exchange accounts Hin.
    apply list_elem_of_In, elem_of_map_to_list in Hin.
    destruct (Hrep exchange accounts Hin) as [Hwf Hdates].
    unfold inner. rewrite Hin. cbn [default].
    rewrite (collect_keyed
               (fun accountId (_ : C) =>
                  Fetcher.accountHealth st now exchange accountId)
               (Ref.expectedHealth st now exchange)).
    + reflexivity.
    + intros accountId client Hacc.
      apply list_elem_of_In, elem_of_map_to_list in Hacc.
      apply accountHealth_expected; [exact Hwf|]. apply Hdates. eauto.
Qed.

End HealthFacts.

Section HealthCompositionFacts.

Context {Env C : Type}.
Variable getExchangeData : Env -> C -> option Model.ExchangeData * C.

Lemma entry_is_Some {V : Type} (table : Fetcher.Table V)
      (exchange accountId : string) (v : V) :
  Ref.entry table exchange accountId = Some v ->
  exists inner, table !! exchange = Some inner /\ inner !! accountId = Some v.
Proof.
  unfold Ref.entry. destruct (table !! exchange) as [inner|]; [|discriminate].
  intros H. eauto.
Qed.

Lemma health_report_registered (st : Fetcher.State C) (now : Z) :
  Ref.reportable st ->
  exists report,
    Fetcher.getHealthStatus st now = inr report /\
    forall exchange accountId,
      (is_Some (Ref.entry report exchange accountId) <->
       is_Some (Ref.entry (Fetcher.exchangeClients st) exchange accountId)) /\
      (forall h, Ref.entry report exchange accountId = Some h ->
                 Fetcher.accountHealth st now exchange accountId = inr h).
Proof.
  intros Hrep. destruct (health_report_entries st now Hrep) as (report & Hrun & Hentry).
  exists report. split; [exact Hrun|]. intros exchange accountId.
  rewrite Hentry.
  destruct (Ref.entry (Fetcher.exchangeClients st) exchange accountId)
    as [client|] eqn:Hclient.
  - split; [split; eauto|]. intros h Hh. injection Hh as <-.
    destruct (entry_is_Some _ _ _ _ Hclient) as (accounts & Hacc & Hin).
    destruct (Hrep exchange accounts Hacc) as [Hwf Hdates].
    apply accountHealth_expected; [exact Hwf | apply Hdates; eauto].
  - split; [split; intros [x Hx]; discriminate Hx | discriminate].
Qed.

Lemma healthy_after_return (env : Env) (checked finished now : Z)
      (exchange accountId : string) (st : Fetcher.State C) (client client' : C)
      (data : Model.ExchangeData) :
  Ref.hasExchange st exchange ->
  Ref.entry (Fetcher.exchangeClients st) exchange accountId = Some client ->
  Fetcher.after (Ref.entry (Fetcher.backoffTimes st) exchange accountId) checked
  = false ->
  getExchangeData env client = (Some data, client') ->
  (0 < finished <= 8640000000000000)%Z ->
  (finished <= now < finished + 300000)%Z ->
  exists h,
    Fetcher.accountHealth
      (snd (Fetcher.fetchExchangeData getExchangeData env checked finished
                                      exchange accountId st))
      now exchange accountId = inr h /\
    Fetcher.healthy h = true /\ Fetcher.inBackoff h = false /\
    Fetcher.errorCount h = 0%Z /\ Fetcher.lastFetch h = Some finished /\
    Fetcher.timeSinceLastFetch h = Some ((now - finished + 500) / 1000)%Z /\
    Fetcher.backoffEnds h = None.
Proof.
  intros Hwf Hclient Hafter Hcall Hfin Hnow.
  rewrite (fetch_attempted _ _ _ _ _ _ _ client Hwf Hclient Hafter), Hcall.
  cbn [snd].
  set (st' := Ref.succeeded st exchange accountId client' data finished).
  assert (Ref.entry (Fetcher.lastFetchTimes st') exchange accountId = Some finished)
    as Hl by apply entry_updated.
  assert (Ref.entry (Fetcher.backoffTimes st') exchange accountId = Some 0%Z)
    as Hb by apply entry_updated.
  assert (Ref.entry (Fetcher.errorCounts st') exchange accountId = Some 0%Z)
    as He by apply entry_updated.
  rewrite (accountHealth_expected st' now exchange accountId).
  - eexists. split; [reflexivity|]. unfold Ref.expectedHealth.
    rewrite Hl, Hb, He. cbn [from_option id Fetcher.healthy Fetcher.inBackoff
                              Fetcher.errorCount Fetcher.lastFetch
                              Fetcher.timeSinceLastFetch Fetcher.backoffEnds
                              Fetcher.after].
    assert ((0 <? finished)%Z = true) as -> by (apply Z.ltb_lt; lia).
    assert ((now - finished <? 300000)%Z = true) as -> by (apply Z.ltb_lt; lia).
    assert ((finished =? 0)%Z = false) as -> by (apply Z.eqb_neq; lia).
    assert ((now <? 0)%Z = false) as -> by (apply Z.ltb_ge; lia).
    repeat split.
  - apply succeeded_hasExchange, Hwf.
  - unfold Ref.datesInRange. rewrite Hl, Hb. cbn [from_option id]. lia.
Qed.

Lemma backoff_respected (env env' : Env) (checked finished now later : Z)
      (exchange accountId : string) (st : Fetcher.State C) (client client' : C) :
  Ref.hasExchange st exchange ->
  Ref.entry (Fetcher.exchangeClients st) exchange accountId = Some client ->
  Fetcher.after (Ref.entry (Fetcher.backoffTimes st) exchange accountId) checked
  = false ->
  getExchangeData env client = (None, client') ->
  let count :=
    (default 0 (Ref.entry (Fetcher.errorCounts st) exchange accountId) + 1)%Z in
  let st' :=
    snd (Fetcher.fetchExchangeData getExchangeData env checked finished
                                   exchange accountId st) in
  let ends := (finished + Fetcher.backoffTime count)%Z in
  (5 <= count)%Z ->
  (now < ends)%Z ->
  Ref.datesInRange st' exchange accountId ->
  (exists h,
      Fetcher.accountHealth st' now exchange accountId = inr h /\
      Fetcher.inBackoff h = true /\ Fetcher.backoffEnds h = Some ends /\
      Fetcher.errorCount h = count) /\
  Fetcher.fetchExchangeData getExchangeData env' now later exchange accountId st'
  = (inr tt, st').
Proof.
  intros Hwf Hclient Hafter Hcall count st' ends H5 Hnow Hdates.
  assert (st' = Ref.failed st exchange accountId client' finished) as Hst.
  { unfold st'. rewrite (fetch_attempted _ _ _ _ _ _ _ client Hwf Hclient Hafter),
                  Hcall. reflexivity. }
  clearbody st'. subst st'.
  set (st' := Ref.failed st exchange accountId client' finished) in *.
  assert (Ref.hasExchange st' exchange) as Hwf' by apply failed_hasExchange, Hwf.
  assert (Ref.entry (Fetcher.errorCounts st') exchange accountId = Some count)
    as He by apply entry_updated.
  assert (Ref.entry (Fetcher.backoffTimes st') exchange accountId = Some ends)
    as Hb.
  { unfold st', Ref.failed. cbn. fold count.
    unfold Fetcher.MAX_CONSECUTIVE_ERRORS. apply Z.leb_le in H5. rewrite H5.
    apply entry_updated. }
  assert (Fetcher.after (Ref.entry (Fetcher.backoffTimes st') exchange accountId) now
          = true) as Hin.
  { rewrite Hb. cbn. apply Z.ltb_lt. exact Hnow. }
  split.
  - rewrite (accountHealth_expected st' now exchange accountId Hwf' Hdates).
    eexists. split; [reflexivity|]. unfold Ref.expectedHealth.
    cbn [Fetcher.inBackoff Fetcher.backoffEnds Fetcher.errorCount].
    rewrite Hin, Hb, He. repeat split.
  - apply (fetch_skipped getExchangeData env' now later exchange accountId st' client');
      [exact Hwf' | apply entry_updated | exact Hin].
Qed.

End HealthCompositionFacts.

Lemma emptyTable_binance {V : Type} (accountId : string) :
  Ref.entry (@Fetcher.emptyTable V) "binance" accountId = None.
Proof.
  unfold Ref.entry, Fetcher.emptyTable. rewrite lookup_insert_eq.
  apply lookup_empty.
Qed.

Lemma emptyTable_bybit {V : Type} (accountId : string) :
  Ref.entry (@Fetcher.emptyTable V) "bybit" accountId = None.
Proof.
  unfold Ref.entry, Fetcher.emptyTable.
  rewrite lookup_insert_ne by discriminate. rewrite lookup_insert_eq.
  apply lookup_empty.
Qed.

Lemma registered_exchanges (exchange : string) (accounts : gmap string Clients.Client) :
  Fetcher.exchangeClients Clients.registeredState !! exchange = Some accounts ->
  exchange = "binance" \/ exchange = "bybit".
Proof.
  unfold Clients.registeredState. cbn [Fetcher.exchangeClients
                                        Fetcher.with_exchangeClients].
  destruct (decide (exchange = "binance")) as [->|Hb]; [left; reflexivity|].
  destruct (decide (exchange = "bybit")) as [->|Hy]; [right; reflexivity|].
  rewrite lookup_insert_ne by congruence. rewrite lookup_insert_ne by congruence.
  rewrite lookup_empty. discriminate.
Qed.

Lemma registeredState_reportable : Ref.reportable Clients.registeredState.
Proof.
  intros exchange accounts Hacc.
  pose proof (registered_exchanges exchange accounts Hacc) as Hex.
  split; [apply registeredState_hasExchange, Hex|].
  intros accountId _. unfold Ref.datesInRange.
  change (Fetcher.lastFetchTimes Clients.registeredState)
    with (@Fetcher.emptyTable Z).
  change (Fetcher.backoffTimes Clients.registeredState)
    with (@Fetcher.emptyTable Z).
  destruct Hex as [-> | ->]; rewrite ?emptyTable_binance, ?emptyTable_bybit;
    cbn; lia.
Qed.

(** X13.  When every exchange with registered clients has its tables and
    the instants kept lie in the range of [Date], [getHealthStatus]
    returns a report with an entry for exactly the registered
    (exchange, account) keys, each being the health of that key. *)
Theorem health_report_covers_registered_keys :
  forall (C : Type) (st : Fetcher.State C) (now : Z),
    Ref.reportable st ->
    exists report,
      Fetcher.getHealthStatus st now = inr report /\
      forall exchange accountId,
        (is_Some (Ref.entry report exchange accountId) <->
         is_Some (Ref.entry (Fetcher.exchangeClients st) exchange accountId)) /\
        (forall h, Ref.entry report exchange accountId = Some h ->
                   Fetcher.accountHealth st now exchange accountId = inr h).
Proof. intros C. exact health_report_registered. Qed.

Lemma health_report_covers_registered_keys_witness :
  Ref.reportable Clients.registeredState /\
  exists report,
    Fetcher.getHealthStatus Clients.registeredState 1000 = inr report /\
    forall exchange accountId,
      (is_Some (Ref.entry report exchange accountId) <->
       is_Some (Ref.entry (Fetcher.exchangeClients Clients.registeredState)
                          exchange accountId)) /\
      (forall h, Ref.entry report exchange accountId = Some h ->
                 Fetcher.accountHealth Clients.registeredState 1000
                                       exchange accountId = inr h).
Proof.
  split; [exact registeredState_reportable|].
  exact (health_report_covers_registered_keys Clients.Client Clients.registeredState
           1000%Z registeredState_reportable).
Defined.

(** X14.  An entry of the health report is healthy exactly when the key
    has a last fetch time that is positive and less than 300000 ms old;
    it is in backoff exactly when the key has a backoff time later than
    now, and then [backoffEnds] is that time; a key never fetched is
    unhealthy with no last fetch; the error count is the stored one, 0
    when unset. *)
Theorem health_entry_meaning :
  forall (C : Type) (st : Fetcher.State C) (now : Z)
         (exchange accountId : string) (h : Fetcher.HealthStatus),
    Fetcher.accountHealth st now exchange accountId = inr h ->
    (Fetcher.healthy h = true <->
     exists t, Ref.entry (Fetcher.lastFetchTimes st) exchange accountId = Some t /\
               (0 < t)%Z /\ (now - t < 300000)%Z) /\
    (Fetcher.inBackoff h = true <->
     exists b, Ref.entry (Fetcher.backoffTimes st) exchange accountId = Some b /\
               (now < b)%Z) /\
    (Fetcher.inBackoff h = true ->
     Fetcher.backoffEnds h
     = Ref.entry (Fetcher.backoffTimes st) exchange accountId) /\
    (Fetcher.inBackoff h = false -> Fetcher.backoffEnds h = None) /\
    (Ref.entry (Fetcher.lastFetchTimes st) exchange accountId = None ->
     Fetcher.healthy h = false /\ Fetcher.lastFetch h = None /\
     Fetcher.timeSinceLastFetch h = None) /\
    Fetcher.errorCount h
    = default 0%Z (Ref.entry (Fetcher.errorCounts st) exchange accountId).
Proof. intros C. exact accountHealth_meaning. Qed.

Lemma health_entry_meaning_witness :
  exists h,
    Fetcher.accountHealth Clients.registeredState 1000 "bybit" "unified" = inr h /\
    Fetcher.errorCount h
    = default 0%Z (Ref.entry (Fetcher.errorCounts Clients.registeredState)
                             "bybit" "unified").
Proof.
  eexists. split; [reflexivity|].
  exact (proj2 (proj2 (proj2 (proj2 (proj2
           (health_entry_meaning Clients.Client Clients.registeredState 1000%Z
              "bybit" "unified" _ eq_refl)))))).
Defined.

(** X15.  After a fetch whose client call returned at instant
    [finished], the health of the key, asked less than 300000 ms later,
    is healthy, not in backoff, with error count 0 and last fetch
    [finished]. *)
Theorem healthy_after_successful_fetch :
  forall (Env C : Type) (getExchangeData : Env -> C -> option Model.ExchangeData * C)
         (env : Env) (checked finished now : Z) (exchange accountId : string)
         (st : Fetcher.State C) (client client' : C) (data : Model.ExchangeData),
    Ref.hasExchange st exchange ->
    Ref.entry (Fetcher.exchangeClients st) exchange accountId = Some client ->
    Fetcher.after (Ref.entry (Fetcher.backoffTimes st) exchange accountId) checked
    = false ->
    getExchangeData env client = (Some data, client') ->
    (0 < finished <= 8640000000000000)%Z ->
    (finished <= now < finished + 300000)%Z ->
    exists h,
      Fetcher.accountHealth
        (snd (Fetcher.fetchExchangeData getExchangeData env checked finished
                                        exchange accountId st))
        now exchange accountId = inr h /\
      Fetcher.healthy h = true /\ Fetcher.inBackoff h = false /\
      Fetcher.errorCount h = 0%Z /\ Fetcher.lastFetch h = Some finished /\
      Fetcher.timeSinceLastFetch h = Some ((now - finished + 500) / 1000)%Z /\
      Fetcher.backoffEnds h = None.
Proof. intros Env C get. exact (healthy_after_return get). Qed.

(** X16.  After a rejected fetch that brings the error count to 5 or
    more, the health of the key asked before the backoff ends reports
    the backoff, its end and the error count, and a fetch attempted
    before that end is skipped: it returns without changing the state. *)
Theorem backoff_reported_and_respected :
  forall (Env C : Type) (getExchangeData : Env -> C -> option Model.ExchangeData * C)
         (env env' : Env) (checked finished now later : Z)
         (exchange accountId : string) (st : Fetcher.State C) (client client' : C),
    Ref.hasExchange st exchange ->
    Ref.entry (Fetcher.exchangeClients st) exchange accountId = Some client ->
    Fetcher.after (Ref.entry (Fetcher.backoffTimes st) exchange accountId) checked
    = false ->
    getExchangeData env client = (None, client') ->
    let count :=
      (default 0 (Ref.entry (Fetcher.errorCounts st) exchange accountId) + 1)%Z in
    let st' :=
      snd (Fetcher.fetchExchangeData getExchangeData env checked finished
                                     exchange accountId st) in
    let ends := (finished + Fetcher.backoffTime count)%Z in
    (5 <= count)%Z ->
    (now < ends)%Z ->
    Ref.datesInRange st' exchange accountId ->
    (exists h,
        Fetcher.accountHealth st' now exchange accountId = inr h /\
        Fetcher.inBackoff h = true /\ Fetcher.backoffEnds h = Some ends /\
        Fetcher.errorCount h = count) /\
    Fetcher.fetchExchangeData getExchangeData env' now later exchange accountId st'
    = (inr tt, st').
Proof. intros Env C get. exact (backoff_respected get). Qed.

Lemma healthy_after_successful_fetch_witness :
  exists h,
    Fetcher.accountHealth
      (snd (Fetcher.fetchExchangeData Clients.getExchangeData Samples.env
                                      1000 2000 "bybit" "unified"
                                      Clients.registeredState))
      3000 "bybit" "unified" = inr h /\
    Fetcher.healthy h = true /\ Fetcher.inBackoff h = false /\
    Fetcher.errorCount h = 0%Z /\ Fetcher.lastFetch h = Some 2000%Z /\
    Fetcher.timeSinceLastFetch h = Some ((3000 - 2000 + 500) / 1000)%Z /\
    Fetcher.backoffEnds h = None.
Proof.
  refine (healthy_after_successful_fetch
            Clients.Env Clients.Client Clients.getExchangeData Samples.env
            1000%Z 2000%Z 3000%Z "bybit" "unified" Clients.registeredState
            (Clients.BybitClient Bybit.new)
            (snd (Clients.getExchangeData Samples.env
                    (Clients.BybitClient Bybit.new)))
            (default Bybit.initialData
               (fst (Clients.getExchangeData Samples.env
                       (Clients.BybitClient Bybit.new))))
            (registeredState_hasExchange "bybit" (or_intror eq_refl))
            eq_refl eq_refl _ _ _).
  - vm_compute. reflexivity.
  - lia.
  - lia.
Defined.

Lemma backoff_reported_and_respected_witness :
  let st :=
    snd (Fetcher.fetchRepeatedly Ref.rejecting "binance" "futures"
           (Samples.callsEvery 4 10000000) Samples.rejectingState) in
  let st' :=
    snd (Fetcher.fetchExchangeData Ref.rejecting tt 50000000 50000000
                                   "binance" "futures" st) in
  (exists h,
      Fetcher.accountHealth st' 50030000 "binance" "futures" = inr h /\
      Fetcher.inBackoff h = true /\
      Fetcher.backoffEnds h = Some 50060000%Z /\
      Fetcher.errorCount h = 5%Z) /\
  Fetcher.fetchExchangeData Ref.rejecting tt 50030000 50030000
                            "binance" "futures" st'
  = (inr tt, st').
Proof.
  intros st st'.
  assert (Ref.hasExchange st "binance") as Hwf.
  { repeat split; vm_compute; eauto. }
  assert (Ref.datesInRange st' "binance" "futures") as Hdates.
  { split; vm_compute; discriminate. }
  exact (backoff_reported_and_respected
           unit unit Ref.rejecting tt tt 50000000%Z 50000000%Z 50030000%Z
           50030000%Z "binance" "futures" st tt tt Hwf eq_refl eq_refl eq_refl
           ltac:(vm_compute; discriminate) ltac:(vm_compute; reflexivity) Hdates).
Defined.

(* ===================================================================== *)
(** ** Start of the service                                               *)
(* ===================================================================== *)

Section StartupFacts.

Lemma initialize_run (i : Startup.Initializations) :
  Startup.initializeExchangeClients i Fetcher.initialState
  = match Startup.binanceFutures i with
    | inl e => (inl e, Fetcher.initialState)
    | inr _ =>
        let st1 :=
          Fetcher.with_exchangeClients Fetcher.initialState
            (Ref.updated Fetcher.emptyTable "binance" "futures"
               (Clients.BinanceClient (Binance.new Binance.FUTURES))) in
        match Startup.binancePortfolioMargin i with
        | inl e => (inl e, st1)
        | inr _ =>
            let st2 :=
              Fetcher.with_exchangeClients st1
                (Ref.updated (Fetcher.exchangeClients st1)
                   "binance" "portfolioMargin"
                   (Clients.BinanceClient (Binance.new Binance.PORTFOLIO_MARGIN))) in
            match Startup.bybitUnified i with
            | inl e => (inl e, st2)
            | inr _ => (inr tt, Clients.registeredState)
            end
        end
    end.
Proof.
  unfold Startup.initializeExchangeClients, Fetcher.try_catch.
  rewrite bind_run. unfold Fetcher.lift at 1.
  destruct (Startup.binanceFutures i) as [e|[]]; [reflexivity|].
  rewrite bind_run, writeTable_run by (eexists; reflexivity).
  rewrite bind_run. unfold Fetcher.lift at 1.
  destruct (Startup.binancePortfolioMargin i) as [e|[]]; [reflexivity|].
  rewrite bind_run, writeTable_run by (eexists; reflexivity).
  rewrite bind_run. unfold Fetcher.lift at 1.
  destruct (Startup.bybitUnified i) as [e|[]]; [reflexivity|].
  rewrite writeTable_run by (eexists; reflexivity).
  reflexivity.
Qed.

End StartupFacts.

Section StartupRunFacts.

Lemma succeeded_hasExchange_any {C : Type} (st : Fetcher.State C)
      (exchange accountId exchange' : string) (client : C)
      (data : Model.ExchangeData) (finished : Z) :
  Ref.hasExchange st exchange' ->
  Ref.hasExchange (Ref.succeeded st exchange accountId client data finished)
                  exchange'.
Proof.
  intros (Hc & Hx & Hl & He & Hb). unfold Ref.hasExchange, Ref.succeeded. cbn.
  repeat split; eauto using updated_is_Some.
Qed.

Lemma client_fetch (env : Clients.Env) (checked finished : Z)
      (exchange accountId : string) (st : Fetcher.State Clients.Client)
      (client : Clients.Client) :
  Ref.hasExchange st exchange ->
  Ref.entry (Fetcher.exchangeClients st) exchange accountId = Some client ->
  Ref.entry (Fetcher.backoffTimes st) exchange accountId = None ->
  exists data client',
    Clients.getExchangeData env client = (Some data, client') /\
    Fetcher.fetchExchangeData Clients.getExchangeData env checked finished
                              exchange accountId st
    = (inr tt, Ref.succeeded st exchange accountId client' data finished).
Proof.
  intros Hwf Hclient Hback.
  assert (Fetcher.after
            (Ref.entry (Fetcher.backoffTimes st) exchange accountId) checked
          = false) as Hafter by (rewrite Hback; reflexivity).
  rewrite (fetch_attempted Clients.getExchangeData env checked finished
             exchange accountId st client Hwf Hclient Hafter).
  pose proof (clients_never_reject env client) as Hret.
  destruct (Clients.getExchangeData env client) as [[data|] client'];
    [|exfalso; apply Hret; reflexivity].
  exists data, client'. split; reflexivity.
Qed.

(** The state after a start in which every client initialized. *)
Lemma startup_state (i : Startup.Initializations)
      (envF envP envU : Clients.Env) (cF fF cP fP cU fU : Z) :
  Ref.firstFailure i = None ->
  exists dF dP dU clF clP clU,
    Clients.getExchangeData envF
      (Clients.BinanceClient (Binance.new Binance.FUTURES)) = (Some dF, clF) /\
    Clients.getExchangeData envP
      (Clients.BinanceClient (Binance.new Binance.PORTFOLIO_MARGIN))
    = (Some dP, clP) /\
    Clients.getExchangeData envU (Clients.BybitClient Bybit.new) = (Some dU, clU) /\
    Startup.startDataFetcher i (envF, cF, fF) (envP, cP, fP) (envU, cU, fU)
    = (inr tt,
       Ref.succeeded
         (Ref.succeeded
            (Ref.succeeded Clients.registeredState "binance" "futures" clF dF fF)
            "binance" "portfolioMargin" clP dP fP)
         "bybit" "unified" clU dU fU).
Proof.
  intros Hnone. unfold Startup.startDataFetcher.
  rewrite bind_run, initialize_run. unfold Ref.firstFailure in Hnone.
  destruct (Startup.binanceFutures i) as [e|[]]; [discriminate|].
  destruct (Startup.binancePortfolioMargin i) as [e|[]]; [discriminate|].
  destruct (Startup.bybitUnified i) as [e|[]]; [discriminate|].
  cbv zeta.
  pose proof (registeredState_hasExchange "binance" (or_introl eq_refl)) as Hb.
  pose proof (registeredState_hasExchange "bybit" (or_intror eq_refl)) as Hy.
  destruct (client_fetch envF cF fF "binance" "futures" Clients.registeredState
              _ Hb eq_refl eq_refl) as (dF & clF & HcF & HrunF).
  set (st1 := Ref.succeeded Clients.registeredState "binance" "futures" clF dF fF)
    in *.
  assert (Ref.hasExchange st1 "binance") as Hb1
      by apply succeeded_hasExchange_any, Hb.
  assert (Ref.hasExchange st1 "bybit") as Hy1
      by apply succeeded_hasExchange_any, Hy.
  destruct (client_fetch envP cP fP "binance" "portfolioMargin" st1
              (Clients.BinanceClient (Binance.new Binance.PORTFOLIO_MARGIN)) Hb1)
    as (dP & clP & HcP & HrunP).
  { unfold st1, Ref.succeeded. cbn [Fetcher.exchangeClients].
    rewrite entry_updated_other by discriminate. reflexivity. }
  { unfold st1, Ref.succeeded. cbn [Fetcher.backoffTimes].
    rewrite entry_updated_other by discriminate. reflexivity. }
  set (st2 := Ref.succeeded st1 "binance" "portfolioMargin" clP dP fP) in *.
  assert (Ref.hasExchange st2 "bybit") as Hy2
      by apply succeeded_hasExchange_any, Hy1.
  destruct (client_fetch envU cU fU "bybit" "unified" st2
              (Clients.BybitClient Bybit.new) Hy2)
    as (dU & clU & HcU & HrunU).
  { unfold st2, st1, Ref.succeeded. cbn [Fetcher.exchangeClients].
    rewrite !entry_updated_other by discriminate. reflexivity. }
  { unfold st2, st1, Ref.succeeded. cbn [Fetcher.backoffTimes].
    rewrite !entry_updated_other by discriminate. reflexivity. }
  exists dF, dP, dU, clF, clP, clU.
  split; [exact HcF|]. split; [exact HcP|]. split; [exact HcU|].
  rewrite bind_run, HrunF. rewrite bind_run, HrunP. exact HrunU.
Qed.

Lemma startup_failure (i : Startup.Initializations)
      (futures portfolio unified : Startup.Call) (e : Fetcher.Exception) :
  Ref.firstFailure i = Some e ->
  exists st',
    Startup.startDataFetcher i futures portfolio unified = (inl e, st') /\
    Fetcher.cachedData st' = Fetcher.initialCachedData /\
    Fetcher.lastFetchTimes st' = Fetcher.emptyTable /\
    Fetcher.errorCounts st' = Fetcher.emptyTable /\
    Fetcher.backoffTimes st' = Fetcher.emptyTable /\
    Ref.entry (Fetcher.exchangeClients st') "bybit" "unified" = None /\
    (is_Some (Ref.entry (Fetcher.exchangeClients st') "binance" "futures") <->
     Startup.binanceFutures i = inr tt) /\
    (is_Some (Ref.entry (Fetcher.exchangeClients st') "binance" "portfolioMargin")
     <-> Startup.binanceFutures i = inr tt /\
         Startup.binancePortfolioMargin i = inr tt).
Proof.
  intros Hfail. unfold Startup.startDataFetcher.
  rewrite bind_run, initialize_run. unfold Ref.firstFailure in Hfail.
  destruct (Startup.binanceFutures i) as [e1|[]];
    [|destruct (Startup.binancePortfolioMargin i) as [e2|[]];
      [|destruct (Startup.bybitUnified i) as [e3|[]]; [|discriminate]]];
    injection Hfail as ->; (eexists; split; [reflexivity|]);
    repeat split;
    first [ reflexivity
          | eexists; reflexivity
          | match goal with
            | H : is_Some _ |- _ =>
                destruct H as [x Hx]; vm_compute in Hx; discriminate Hx
            end
          | intros [x Hx]; discriminate Hx
          | intros [x Hx]; vm_compute in Hx; discriminate Hx
          | discriminate
          | intros [H1 H2]; first [discriminate H1 | discriminate H2] ].
Qed.

End StartupRunFacts.

(* ===================================================================== *)
(** ** Routes on the cached data                                          *)
(* ===================================================================== *)

Section RouteFacts.

Context {C : Type}.

Lemma missing_false (field : option string) :
  Routes.missing field = false ->
  exists s, field = Some s /\ s <> "".
Proof.
  destruct field as [s|]; [|discriminate]. cbn. unfold Routes.empty.
  intros H. exists s. split; [reflexivity|]. intros ->. discriminate H.
Qed.

Lemma missing_named (s : string) : s <> "" -> Routes.missing (Some s) = false.
Proof.
  intros H. cbn. unfold Routes.empty. destruct (String.eqb_spec s ""); congruence.
Qed.

Lemma route_setCurrent_state (exchange account : option string)
      (st : Fetcher.State C) :
  let st' := snd (Routes.setCurrent exchange account st) in
  st' = st \/
  exists e a,
    Ref.validSelection (Fetcher.cachedData st) e a /\
    st' = Fetcher.with_cachedData st
            {| Fetcher.exchanges := Fetcher.exchanges (Fetcher.cachedData st);
               Fetcher.currentExchange := e;
               Fetcher.currentAccount := a;
               Fetcher.availableExchanges :=
                 Fetcher.availableExchanges (Fetcher.cachedData st);
               Fetcher.availableAccounts :=
                 Fetcher.availableAccounts (Fetcher.cachedData st) |}.
Proof.
  cbv zeta. unfold Routes.setCurrent.
  destruct (Routes.missing exchange || Routes.missing account)%bool;
    [left; reflexivity|].
  set (e := default "" exchange). set (a := default "" account).
  rewrite bind_run.
  pose proof (setCurrent_returns_valid st e a) as Hvalid.
  destruct (setCurrent_cases st e a) as [Hrun | [err Hrun]].
  - rewrite Hrun in *. right. exists e, a. split; [apply Hvalid; reflexivity|].
    reflexivity.
  - rewrite Hrun. left. reflexivity.
Qed.

Lemma ready_kept (exchange account : option string) (st : Fetcher.State C) :
  Ref.ready (Fetcher.cachedData st) ->
  Ref.ready (Fetcher.cachedData (snd (Routes.setCurrent exchange account st))).
Proof.
  intros Hready.
  destruct (route_setCurrent_state exchange account st)
    as [-> | (e & a & Hvalid & ->)]; [exact Hready|].
  destruct Hready as (Hlisted & Hcurrent & Hall).
  split; [exact Hlisted|]. split; [exact Hvalid | exact Hall].
Qed.

Lemma ready_selections (requests : list (option string * option string))
      (st : Fetcher.State C) :
  Ref.ready (Fetcher.cachedData st) ->
  Ref.ready (Fetcher.cachedData (Ref.selections requests st)).
Proof.
  revert st. induction requests as [|[exchange account] rest IH]; intros st Hready.
  - exact Hready.
  - apply IH, ready_kept, Hready.
Qed.

Lemma ready_served (st : Fetcher.State C) :
  Ref.ready (Fetcher.cachedData st) ->
  exists data,
    Routes.cached (Fetcher.cachedData st)
                  (Fetcher.currentExchange (Fetcher.cachedData st))
                  (Fetcher.currentAccount (Fetcher.cachedData st)) = Some data /\
    Routes.positions st = Routes.json (Routes.PositionsBody (Model.positions data)) /\
    Routes.accountSummary st
    = Routes.json (Routes.SummaryBody (Model.accountSummary data)).
Proof.
  intros (_ & Hcurrent & Hall).
  destruct (Hall _ _ Hcurrent) as (He & Ha & [data Hdata]).
  exists data. split; [exact Hdata|].
  unfold Routes.positions, Routes.accountSummary, Routes.getCachedData. cbv zeta.
  rewrite Hdata. unfold Routes.empty.
  destruct (String.eqb_spec (Fetcher.currentExchange (Fetcher.cachedData st)) "");
    [contradiction|].
  destruct (String.eqb_spec (Fetcher.currentAccount (Fetcher.cachedData st)) "");
    [contradiction|].
  split; reflexivity.
Qed.

Lemma selected_positions (st : Fetcher.State C) (e a : string) :
  Ref.accountsListed (Fetcher.cachedData st) ->
  e <> "" -> a <> "" ->
  (Ref.validSelection (Fetcher.cachedData st) e a ->
   exists st',
     Routes.setCurrent (Some e) (Some a) st
     = (inr (Routes.json (Routes.SelectedBody e a)), st') /\
     Routes.positions st'
     = match Routes.cached (Fetcher.cachedData st) e a with
       | Some data => Routes.json (Routes.PositionsBody (Model.positions data))
       | None =>
           Routes.statusJson 404
             (Routes.ErrorBody "No data available for selected exchange and account")
       end /\
     Routes.accountSummary st'
     = match Routes.cached (Fetcher.cachedData st) e a with
       | Some data => Routes.json (Routes.SummaryBody (Model.accountSummary data))
       | None =>
           Routes.statusJson 404
             (Routes.ErrorBody "No data available for selected exchange and account")
       end) /\
  (~ Ref.validSelection (Fetcher.cachedData st) e a ->
   Routes.setCurrent (Some e) (Some a) st
   = (inl (Fetcher.Error ("Invalid exchange or account: " ++ e ++ "/" ++ a)), st)).
Proof.
  intros Hlisted He Ha. unfold Routes.setCurrent.
  rewrite (missing_named e He), (missing_named a Ha). cbn [orb from_option id].
  split.
  - intros Hvalid. rewrite bind_run, (setCurrent_valid st e a Hvalid).
    eexists. split; [reflexivity|].
    unfold Routes.positions, Routes.accountSummary, Routes.getCachedData.
    cbn [Fetcher.cachedData Fetcher.with_cachedData Fetcher.currentExchange
         Fetcher.currentAccount].
    unfold Routes.empty.
    destruct (String.eqb_spec e ""); [contradiction|].
    destruct (String.eqb_spec a ""); [contradiction|].
    split; reflexivity.
  - intros Hinvalid. rewrite bind_run, (setCurrent_invalid st e a Hlisted Hinvalid).
    reflexivity.
Qed.

End RouteFacts.

Lemma configured_keys (d : Fetcher.CombinedData) (e a : string) :
  Fetcher.availableExchanges d
  = Fetcher.availableExchanges Fetcher.initialCachedData ->
  Fetcher.availableAccounts d
  = Fetcher.availableAccounts Fetcher.initialCachedData ->
  Ref.validSelection d e a ->
  (e = "binance" /\ (a = "futures" \/ a = "portfolioMargin")) \/
  (e = "bybit" /\ a = "unified").
Proof.
  intros Hex Hacc (Hin & accounts & Hlookup & Hacc_in).
  rewrite Hex in Hin. rewrite Hacc in Hlookup.
  apply includes_elem_of in Hin. apply includes_elem_of in Hacc_in.
  cbn in Hin. revert Hin.
  destruct (String.eqb_spec e "binance") as [->|_].
  - intros _. vm_compute in Hlookup. injection Hlookup as <-.
    cbn in Hacc_in. revert Hacc_in.
    destruct (String.eqb_spec a "futures") as [->|_]; [intros _; left; eauto|].
    destruct (String.eqb_spec a "portfolioMargin") as [->|_];
      [intros _; left; eauto | discriminate].
  - destruct (String.eqb_spec e "bybit") as [->|_]; [|discriminate].
    intros _. vm_compute in Hlookup. injection Hlookup as <-.
    cbn in Hacc_in. revert Hacc_in.
    destruct (String.eqb_spec a "unified") as [->|_];
      [intros _; right; eauto | discriminate].
Qed.

Lemma startup_ready (i : Startup.Initializations)
      (futures portfolio unified : Startup.Call) :
  Ref.firstFailure i = None ->
  Ref.ready
    (Fetcher.cachedData (snd (Startup.startDataFetcher i futures portfolio unified))).
Proof.
  intros Hnone.
  destruct futures as [[envF cF] fF], portfolio as [[envP cP] fP],
           unified as [[envU cU] fU].
  destruct (startup_state i envF envP envU cF fF cP fP cU fU Hnone)
    as (dF & dP & dU & clF & clP & clU & _ & _ & _ & ->).
  cbn [snd]. split; [exact (initial_accountsListed Clients.Client)|].
  split.
  - split; [apply includes_elem_of; reflexivity|].
    eexists. split; [reflexivity | apply includes_elem_of; reflexivity].
  - intros e a Hvalid.
    apply configured_keys in Hvalid; [|reflexivity|reflexivity].
    change (Routes.cached ?d e a) with (Ref.entry (Fetcher.exchanges d) e a).
    unfold Ref.succeeded.
    cbn [Fetcher.cachedData Fetcher.exchanges Fetcher.with_exchanges].
    destruct Hvalid as [[-> [-> | ->]] | [-> ->]];
      (split; [discriminate|]); (split; [discriminate|]).
    + rewrite !entry_updated_other by discriminate. rewrite entry_updated. eauto.
    + rewrite entry_updated_other by discriminate. rewrite entry_updated. eauto.
    + rewrite entry_updated. eauto.
Qed.

(** X17.  When the [initialize()] of one client fails, [startDataFetcher]
    rejects with the error of the first failure and fetches nothing: the
    cached data, the last fetch times, the error counts and the backoff
    times are those of the freshly loaded module.  The clients
    initialized before the failure stay registered, the Bybit client is
    not. *)
Theorem startup_failure_rethrown_before_fetch :
  forall (i : Startup.Initializations)
         (futures portfolio unified : Startup.Call) (e : Fetcher.Exception),
    Ref.firstFailure i = Some e ->
    exists st',
      Startup.startDataFetcher i futures portfolio unified = (inl e, st') /\
      Fetcher.cachedData st' = Fetcher.initialCachedData /\
      Fetcher.lastFetchTimes st' = Fetcher.emptyTable /\
      Fetcher.errorCounts st' = Fetcher.emptyTable /\
      Fetcher.backoffTimes st' = Fetcher.emptyTable /\
      Ref.entry (Fetcher.exchangeClients st') "bybit" "unified" = None /\
      (is_Some (Ref.entry (Fetcher.exchangeClients st') "binance" "futures") <->
       Startup.binanceFutures i = inr tt) /\
      (is_Some (Ref.entry (Fetcher.exchangeClients st') "binance" "portfolioMargin")
       <-> Startup.binanceFutures i = inr tt /\
           Startup.binancePortfolioMargin i = inr tt).
Proof. exact startup_failure. Qed.

Lemma startup_failure_rethrown_before_fetch_witness :
  let i := {| Startup.binanceFutures := inr tt;
              Startup.binancePortfolioMargin := inl (Fetcher.Error "401");
              Startup.bybitUnified := inr tt |} in
  let call := (Samples.env, 1000%Z, 2000%Z) in
  exists st',
    Startup.startDataFetcher i call call call = (inl (Fetcher.Error "401"), st') /\
    Fetcher.cachedData st' = Fetcher.initialCachedData /\
    is_Some (Ref.entry (Fetcher.exchangeClients st') "binance" "futures").
Proof.
  intros i call.
  destruct (startup_failure_rethrown_before_fetch i call call call
              (Fetcher.Error "401") eq_refl)
    as (st' & Hrun & Hcache & _ & _ & _ & _ & Hfutures & _).
  exists st'. split; [exact Hrun|]. split; [exact Hcache|].
  apply Hfutures. reflexivity.
Defined.

(** X18.  When every client initializes, [startDataFetcher] returns
    after one fetch of each of the three accounts: the cache holds what
    each client's [getExchangeData] returned, the last fetch time of each
    key is the instant its fetch finished, every error count is 0, and
    every available selection has cached data. *)
Theorem startup_fills_cache :
  forall (i : Startup.Initializations) (envF envP envU : Clients.Env)
         (cF fF cP fP cU fU : Z),
    Ref.firstFailure i = None ->
    exists st' dF dP dU,
      Startup.startDataFetcher i (envF, cF, fF) (envP, cP, fP) (envU, cU, fU)
      = (inr tt, st') /\
      fst (Clients.getExchangeData envF
             (Clients.BinanceClient (Binance.new Binance.FUTURES))) = Some dF /\
      fst (Clients.getExchangeData envP
             (Clients.BinanceClient (Binance.new Binance.PORTFOLIO_MARGIN)))
      = Some dP /\
      fst (Clients.getExchangeData envU (Clients.BybitClient Bybit.new)) = Some dU /\
      Ref.entry (Fetcher.exchanges (Fetcher.cachedData st')) "binance" "futures"
      = Some dF /\
      Ref.entry (Fetcher.exchanges (Fetcher.cachedData st'))
                "binance" "portfolioMargin" = Some dP /\
      Ref.entry (Fetcher.exchanges (Fetcher.cachedData st')) "bybit" "unified"
      = Some dU /\
      Ref.entry (Fetcher.lastFetchTimes st') "binance" "futures" = Some fF /\
      Ref.entry (Fetcher.lastFetchTimes st') "binance" "portfolioMargin" = Some fP /\
      Ref.entry (Fetcher.lastFetchTimes st') "bybit" "unified" = Some fU /\
      Ref.entry (Fetcher.errorCounts st') "binance" "futures" = Some 0%Z /\
      Ref.entry (Fetcher.errorCounts st') "binance" "portfolioMargin" = Some 0%Z /\
      Ref.entry (Fetcher.errorCounts st') "bybit" "unified" = Some 0%Z /\
      Ref.ready (Fetcher.cachedData st').
Proof.
  intros i envF envP envU cF fF cP fP cU fU Hnone.
  pose proof (startup_ready i (envF, cF, fF) (envP, cP, fP) (envU, cU, fU) Hnone)
    as Hready.
  destruct (startup_state i envF envP envU cF fF cP fP cU fU Hnone)
    as (dF & dP & dU & clF & clP & clU & HF & HP & HU & Hrun).
  rewrite Hrun in Hready. cbn [snd] in Hready.
  eexists. exists dF, dP, dU. split; [exact Hrun|].
  rewrite HF, HP, HU. do 3 (split; [reflexivity|]).
  unfold Ref.succeeded.
  cbn [Fetcher.cachedData Fetcher.exchanges Fetcher.with_exchanges
       Fetcher.lastFetchTimes Fetcher.errorCounts].
  do 9 (split;
        [rewrite ?entry_updated_other by discriminate; apply entry_updated|]).
  exact Hready.
Qed.

Lemma startup_fills_cache_witness :
  let i := {| Startup.binanceFutures := inr tt;
              Startup.binancePortfolioMargin := inr tt;
              Startup.bybitUnified := inr tt |} in
  exists st',
    Startup.startDataFetcher i (Samples.env, 1000, 2000)%Z
                             (Samples.env, 2000, 3000)%Z
                             (Samples.env, 3000, 4000)%Z = (inr tt, st') /\
    Ref.entry (Fetcher.lastFetchTimes st') "bybit" "unified" = Some 4000%Z /\
    Ref.ready (Fetcher.cachedData st').
Proof.
  intros i.
  destruct (startup_fills_cache i Samples.env Samples.env Samples.env
              1000%Z 2000%Z 2000%Z 3000%Z 3000%Z 4000%Z eq_refl)
    as (st' & dF & dP & dU & Hrun & _ & _ & _ & _ & _ & _ & _ & _ & Hlast & _ & _
        & _ & Hready).
  exists st'. split; [exact Hrun|]. split; [exact Hlast | exact Hready].
Defined.

(** X19.  Once every available selection has cached data and the
    current selection is an available one, as after a start in which
    every client initialized, no sequence of [POST /set-current] requests
    makes [GET /positions] or [GET /account-summary] answer 404: both
    answer 200 with the positions and the summary cached for the current
    selection. *)
Theorem routes_served_after_selections :
  forall (C : Type) (st : Fetcher.State C)
         (requests : list (option string * option string)),
    Ref.ready (Fetcher.cachedData st) ->
    let st' := Ref.selections requests st in
    exists data,
      Routes.cached (Fetcher.cachedData st')
                    (Fetcher.currentExchange (Fetcher.cachedData st'))
                    (Fetcher.currentAccount (Fetcher.cachedData st')) = Some data /\
      Routes.positions st'
      = Routes.json (Routes.PositionsBody (Model.positions data)) /\
      Routes.accountSummary st'
      = Routes.json (Routes.SummaryBody (Model.accountSummary data)).
Proof.
  intros C st requests Hready st'. apply ready_served, ready_selections, Hready.
Qed.

Lemma routes_served_after_selections_witness :
  let i := {| Startup.binanceFutures := inr tt;
              Startup.binancePortfolioMargin := inr tt;
              Startup.bybitUnified := inr tt |} in
  let call := (Samples.env, 1000%Z, 2000%Z) in
  let st := snd (Startup.startDataFetcher i call call call) in
  let st' :=
    Ref.selections [(Some "bybit", Some "unified"); (Some "okx", Some "spot");
                    (None, Some "futures")] st in
  Ref.ready (Fetcher.cachedData st) /\
  exists data,
    Routes.positions st'
    = Routes.json (Routes.PositionsBody (Model.positions data)).
Proof.
  intros i call st st'.
  pose proof (startup_ready i call call call eq_refl) as Hready.
  split; [exact Hready|].
  destruct (routes_served_after_selections Clients.Client st
              [(Some "bybit", Some "unified"); (Some "okx", Some "spot");
               (None, Some "futures")] Hready)
    as (data & _ & Hpositions & _).
  exists data. exact Hpositions.
Defined.

(** X20.  For a body naming an exchange and an account, when every
    available exchange has its list of accounts: [POST /set-current] of
    an available pair answers 200 with the pair, and [GET /positions] and
    [GET /account-summary] then serve the data cached for that pair, or
    404 when none is cached; for any other pair the handler throws
    "Invalid exchange or account: exchange/account" and the state is
    unchanged. *)
Theorem selection_then_positions :
  forall (C : Type) (st : Fetcher.State C) (e a : string),
    Ref.accountsListed (Fetcher.cachedData st) ->
    e <> "" -> a <> "" ->
    (Ref.validSelection (Fetcher.cachedData st) e a ->
     exists st',
       Routes.setCurrent (Some e) (Some a) st
       = (inr (Routes.json (Routes.SelectedBody e a)), st') /\
       Routes.positions st'
       = match Routes.cached (Fetcher.cachedData st) e a with
         | Some data => Routes.json (Routes.PositionsBody (Model.positions data))
         | None =>
             Routes.statusJson 404
               (Routes.ErrorBody
                  "No data available for selected exchange and account")
         end /\
       Routes.accountSummary st'
       = match Routes.cached (Fetcher.cachedData st) e a with
         | Some data =>
             Routes.json (Routes.SummaryBody (Model.accountSummary data))
         | None =>
             Routes.statusJson 404
               (Routes.ErrorBody
                  "No data available for selected exchange and account")
         end) /\
    (~ Ref.validSelection (Fetcher.cachedData st) e a ->
     Routes.setCurrent (Some e) (Some a) st
     = (inl (Fetcher.Error ("Invalid exchange or account: " ++ e ++ "/" ++ a)),
        st)).
Proof. intros C. exact selected_positions. Qed.

Lemma selection_then_positions_witness :
  Ref.accountsListed (Fetcher.cachedData Clients.registeredState) /\
  Ref.validSelection (Fetcher.cachedData Clients.registeredState)
                     "bybit" "unified" /\
  exists st',
    Routes.setCurrent (Some "bybit") (Some "unified") Clients.registeredState
    = (inr (Routes.json (Routes.SelectedBody "bybit" "unified")), st') /\
    Routes.positions st'
    = Routes.statusJson 404
        (Routes.ErrorBody "No data available for selected exchange and account").
Proof.
  assert (Ref.validSelection (Fetcher.cachedData Clients.registeredState)
                             "bybit" "unified") as Hvalid.
  { split; [apply includes_elem_of; reflexivity|].
    eexists. split; [reflexivity | apply includes_elem_of; reflexivity]. }
  split; [exact (initial_accountsListed Clients.Client)|].
  split; [exact Hvalid|].
  destruct (proj1 (selection_then_positions Clients.Client Clients.registeredState
                     "bybit" "unified" (initial_accountsListed Clients.Client)
                     ltac:(discriminate) ltac:(discriminate)) Hvalid)
    as (st' & Hrun & Hpositions & _).
  exists st'. split; [exact Hrun | exact Hpositions].
Defined.

(* ===================================================================== *)
(** ** Total balances                                                     *)
(* ===================================================================== *)

Section WalletFacts.

Local Open Scope Q_scope.

Lemma add_NaN_r (t : JS.number) : JS.add t JS.NaN = JS.NaN.
Proof. destruct t; reflexivity. Qed.

Lemma fold_poisoned {A : Type} (step : JS.number -> A -> JS.number)
      (bad : A -> Prop) (l : list A) (a : A) (t : JS.number) :
  (forall x, step JS.NaN x = JS.NaN) ->
  (forall t x, bad x -> step t x = JS.NaN) ->
  In a l -> bad a ->
  fold_left step l t = JS.NaN.
Proof.
  intros Hkeep Hbad Hin Ha.
  assert (forall l, fold_left step l JS.NaN = JS.NaN) as Hnan.
  { intros l'. induction l' as [|x l' IH]; [reflexivity|].
    cbn [fold_left]. rewrite Hkeep. exact IH. }
  revert t. induction l as [|x l IH]; intros t; [destruct Hin|].
  cbn [fold_left]. destruct Hin as [-> | Hin].
  - rewrite (Hbad t a Ha). apply Hnan.
  - apply IH, Hin.
Qed.

Lemma fold_NaN {A : Type} (step : JS.number -> A -> JS.number) (l : list A) :
  (forall x, step JS.NaN x = JS.NaN) ->
  fold_left step l JS.NaN = JS.NaN.
Proof.
  intros Hkeep. induction l as [|x l IH]; [reflexivity|].
  cbn [fold_left]. rewrite Hkeep. exact IH.
Qed.

Lemma addUsdtAsset_NaN (r : BinanceWallet.Responses) (a : BinanceWallet.Asset) :
  BinanceWallet.addUsdtAsset r JS.NaN a = JS.NaN.
Proof.
  unfold BinanceWallet.addUsdtAsset.
  destruct (JS.le _ JS.zero); [reflexivity|].
  destruct (String.eqb _ "USDT"); reflexivity.
Qed.

Lemma addCoinAsset_NaN (r : BinanceWallet.Responses) (a : BinanceWallet.Asset) :
  BinanceWallet.addCoinAsset r JS.NaN a = JS.NaN.
Proof.
  unfold BinanceWallet.addCoinAsset.
  destruct (JS.le _ JS.zero); reflexivity.
Qed.

Lemma addUsdtAsset_unreadable (r : BinanceWallet.Responses) (t : JS.number)
      (a : BinanceWallet.Asset) :
  JS.parseFloat (BinanceWallet.walletBalance a) = JS.NaN ->
  BinanceWallet.addUsdtAsset r t a = JS.NaN.
Proof.
  intros Hb. unfold BinanceWallet.addUsdtAsset. rewrite Hb. cbn.
  destruct (String.eqb _ "USDT"); apply add_NaN_r.
Qed.

Lemma addCoinAsset_unreadable (r : BinanceWallet.Responses) (t : JS.number)
      (a : BinanceWallet.Asset) :
  JS.parseFloat (BinanceWallet.walletBalance a) = JS.NaN ->
  BinanceWallet.addCoinAsset r t a = JS.NaN.
Proof.
  intros Hb. unfold BinanceWallet.addCoinAsset. rewrite Hb. cbn.
  apply add_NaN_r.
Qed.

Lemma binance_total_poisoned (r : BinanceWallet.Responses)
      (a : BinanceWallet.Asset) :
  In a (Ref.binanceAssets r) ->
  JS.parseFloat (BinanceWallet.walletBalance a) = JS.NaN ->
  BinanceWallet.calculateTotalUSDTBalance r = JS.NaN.
Proof.
  intros Hin Hb.
  unfold BinanceWallet.calculateTotalUSDTBalance. unfold Ref.binanceAssets in Hin.
  destruct (BinanceWallet.usdtFuturesAccount r) as [usdtAssets|]; [|destruct Hin].
  apply in_app_or in Hin. destruct Hin as [Hin | Hin].
  - rewrite (fold_poisoned (BinanceWallet.addUsdtAsset r)
               (fun x => JS.parseFloat (BinanceWallet.walletBalance x) = JS.NaN)
               (default [] usdtAssets) a JS.zero
               (addUsdtAsset_NaN r) (fun t x => addUsdtAsset_unreadable r t x)
               Hin Hb).
    destruct (BinanceWallet.coinFuturesAccount r) as [coinAssets|]; [|reflexivity].
    rewrite (fold_NaN _ _ (addCoinAsset_NaN r)). reflexivity.
  - destruct (BinanceWallet.coinFuturesAccount r) as [coinAssets|]; [|destruct Hin].
    rewrite (fold_poisoned (BinanceWallet.addCoinAsset r)
               (fun x => JS.parseFloat (BinanceWallet.walletBalance x) = JS.NaN)
               (default [] coinAssets) a _
               (addCoinAsset_NaN r) (fun t x => addCoinAsset_unreadable r t x)
               Hin Hb).
    reflexivity.
Qed.

End WalletFacts.

(** X22.  One asset whose [walletBalance] does not read as a number, in
    either account response that the calculation goes through, makes the
    total balance of the Binance client [NaN]: the test [balance <= 0]
    does not skip it. *)
Theorem binance_total_balance_unreadable :
  forall (r : BinanceWallet.Responses) (a : BinanceWallet.Asset),
    In a (Ref.binanceAssets r) ->
    JS.parseFloat (BinanceWallet.walletBalance a) = JS.NaN ->
    BinanceWallet.calculateTotalUSDTBalance r = JS.NaN.
Proof. exact binance_total_poisoned. Qed.

Lemma binance_total_balance_unreadable_witness :
  BinanceWallet.calculateTotalUSDTBalance Samples.binanceWalletUnreadable = JS.NaN.
Proof.
  apply (binance_total_balance_unreadable Samples.binanceWalletUnreadable
           {| BinanceWallet.asset := "BNB";
              BinanceWallet.walletBalance := JS.VUndefined |}).
  - cbn. right. left. reflexivity.
  - reflexivity.
Defined.

(* ===================================================================== *)
(** ** Binary64 numbers                                                   *)
(* ===================================================================== *)

Section F64Facts.

(** What rounding returns carries the sign it was given. *)
Lemma round_aux_signed (s : bool) (m e : Z) (l : location) :
  Ref.signed s (binary_round_aux F64.prec F64.emax s m e l).
Proof.
  unfold binary_round_aux.
  destruct (shr_fexp F64.prec F64.emax m e l) as [mrs' e'].
  destruct (shr_fexp F64.prec F64.emax _ e' loc_Exact) as [mrs'' e''].
  destruct (shr_m mrs''); [reflexivity| |exact I].
  destruct (Z.leb e'' _); reflexivity.
Qed.

Lemma round_signed (s : bool) (m : positive) (e : Z) :
  Ref.signed s (binary_round F64.prec F64.emax s m e).
Proof.
  unfold binary_round.
  destruct (shl_align m e _) as [mz ez]. apply round_aux_signed.
Qed.

Lemma notNegative_cases (x : F64.number) :
  Ref.notNegative x <->
  match x with
  | S754_infinity true | S754_finite true _ _ => False
  | _ => True
  end.
Proof.
  unfold Ref.notNegative, F64.lt, SFltb.
  destruct x as [s|s| |s m e]; try destruct s; cbn; split; intros H;
    try exact I; try reflexivity; try discriminate H; try contradiction.
Qed.

Lemma signed_notNegative (x : F64.number) : Ref.signed false x -> Ref.notNegative x.
Proof.
  intros H. apply notNegative_cases.
  destruct x as [s|s| |s m e]; try exact I; cbn in H; subst s; exact I.
Qed.

Lemma gt_zero_cases (x : F64.number) :
  F64.gt x F64.zero = true ->
  x = S754_infinity false \/ exists m e, x = S754_finite false m e.
Proof.
  unfold F64.gt, SFltb.
  destruct x as [s|s| |s m e]; try destruct s; cbn; try discriminate; eauto.
Qed.

Lemma notNegative_abs (x : F64.number) : Ref.notNegative (F64.abs x).
Proof. apply signed_notNegative. destruct x; reflexivity. Qed.

Lemma notNegative_mul (a b : F64.number) :
  Ref.notNegative a -> Ref.notNegative b -> Ref.notNegative (F64.mul a b).
Proof.
  intros Ha Hb. apply notNegative_cases in Ha. apply notNegative_cases in Hb.
  destruct a as [sa|sa| |sa ma ea], b as [sb|sb| |sb mb eb];
    try destruct sa; try destruct sb; try contradiction;
    try (apply notNegative_cases; exact I);
    apply signed_notNegative, (round_aux_signed false).
Qed.

Lemma notNegative_div (a b : F64.number) :
  Ref.notNegative a -> F64.gt b F64.zero = true -> Ref.notNegative (F64.div a b).
Proof.
  intros Ha Hb. apply notNegative_cases in Ha.
  destruct (gt_zero_cases b Hb) as [-> | (mb & eb & ->)];
    destruct a as [sa|sa| |sa ma ea]; try destruct sa; try contradiction;
    try (apply notNegative_cases; exact I).
  unfold F64.div, SFdiv.
  destruct (SFdiv_core_binary F64.prec F64.emax (Z.pos ma) ea (Z.pos mb) eb)
    as [[mz ez] lz].
  apply signed_notNegative, (round_aux_signed false).
Qed.

Lemma notNegative_add (a b : F64.number) :
  Ref.notNegative a -> Ref.notNegative b -> Ref.notNegative (F64.add a b).
Proof.
  intros Ha Hb. apply notNegative_cases in Ha. apply notNegative_cases in Hb.
  destruct a as [sa|sa| |sa ma ea], b as [sb|sb| |sb mb eb];
    try destruct sa; try destruct sb; try contradiction;
    try (apply notNegative_cases; exact I).
  unfold F64.add, SFadd. cbn [cond_Zopp Z.add]. unfold binary_normalize.
  apply signed_notNegative, (round_signed false).
Qed.

Lemma of_ratio_signed (s : bool) (n : Z) (d : positive) :
  Ref.signed s (F64.of_ratio s n d).
Proof.
  unfold F64.of_ratio. destruct n as [|p|p]; try reflexivity.
  unfold SFdiv.
  destruct (SFdiv_core_binary F64.prec F64.emax (Z.pos p) 0 (Z.pos d) 0)
    as [[mz ez] lz].
  rewrite xorb_false_r. apply round_aux_signed.
Qed.

Lemma notNegative_toFixed2 (x : F64.number) :
  Ref.notNegative x -> Ref.notNegative (F64.toFixed2 x).
Proof.
  intros Hx. pose proof Hx as Hc. apply notNegative_cases in Hc.
  destruct x as [s|s| |s m e]; try exact Hx.
  destruct s; [contradiction|]. unfold F64.toFixed2.
  match goal with |- context [if ?c then _ else _] => destruct c end;
    [exact Hx|].
  apply signed_notNegative, of_ratio_signed.
Qed.

Lemma notNegative_zero : Ref.notNegative F64.zero.
Proof. reflexivity. Qed.

Lemma not_le_zero_notNegative (x : F64.number) :
  F64.le x F64.zero = false -> Ref.notNegative x.
Proof.
  intros H. apply notNegative_cases.
  destruct x as [s|s| |s m e]; try destruct s; try exact I; discriminate H.
Qed.

Lemma gt_zero_notNegative (x : F64.number) :
  F64.gt x F64.zero = true -> Ref.notNegative x.
Proof.
  intros H. apply notNegative_cases.
  destruct (gt_zero_cases x H) as [-> | (m & e & ->)]; exact I.
Qed.




End F64Facts.

(* ===================================================================== *)
(** ** The liquidation buffer, over binary64                              *)
(* ===================================================================== *)

Section BufferFacts64.






End BufferFacts64.



(* ===================================================================== *)
(** ** The account leverage, over binary64                                *)
(* ===================================================================== *)

Section LeverageFacts64.



End LeverageFacts64.



(* ===================================================================== *)
(** ** The liquidation distance, over binary64                            *)
(* ===================================================================== *)

Section DistanceFacts64.

Lemma hundred_notNegative : Ref.notNegative (F64.of_Z 100).
Proof. reflexivity. Qed.







End DistanceFacts64.



(* ===================================================================== *)
(** ** Sizes, margin ratios and balances, over binary64                   *)
(* ===================================================================== *)

Section SizeFacts64.

Lemma futures_size64 (frs : list Binance.FundingRate.t)
      (pos : Binance.RawPosition.t) (p : Model64.Position) :
  Binance64.mapFuturesPosition frs pos = Some p ->
  let amount :=
    F64.toFixed2 (F64.parseFloat (Binance.RawPosition.positionAmt pos)) in
  Model64.size p = F64.abs amount /\
  Ref.notNegative (Model64.size p) /\
  (Model64.side p = Model.LONG <-> F64.gt amount F64.zero = true).
Proof.
  unfold Binance64.mapFuturesPosition. cbv zeta.
  destruct (Binance.marginMode_of _) as [mode|]; [|discriminate].
  intros H. injection H as <-. cbn [Model64.size Model64.side].
  split; [reflexivity|]. split; [apply notNegative_abs|].
  destruct (F64.gt _ F64.zero); split; intros H; try reflexivity; discriminate H.
Qed.

Lemma portfolio_size64 (frs : list Binance.FundingRate.t)
      (pos : Binance.RawPosition.t) (p : Model64.Position) :
  Binance64.mapPortfolioPosition frs pos = Some p ->
  let amount :=
    if Binance64.isCoinM pos then Binance64.portfolioAmount pos
    else F64.toFixed2 (Binance64.portfolioAmount pos) in
  Model64.size p = F64.abs amount /\
  Ref.notNegative (Model64.size p) /\
  (Model64.side p = Model.LONG <-> F64.gt amount F64.zero = true).
Proof.
  unfold Binance64.mapPortfolioPosition. cbv zeta.
  destruct (Binance.marginMode_of _) as [mode|]; [|discriminate].
  destruct (Binance64.isCoinM pos); intros H; injection H as <-;
    cbn [Model64.size Model64.side];
    (split; [reflexivity|]); (split; [apply notNegative_abs|]);
    destruct (F64.gt _ F64.zero); split; intros H; try reflexivity;
    discriminate H.
Qed.

Lemma bybit_size64 (pos : Bybit.RawPosition.t) (fr : option Bybit.Ticker.t) :
  Ref.notNegative (Model64.size (Bybit64.mapPosition pos fr)).
Proof. apply notNegative_toFixed2, notNegative_abs. Qed.

End SizeFacts64.

(** X7.  The size of a normalized position is a magnitude: over binary64
    numbers and for every raw record, the three normalizers produce a
    size that is not negative; the Binance branches report the absolute
    value of the amount they keep (in two decimals, but for COIN-M
    symbols) and LONG exactly when that amount is positive.  An amount of
    0.015 is kept as 0.01. *)
Theorem normalized_size_is_magnitude :
  (forall frs pos p,
      Binance64.mapFuturesPosition frs pos = Some p ->
      let amount :=
        F64.toFixed2 (F64.parseFloat (Binance.RawPosition.positionAmt pos)) in
      Model64.size p = F64.abs amount /\
      Ref.notNegative (Model64.size p) /\
      (Model64.side p = Model.LONG <-> F64.gt amount F64.zero = true)) /\
  (forall frs pos p,
      Binance64.mapPortfolioPosition frs pos = Some p ->
      let amount :=
        if Binance64.isCoinM pos then Binance64.portfolioAmount pos
        else F64.toFixed2 (Binance64.portfolioAmount pos) in
      Model64.size p = F64.abs amount /\
      Ref.notNegative (Model64.size p) /\
      (Model64.side p = Model.LONG <-> F64.gt amount F64.zero = true)) /\
  (forall pos fr, Ref.notNegative (Model64.size (Bybit64.mapPosition pos fr))) /\
  option_map Model64.size (Binance64.mapFuturesPosition [] Samples.tieLong)
  = Some (F64.of_Q (1 # 100)).
Proof.
  split; [exact futures_size64|]. split; [exact portfolio_size64|].
  split; [exact bybit_size64|]. vm_compute. reflexivity.
Qed.

Lemma normalized_size_is_magnitude_witness :
  exists p,
    Binance64.mapFuturesPosition [] Samples.tieLong = Some p /\
    Ref.notNegative (Model64.size p) /\
    Model64.side p = Model.LONG.
Proof.
  eexists. split; [vm_compute; reflexivity|].
  refine ((fun H => conj (proj1 (proj2 H)) (proj2 (proj2 (proj2 H)) eq_refl))
            (proj1 normalized_size_is_magnitude [] Samples.tieLong _ _)).
  vm_compute. reflexivity.
Defined.

Section RatioFacts64.

Lemma marginRatio64_notNegative (E M : F64.number) :
  Ref.notNegative M -> F64.gt E F64.zero = true ->
  Ref.notNegative (Ref.marginRatio64 E M).
Proof.
  intros HM HE. unfold Ref.marginRatio64.
  apply notNegative_toFixed2, notNegative_mul; [|exact hundred_notNegative].
  apply notNegative_div; assumption.
Qed.

Lemma portfolio_ratio64 (b : F64.number) (ai : Binance.AccountInfo.t)
      (ps : list Model64.Position) (os : list JS.value) :
  let E := Ref.binanceEquity Binance.PORTFOLIO_MARGIN ai in
  let M := Ref.binanceMaintenance Binance.PORTFOLIO_MARGIN ai in
  let ratio :=
    Model64.accountMarginRatio
      (Binance64.processAccountSummary Binance.PORTFOLIO_MARGIN b ai ps os) in
  ratio = (if (F64.gt M F64.zero && F64.gt E F64.zero)%bool
           then Ref.marginRatio64 E M else F64.zero) /\
  (F64.gt E F64.zero = false -> ratio = F64.zero) /\
  (F64.gt M F64.zero = false -> ratio = F64.zero) /\
  Ref.notNegative ratio.
Proof.
  cbv zeta.
  change (Model64.accountMarginRatio
            (Binance64.processAccountSummary Binance.PORTFOLIO_MARGIN b ai ps os))
    with (if (F64.gt (Ref.binanceMaintenance Binance.PORTFOLIO_MARGIN ai) F64.zero
              && F64.gt (Ref.binanceEquity Binance.PORTFOLIO_MARGIN ai) F64.zero)%bool
          then Ref.marginRatio64 (Ref.binanceEquity Binance.PORTFOLIO_MARGIN ai)
                                 (Ref.binanceMaintenance Binance.PORTFOLIO_MARGIN ai)
          else F64.zero).
  split; [reflexivity|].
  destruct (F64.gt (Ref.binanceMaintenance _ ai) F64.zero) eqn:HM,
           (F64.gt (Ref.binanceEquity _ ai) F64.zero) eqn:HE; cbn [andb];
    repeat split; intros; try reflexivity; try discriminate;
    try exact notNegative_zero.
  apply marginRatio64_notNegative; [apply gt_zero_notNegative, HM | exact HE].
Qed.

Lemma bybit_ratio64 (b : F64.number) (ai : Bybit.AccountInfo.t)
      (ps : list Model64.Position) (os : list JS.value) :
  let E := Ref.bybitEquity ai in
  let M := Ref.bybitMaintenance ai in
  let ratio := Model64.accountMarginRatio (Bybit64.summarize b ai ps os) in
  ratio = (if F64.gt E F64.zero then Ref.marginRatio64 E M else F64.zero) /\
  (F64.gt E F64.zero = false -> ratio = F64.zero) /\
  (Ref.notNegative M -> Ref.notNegative ratio).
Proof.
  cbv zeta.
  change (Model64.accountMarginRatio (Bybit64.summarize b ai ps os))
    with (if F64.gt (Ref.bybitEquity ai) F64.zero
          then Ref.marginRatio64 (Ref.bybitEquity ai) (Ref.bybitMaintenance ai)
          else F64.zero).
  split; [reflexivity|].
  destruct (F64.gt (Ref.bybitEquity ai) F64.zero) eqn:HE;
    split; intros; try reflexivity; try discriminate;
    try exact notNegative_zero.
  apply marginRatio64_notNegative; assumption.
Qed.

End RatioFacts64.

(** X10.  The margin ratio of the portfolio-margin summary and of the
    Bybit summary is guarded: over binary64 numbers and for every account
    response, it is 0 whenever the two-decimal equity is not positive, so
    that no division by zero reaches it; otherwise it is
    [maintenanceMargin / equity * 100] in two decimals (on the Binance
    branch also guarded by a positive maintenance margin).  On the
    Binance branch it is never negative, on the Bybit path it is not
    negative when the maintenance margin is not. *)
Theorem marginRatio_guarded :
  (forall b ai ps os,
      let E := Ref.binanceEquity Binance.PORTFOLIO_MARGIN ai in
      let M := Ref.binanceMaintenance Binance.PORTFOLIO_MARGIN ai in
      let ratio :=
        Model64.accountMarginRatio
          (Binance64.processAccountSummary Binance.PORTFOLIO_MARGIN b ai ps os) in
      ratio = (if (F64.gt M F64.zero && F64.gt E F64.zero)%bool
               then Ref.marginRatio64 E M else F64.zero) /\
      (F64.gt E F64.zero = false -> ratio = F64.zero) /\
      (F64.gt M F64.zero = false -> ratio = F64.zero) /\
      Ref.notNegative ratio) /\
  (forall b ai ps os,
      let E := Ref.bybitEquity ai in
      let M := Ref.bybitMaintenance ai in
      let ratio := Model64.accountMarginRatio (Bybit64.summarize b ai ps os) in
      ratio = (if F64.gt E F64.zero then Ref.marginRatio64 E M else F64.zero) /\
      (F64.gt E F64.zero = false -> ratio = F64.zero) /\
      (Ref.notNegative M -> Ref.notNegative ratio)).
Proof. split; [exact portfolio_ratio64 | exact bybit_ratio64]. Qed.

Lemma marginRatio_guarded_witness :
  F64.gt (Ref.binanceEquity Binance.PORTFOLIO_MARGIN (Samples.binanceAccount "0" "10"))
         F64.zero = false /\
  Model64.accountMarginRatio
    (Binance64.processAccountSummary Binance.PORTFOLIO_MARGIN F64.zero
       (Samples.binanceAccount "0" "10") [] [])
  = F64.zero /\
  F64.gt (Ref.bybitEquity (Samples.bybitAccount "0" "10")) F64.zero = false /\
  Model64.accountMarginRatio
    (Bybit64.summarize F64.zero (Samples.bybitAccount "0" "10") [] [])
  = F64.zero.
Proof.
  split; [vm_compute; reflexivity|]. split.
  - apply (proj1 (proj2 (proj1 marginRatio_guarded F64.zero
                           (Samples.binanceAccount "0" "10") [] []))).
    vm_compute. reflexivity.
  - split; [vm_compute; reflexivity|].
    apply (proj1 (proj2 (proj2 marginRatio_guarded F64.zero
                           (Samples.bybitAccount "0" "10") [] []))).
    vm_compute. reflexivity.
Defined.

Section WalletFacts64.

Lemma fold_notNegative {A : Type} (step : F64.number -> A -> F64.number)
      (l : list A) (t : F64.number) :
  (forall t a, Ref.notNegative t -> Ref.notNegative (step t a)) ->
  Ref.notNegative t ->
  Ref.notNegative (fold_left step l t).
Proof.
  intros Hstep. revert t. induction l as [|a l IH]; intros t Ht; [exact Ht|].
  cbn [fold_left]. apply IH, Hstep, Ht.
Qed.

Lemma binance_price64 (r : BinanceWallet.Responses) (symbol : string) :
  (forall symbol price,
      BinanceWallet.tickerPrice r symbol = Some price ->
      Ref.notNegative (F64.parseFloat price)) ->
  Ref.notNegative (BinanceWallet64.getAssetPrice r symbol).
Proof.
  intros Hprices. unfold BinanceWallet64.getAssetPrice.
  destruct (BinanceWallet.tickerPrice r symbol) as [price|] eqn:Hprice.
  - exact (Hprices symbol price Hprice).
  - exact notNegative_zero.
Qed.

Lemma binance_usdt_price64 (r : BinanceWallet.Responses) (asset : string) :
  (forall symbol price,
      BinanceWallet.tickerPrice r symbol = Some price ->
      Ref.notNegative (F64.parseFloat price)) ->
  Ref.notNegative (BinanceWallet64.getUSDTPrice r asset).
Proof.
  intros Hprices. unfold BinanceWallet64.getUSDTPrice.
  destruct (String.eqb asset "USDT"); [reflexivity|].
  destruct (F64.gt _ F64.zero) eqn:Hgt; [apply gt_zero_notNegative, Hgt|].
  apply notNegative_mul; apply binance_price64, Hprices.
Qed.

Lemma addUsdtAsset64 (r : BinanceWallet.Responses) (t : F64.number)
      (a : BinanceWallet.Asset) :
  (forall symbol price,
      BinanceWallet.tickerPrice r symbol = Some price ->
      Ref.notNegative (F64.parseFloat price)) ->
  Ref.notNegative t -> Ref.notNegative (BinanceWallet64.addUsdtAsset r t a).
Proof.
  intros Hprices Ht. unfold BinanceWallet64.addUsdtAsset.
  destruct (F64.le _ F64.zero) eqn:Hle; [exact Ht|].
  apply not_le_zero_notNegative in Hle.
  destruct (String.eqb _ "USDT"); apply notNegative_add; try assumption.
  apply notNegative_mul; [exact Hle | apply binance_usdt_price64, Hprices].
Qed.

Lemma addCoinAsset64 (r : BinanceWallet.Responses) (t : F64.number)
      (a : BinanceWallet.Asset) :
  (forall symbol price,
      BinanceWallet.tickerPrice r symbol = Some price ->
      Ref.notNegative (F64.parseFloat price)) ->
  Ref.notNegative t -> Ref.notNegative (BinanceWallet64.addCoinAsset r t a).
Proof.
  intros Hprices Ht. unfold BinanceWallet64.addCoinAsset.
  destruct (F64.le _ F64.zero) eqn:Hle; [exact Ht|].
  apply not_le_zero_notNegative in Hle.
  apply notNegative_add; [exact Ht|].
  apply notNegative_mul; [exact Hle | apply binance_usdt_price64, Hprices].
Qed.

Lemma binance_total64 (r : BinanceWallet.Responses) :
  (forall symbol price,
      BinanceWallet.tickerPrice r symbol = Some price ->
      Ref.notNegative (F64.parseFloat price)) ->
  Ref.notNegative (BinanceWallet64.calculateTotalUSDTBalance r).
Proof.
  intros Hprices. unfold BinanceWallet64.calculateTotalUSDTBalance.
  apply notNegative_toFixed2.
  destruct (BinanceWallet.usdtFuturesAccount r) as [assets|];
    [|exact notNegative_zero].
  assert (Ref.notNegative
            (fold_left (BinanceWallet64.addUsdtAsset r) (default [] assets)
                       F64.zero)) as Husdt.
  { apply fold_notNegative; [|exact notNegative_zero].
    intros t a. apply addUsdtAsset64, Hprices. }
  destruct (BinanceWallet.coinFuturesAccount r) as [coinAssets|]; [|exact Husdt].
  apply fold_notNegative; [|exact Husdt].
  intros t a. apply addCoinAsset64, Hprices.
Qed.

Lemma bybit_price64 (r : BybitWallet.Responses) (symbol : string) :
  (forall symbol price,
      BybitWallet.lastPrice r symbol = Some price ->
      Ref.notNegative (F64.parseFloat price)) ->
  Ref.notNegative (BybitWallet64.getAssetPrice r symbol).
Proof.
  intros Hprices. unfold BybitWallet64.getAssetPrice.
  destruct (BybitWallet.lastPrice r (symbol ++ "USDT")) as [price|] eqn:Hprice;
    [|exact notNegative_zero].
  destruct (F64.truthy price); [|exact notNegative_zero].
  exact (Hprices _ price Hprice).
Qed.

Lemma addCoin64 (r : BybitWallet.Responses) (t : F64.number)
      (a : BybitWallet.Coin.t) :
  (forall symbol price,
      BybitWallet.lastPrice r symbol = Some price ->
      Ref.notNegative (F64.parseFloat price)) ->
  Ref.notNegative t -> Ref.notNegative (BybitWallet64.addCoin r t a).
Proof.
  intros Hprices Ht. unfold BybitWallet64.addCoin. cbv zeta.
  destruct (F64.gt _ F64.zero) eqn:Hgt.
  - apply notNegative_add; [exact Ht | apply gt_zero_notNegative, Hgt].
  - destruct (F64.le _ F64.zero) eqn:Hle; [exact Ht|].
    apply not_le_zero_notNegative in Hle.
    destruct (String.eqb _ "USDT"); apply notNegative_add; try assumption.
    apply notNegative_mul; [exact Hle | apply bybit_price64, Hprices].
Qed.

Lemma bybit_total64 (r : BybitWallet.Responses) :
  (forall symbol price,
      BybitWallet.lastPrice r symbol = Some price ->
      Ref.notNegative (F64.parseFloat price)) ->
  Ref.notNegative (BybitWallet64.calculateTotalUSDTBalance r).
Proof.
  intros Hprices. unfold BybitWallet64.calculateTotalUSDTBalance.
  destruct (BybitWallet.walletBalance r) as [[wallet|]|];
    try exact notNegative_zero.
  cbv zeta. destruct (F64.gt _ F64.zero) eqn:Hgt.
  - apply notNegative_toFixed2, gt_zero_notNegative, Hgt.
  - apply notNegative_toFixed2, fold_notNegative; [|exact notNegative_zero].
    intros t a. apply addCoin64, Hprices.
Qed.

End WalletFacts64.

(** X21.  Over binary64 numbers: when no ticker price that is answered
    reads as a negative number, the total balance computed by the Binance
    client is not negative, whatever the wallet balances are and whichever
    requests fail.  (It can be infinite, and it is [NaN] with an
    unreadable balance.) *)
Theorem binance_total_balance_nonnegative :
  forall r : BinanceWallet.Responses,
    (forall symbol price,
        BinanceWallet.tickerPrice r symbol = Some price ->
        Ref.notNegative (F64.parseFloat price)) ->
    Ref.notNegative (BinanceWallet64.calculateTotalUSDTBalance r).
Proof. exact binance_total64. Qed.

Lemma binance_total_balance_nonnegative_witness :
  Ref.notNegative (BinanceWallet64.calculateTotalUSDTBalance Samples.binanceWallet) /\
  BinanceWallet64.calculateTotalUSDTBalance Samples.binanceWallet
  = F64.of_Q (13007 # 10).
Proof.
  split; [|vm_compute; reflexivity].
  apply (binance_total_balance_nonnegative Samples.binanceWallet).
  intros symbol price H. cbn in H.
  destruct (String.eqb symbol "BNBUSDT").
  - injection H as <-. vm_compute. reflexivity.
  - destruct (String.eqb symbol "BTCUSDT"); [|discriminate H].
    injection H as <-. vm_compute. reflexivity.
Defined.

(** X23.  Over binary64 numbers: when no last price that is answered
    reads as a negative number, the total balance computed by the Bybit
    client is not negative, whether the reported total or the fallback
    over the coins is used, whatever the wallet fields are and whichever
    requests fail. *)
Theorem bybit_total_balance_nonnegative :
  forall r : BybitWallet.Responses,
    (forall symbol price,
        BybitWallet.lastPrice r symbol = Some price ->
        Ref.notNegative (F64.parseFloat price)) ->
    Ref.notNegative (BybitWallet64.calculateTotalUSDTBalance r).
Proof. exact bybit_total64. Qed.

Lemma bybit_total_balance_nonnegative_witness :
  Ref.notNegative (BybitWallet64.calculateTotalUSDTBalance Samples.bybitWallet) /\
  BybitWallet64.calculateTotalUSDTBalance Samples.bybitWallet
  = F64.of_Q (605025 # 100).
Proof.
  split; [|vm_compute; reflexivity].
  apply (bybit_total_balance_nonnegative Samples.bybitWallet).
  intros symbol price H. cbn in H.
  destruct (String.eqb symbol "ETHUSDT"); [|discriminate H].
  injection H as <-. vm_compute. reflexivity.
Defined.

(** X12.  For keys that name no member inherited from
    [Object.prototype]: [fetchExchangeData] for an exchange that has no
    entry in [exchangeClients] throws a [TypeError] and changes nothing;
    for a known exchange without a client under the account it returns
    without calling anything or changing the state. *)
Theorem fetch_without_client :
  forall (Env C : Type) (getExchangeData : Env -> C -> option Model.ExchangeData * C)
         (env : Env) (checked finished : Z) (exchange accountId : string)
         (st : Fetcher.State C),
    (Ref.plainKey exchange ->
     Fetcher.exchangeClients st !! exchange = None ->
     Fetcher.fetchExchangeData getExchangeData env checked finished
                               exchange accountId st
     = (inl Fetcher.TypeError, st)) /\
    (forall accounts,
        Ref.plainKey accountId ->
        Fetcher.exchangeClients st !! exchange = Some accounts ->
        accounts !! accountId = None ->
        Fetcher.fetchExchangeData getExchangeData env checked finished
                                  exchange accountId st
        = (inr tt, st)).
Proof.
  intros Env C get env checked finished exchange accountId st. split.
  - intros _. apply fetch_unknown_exchange.
  - intros accounts _. apply fetch_unregistered_account.
Qed.

Lemma fetch_without_client_witness :
  Ref.plainKey "okx" /\ Ref.plainKey "spot" /\
  Fetcher.fetchExchangeData Ref.rejecting tt 1000 2000 "okx" "futures"
                            Samples.rejectingState
  = (inl Fetcher.TypeError, Samples.rejectingState) /\
  Fetcher.fetchExchangeData Ref.rejecting tt 1000 2000 "binance" "spot"
                            Samples.rejectingState
  = (inr tt, Samples.rejectingState).
Proof.
  assert (Ref.plainKey "okx") as Hokx.
  { intros Hin. cbn in Hin.
    repeat (destruct Hin as [Hin|Hin]; [discriminate Hin|]). exact Hin. }
  assert (Ref.plainKey "spot") as Hspot.
  { intros Hin. cbn in Hin.
    repeat (destruct Hin as [Hin|Hin]; [discriminate Hin|]). exact Hin. }
  split; [exact Hokx|]. split; [exact Hspot|]. split.
  - apply (proj1 (fetch_without_client unit unit Ref.rejecting tt 1000%Z 2000%Z
                    "okx" "futures" Samples.rejectingState) Hokx).
    reflexivity.
  - apply (proj2 (fetch_without_client unit unit Ref.rejecting tt 1000%Z 2000%Z
                    "binance" "spot" Samples.rejectingState)
                 (<["futures" := tt]> ∅) Hspot); reflexivity.
Defined.
